(** * Expense tracker: transaction service, receipt adapter and reports

    A shallow embedding of
      - the server actions of [lib/actions/transactions.ts]
        (createTransaction, updateTransaction, deleteTransaction,
        getTransactions, getMonthlyTotal, getTransactionsByDateRange),
      - the receipt scan of [app/actions/scan-receipt.ts], from the data
        URL to the validated response,
      - the window, the trend series, the category breakdown, the top
        expenses and the total of the reports page,
      - the grouping by day and the search of the records page,
      - the submit guard of the transaction modal and the currency
        selection of the profile page,
    together with the parts of ECMAScript ([parseFloat], [String.prototype.trim],
    the [Date] object) and of date-fns that this code calls.

    Conventions of the model.
      - A [Date] is its time value, an integer number of milliseconds since
        the epoch; invalid dates are not represented.  Local time is UTC
        shifted by a fixed offset [tz] (no daylight-saving transitions).
      - The number that [parseFloat] reads is [NaN], an infinity or a
        rational; the magnitude classes of binary64 (overflow to an
        infinity, underflow to zero) are kept, the rounding of the mantissa
        is not.
      - The amount column is DECIMAL(65,30): a written amount is rounded to
        30 decimal places and refused from 10^35 on; a stored amount is an
        exact rational.
      - The sums of the reports page that the trend and the total show are
        binary64 sums ([Double], [Reports64]): [Number(amount)] is the
        nearest double and each [+] rounds.  The category breakdown and the
        order of the top expenses are stated over the stored decimals.
      - A string is a sequence of code units below 256; its white space is
        TAB, LF, VT, FF, CR, SP and NBSP.
      - A thrown value is an [Error] with its message, [null], [undefined]
        or some other value.
      - [console.log] and [console.error] are left out. *)

From Stdlib Require Import ZArith QArith Qabs List String Ascii Bool Lia.
From Stdlib Require Import Permutation Sorted.
From Stdlib Require Import Floats.SpecFloat.
Import ListNotations.

Open Scope Z_scope.

(* ===================================================================== *)
(** * ECMAScript values *)
(* ===================================================================== *)

Module JS.

(** ** Numbers *)

Inductive number : Type :=
| NaN
| Infinity (negative : bool)
| Finite (q : Q).

Definition isNaN (n : number) : bool :=
  match n with NaN => true | _ => false end.

(** [n <= 0] *)
Definition leq0 (n : number) : bool :=
  match n with
  | NaN => false
  | Infinity negative => negative
  | Finite q => Qle_bool q 0
  end.

(** [!n] for a number: zero and NaN are falsy. *)
Definition falsy_number (n : number) : bool :=
  match n with
  | NaN => true
  | Infinity _ => false
  | Finite q => Qeq_bool q 0
  end.

(** Halfway points of binary64 rounding: at or above [overflow_threshold]
    a magnitude rounds to an infinity, at or below [underflow_threshold] it
    rounds to zero. *)
Definition overflow_threshold : Q := inject_Z (2 ^ 1024 - 2 ^ 970).
Definition underflow_threshold : Q := 1 # (Z.to_pos (2 ^ 1075)).

Definition roundToDouble (q : Q) : number :=
  if Qle_bool overflow_threshold (Qabs q) then Infinity (negb (Qle_bool 0 q))
  else if Qle_bool (Qabs q) underflow_threshold then Finite 0
  else Finite q.

(** ** Strings *)

Definition chars := list ascii.

(** WhiteSpace and LineTerminator among the code units below 256: TAB, LF,
    VT, FF, CR, SP and NBSP (U+00A0). *)
Definition isWhiteSpace (c : ascii) : bool :=
  let n := nat_of_ascii c in
  ((9 <=? n) && (n <=? 13))%nat || (n =? 32)%nat || (n =? 160)%nat.

Fixpoint trimStart (s : chars) : chars :=
  match s with
  | c :: r => if isWhiteSpace c then trimStart r else s
  | [] => []
  end.

Definition trimEnd (s : chars) : chars := rev (trimStart (rev s)).

(** [s.trim()] *)
Definition trim (s : string) : string :=
  string_of_list_ascii (trimEnd (trimStart (list_ascii_of_string s))).

(** [!s] for a string *)
Definition falsy_string (s : string) : bool :=
  match s with EmptyString => true | _ => false end.

Fixpoint startsWith (p s : chars) : bool :=
  match p, s with
  | [], _ => true
  | a :: p', b :: s' => Ascii.eqb a b && startsWith p' s'
  | _ :: _, [] => false
  end.

(** [s.replace(/p/g, "")] for a literal, non-empty pattern [p]. *)
Fixpoint removeAll_aux (fuel : nat) (p s : chars) : chars :=
  match fuel with
  | O => s
  | S fuel' =>
      match s with
      | [] => []
      | c :: r =>
          if startsWith p s then removeAll_aux fuel' p (skipn (List.length p) s)
          else c :: removeAll_aux fuel' p r
      end
  end.

Definition removeAll (p s : string) : string :=
  let s' := list_ascii_of_string s in
  string_of_list_ascii (removeAll_aux (S (List.length s')) (list_ascii_of_string p) s').

(** [s.includes(p)] *)
Fixpoint includes_aux (p s : chars) : bool :=
  startsWith p s ||
  match s with
  | [] => false
  | _ :: r => includes_aux p r
  end.

Definition includes (s p : string) : bool :=
  includes_aux (list_ascii_of_string p) (list_ascii_of_string s).

(** [arr.includes(x)] on an array of strings *)
Definition array_includes (arr : list string) (x : string) : bool :=
  existsb (String.eqb x) arr.

(** ** parseFloat *)

Definition isDigit (c : ascii) : bool :=
  let n := nat_of_ascii c in ((48 <=? n) && (n <=? 57))%nat.

Definition digitValue (c : ascii) : Z := Z.of_nat (nat_of_ascii c) - 48.

Fixpoint spanDigits (s : chars) : chars * chars :=
  match s with
  | c :: r =>
      if isDigit c then let (d, rest) := spanDigits r in (c :: d, rest)
      else ([], s)
  | [] => ([], [])
  end.

Definition digitsValue (d : chars) : Z :=
  fold_left (fun acc c => 10 * acc + digitValue c) d 0.

Definition pow10 (e : Z) : Q :=
  if 0 <=? e then inject_Z (10 ^ e) else 1 # (Z.to_pos (10 ^ (- e))).

(** ExponentPart: [e] or [E], an optional sign and at least one digit;
    when no digit follows, the exponent is not part of the longest prefix. *)
Definition parseExponent (s : chars) : Z :=
  match s with
  | c :: r =>
      if (Ascii.eqb c "e" || Ascii.eqb c "E")%char then
        match r with
        | sg :: r' =>
            if Ascii.eqb sg "-"%char then
              match fst (spanDigits r') with [] => 0 | d => - digitsValue d end
            else if Ascii.eqb sg "+"%char then digitsValue (fst (spanDigits r'))
            else digitsValue (fst (spanDigits r))
        | [] => 0
        end
      else 0
  | [] => 0
  end.

(** The longest prefix that is a StrUnsignedDecimalLiteral, as its exact
    decimal value; [None] when there is none. *)
Definition parseUnsigned (s : chars) : option (Z * Z * Z) :=
  let (ip, r1) := spanDigits s in
  match r1 with
  | "."%char :: r2 =>
      let (fp, r3) := spanDigits r2 in
      match ip, fp with
      | [], [] => None
      | _, _ =>
          Some (digitsValue (ip ++ fp), Z.of_nat (List.length fp), parseExponent r3)
      end
  | _ =>
      match ip with
      | [] => None
      | _ => Some (digitsValue ip, 0, parseExponent r1)
      end
  end.

Definition Infinity_literal : chars := list_ascii_of_string "Infinity".

Definition parseMagnitude (negative : bool) (s : chars) : number :=
  if startsWith Infinity_literal s then Infinity negative
  else
    match parseUnsigned s with
    | None => NaN
    | Some (m, f, e) =>
        let q := (inject_Z m * pow10 (e - f))%Q in
        roundToDouble (if negative then (- q)%Q else q)
    end.

Definition parseFloat (s : string) : number :=
  match trimStart (list_ascii_of_string s) with
  | c :: r =>
      if Ascii.eqb c "-"%char then parseMagnitude true r
      else if Ascii.eqb c "+"%char then parseMagnitude false r
      else parseMagnitude false (c :: r)
  | [] => NaN
  end.

End JS.

(* ===================================================================== *)
(** * The Date object (ECMAScript, section "Date Objects") *)
(* ===================================================================== *)

Module Date.

Definition msPerDay : Z := 86400000.
Definition msPerHour : Z := 3600000.
Definition msPerMinute : Z := 60000.
Definition msPerSecond : Z := 1000.

Definition Day (t : Z) : Z := t / msPerDay.
Definition TimeWithinDay (t : Z) : Z := t mod msPerDay.

Definition isLeapYear (y : Z) : bool :=
  if negb (y mod 4 =? 0) then false
  else if negb (y mod 100 =? 0) then true
  else if negb (y mod 400 =? 0) then false
  else true.

Definition DaysInYear (y : Z) : Z := if isLeapYear y then 366 else 365.

Definition DayFromYear (y : Z) : Z :=
  365 * (y - 1970) + (y - 1969) / 4 - (y - 1901) / 100 + (y - 1601) / 400.

(** The largest year whose first day is not after day [d]: an estimate
    from the mean length of a year, corrected by at most one. *)
Definition YearFromDay (d : Z) : Z :=
  let y := 1970 + (400 * d) / 146097 in
  if d <? DayFromYear y then y - 1
  else if DayFromYear (y + 1) <=? d then y + 1
  else y.

Definition YearFromTime (t : Z) : Z := YearFromDay (Day t).
Definition InLeapYear (t : Z) : Z :=
  if isLeapYear (YearFromTime t) then 1 else 0.
Definition DayWithinYear (t : Z) : Z := Day t - DayFromYear (YearFromTime t).

(** Day number within the year of the first day of month [m] (0..11). *)
Definition monthStart (leap : Z) (m : Z) : Z :=
  match m with
  | 0 => 0
  | 1 => 31
  | 2 => 59 + leap
  | 3 => 90 + leap
  | 4 => 120 + leap
  | 5 => 151 + leap
  | 6 => 181 + leap
  | 7 => 212 + leap
  | 8 => 243 + leap
  | 9 => 273 + leap
  | 10 => 304 + leap
  | 11 => 334 + leap
  | _ => 365 + leap
  end.

Definition MonthFromTime (t : Z) : Z :=
  let d := DayWithinYear t in
  let l := InLeapYear t in
  if d <? 31 then 0
  else if d <? 59 + l then 1
  else if d <? 90 + l then 2
  else if d <? 120 + l then 3
  else if d <? 151 + l then 4
  else if d <? 181 + l then 5
  else if d <? 212 + l then 6
  else if d <? 243 + l then 7
  else if d <? 273 + l then 8
  else if d <? 304 + l then 9
  else if d <? 334 + l then 10
  else 11.

Definition DateFromTime (t : Z) : Z :=
  DayWithinYear t - monthStart (InLeapYear t) (MonthFromTime t) + 1.

Definition WeekDay (t : Z) : Z := (Day t + 4) mod 7.

Definition HourFromTime (t : Z) : Z := (t / msPerHour) mod 24.
Definition MinFromTime (t : Z) : Z := (t / msPerMinute) mod 60.
Definition SecFromTime (t : Z) : Z := (t / msPerSecond) mod 60.
Definition msFromTime (t : Z) : Z := t mod msPerSecond.

Definition MakeTime (hour min sec ms : Z) : Z :=
  hour * msPerHour + min * msPerMinute + sec * msPerSecond + ms.

Definition MakeDay (year month date : Z) : Z :=
  let ym := year + month / 12 in
  let mn := month mod 12 in
  DayFromYear ym + monthStart (if isLeapYear ym then 1 else 0) mn + date - 1.

Definition MakeDate (day time : Z) : Z := day * msPerDay + time.

Section LocalTime.

(** Offset of local time from UTC, in milliseconds. *)
Variable tz : Z.

Definition LocalTime (t : Z) : Z := t + tz.
Definition UTC (t : Z) : Z := t - tz.

Definition getFullYear (t : Z) : Z := YearFromTime (LocalTime t).
Definition getMonth (t : Z) : Z := MonthFromTime (LocalTime t).
Definition getDate (t : Z) : Z := DateFromTime (LocalTime t).
Definition getDay (t : Z) : Z := WeekDay (LocalTime t).
Definition getHours (t : Z) : Z := HourFromTime (LocalTime t).
Definition getMinutes (t : Z) : Z := MinFromTime (LocalTime t).
Definition getSeconds (t : Z) : Z := SecFromTime (LocalTime t).
Definition getMilliseconds (t : Z) : Z := msFromTime (LocalTime t).

Definition orElse (o : option Z) (d : Z) : Z :=
  match o with Some v => v | None => d end.

(** [d.setHours(hour, min?, sec?, ms?)] *)
Definition setHours (d hour : Z) (min sec ms : option Z) : Z :=
  let t := LocalTime d in
  let m := orElse min (MinFromTime t) in
  let s := orElse sec (SecFromTime t) in
  let milli := orElse ms (msFromTime t) in
  UTC (MakeDate (Day t) (MakeTime hour m s milli)).

(** [d.setDate(date)] *)
Definition setDate (d date : Z) : Z :=
  let t := LocalTime d in
  UTC (MakeDate (MakeDay (YearFromTime t) (MonthFromTime t) date)
                (TimeWithinDay t)).

(** [d.setMonth(month, date?)] *)
Definition setMonth (d month : Z) (date : option Z) : Z :=
  let t := LocalTime d in
  let dt := orElse date (DateFromTime t) in
  UTC (MakeDate (MakeDay (YearFromTime t) month dt) (TimeWithinDay t)).

(** [d.setFullYear(year, month?, date?)] *)
Definition setFullYear (d year : Z) (month date : option Z) : Z :=
  let t := LocalTime d in
  let m := orElse month (MonthFromTime t) in
  let dt := orElse date (DateFromTime t) in
  UTC (MakeDate (MakeDay year m dt) (TimeWithinDay t)).

(** [new Date(year, month, date)]: a year from 0 to 99 means 1900 + year. *)
Definition fromFields (year month date : Z) : Z :=
  let yr := if (0 <=? year) && (year <=? 99) then 1900 + year else year in
  UTC (MakeDate (MakeDay yr month date) (MakeTime 0 0 0 0)).

End LocalTime.

End Date.

(* ===================================================================== *)
(** * date-fns

    The functions of the date library that the reports page imports, after
    the library's sources (version 3 and later: an interval whose end is
    before its start is walked backwards instead of being refused), written
    with the [Date] methods above.  The loops of [eachDayOfInterval],
    [eachWeekOfInterval] and [eachMonthOfInterval] run on a number of rounds
    computed from the interval; [TrendFacts.exit_spec] shows that the rounds
    suffice. *)
(* ===================================================================== *)

Module DateFns.
Import Date.

(** [while (+date <= endTime) { dates.push(emit(date)); date = next(date) }],
    bounded by [fuel] iterations. *)
Fixpoint whileNotAfter (fuel : nat) (emit next : Z -> Z) (endTime cur : Z)
  : list Z :=
  match fuel with
  | O => []
  | S fuel' =>
      if cur <=? endTime
      then emit cur :: whileNotAfter fuel' emit next endTime (next cur)
      else []
  end.

(** Enough iterations for a loop whose variable grows by at least [step]
    milliseconds in each round. *)
Definition roundsFor (step endTime cur : Z) : nat :=
  S (Z.to_nat ((endTime - cur) / step)).

Definition monthNames : list string :=
  ["Jan"; "Feb"; "Mar"; "Apr"; "May"; "Jun";
   "Jul"; "Aug"; "Sep"; "Oct"; "Nov"; "Dec"]%string.

Fixpoint digitsOf (fuel : nat) (n : Z) (acc : string) : string :=
  match fuel with
  | O => acc
  | S fuel' =>
      let acc' := String (ascii_of_nat (48 + Z.to_nat (n mod 10))) acc in
      if n <? 10 then acc' else digitsOf fuel' (n / 10) acc'
  end.

(** Decimal numeral of a natural number. *)
Definition decimal (n : Z) : string := digitsOf (S (Z.to_nat (Z.log2 n))) n "".

Fixpoint zeros (n : nat) : string :=
  match n with O => ""%string | S n' => String "0" (zeros n') end.

Definition addLeadingZeros (n : Z) (targetLength : nat) : string :=
  let s := decimal n in
  (zeros (targetLength - String.length s) ++ s)%string.

Section LocalTime.

Variable tz : Z.

Definition startOfDay (d : Z) : Z :=
  setHours tz d 0 (Some 0) (Some 0) (Some 0).

Definition startOfMonth (d : Z) : Z :=
  startOfDay (setDate tz d 1).

Definition endOfMonth (d : Z) : Z :=
  let month := getMonth tz d in
  let d1 := setFullYear tz d (getFullYear tz d) (Some (month + 1)) (Some 0) in
  setHours tz d1 23 (Some 59) (Some 59) (Some 999).

Definition startOfYear (d : Z) : Z :=
  startOfDay (setFullYear tz 0 (getFullYear tz d) (Some 0) (Some 1)).

Definition endOfYear (d : Z) : Z :=
  let year := getFullYear tz d in
  let d1 := setFullYear tz d (year + 1) (Some 0) (Some 0) in
  setHours tz d1 23 (Some 59) (Some 59) (Some 999).

Definition addDays (d amount : Z) : Z :=
  if amount =? 0 then d else setDate tz d (getDate tz d + amount).

Definition addWeeks (d amount : Z) : Z := addDays d (amount * 7).

Definition addMonths (d amount : Z) : Z :=
  if amount =? 0 then d
  else
    let dayOfMonth := getDate tz d in
    let endOfDesiredMonth := setMonth tz d (getMonth tz d + amount + 1) (Some 0) in
    let daysInMonth := getDate tz endOfDesiredMonth in
    if daysInMonth <=? dayOfMonth then endOfDesiredMonth
    else setFullYear tz d (getFullYear tz endOfDesiredMonth)
                     (Some (getMonth tz endOfDesiredMonth)) (Some dayOfMonth).

Definition subMonths (d amount : Z) : Z := addMonths d (- amount).

(** [startOfWeek] with the default [weekStartsOn = 0] (Sunday). *)
Definition startOfWeek (d : Z) : Z :=
  let weekStartsOn := 0 in
  let day := getDay tz d in
  let diff := (if day <? weekStartsOn then 7 else 0) + day - weekStartsOn in
  startOfDay (setDate tz d (getDate tz d - diff)).

Definition nextDay (d : Z) : Z := startOfDay (setDate tz d (getDate tz d + 1)).

Definition eachDayOfInterval (start end_ : Z) : list Z :=
  let reversed := end_ <? start in
  let endTime := if reversed then start else end_ in
  let date := startOfDay (if reversed then end_ else start) in
  let dates :=
    whileNotAfter (roundsFor msPerDay endTime date) (fun d => d) nextDay
                  endTime date in
  if reversed then rev dates else dates.

Definition weekEmit (d : Z) : Z := setHours tz d 0 None None None.
Definition nextWeek (d : Z) : Z :=
  setHours tz (addWeeks (weekEmit d) 1) 15 None None None.

Definition eachWeekOfInterval (start end_ : Z) : list Z :=
  let reversed := end_ <? start in
  let startDateWeek := startOfWeek (if reversed then end_ else start) in
  let endDateWeek := startOfWeek (if reversed then start else end_) in
  let startDateWeek := setHours tz startDateWeek 15 None None None in
  let endDateWeek := setHours tz endDateWeek 15 None None None in
  let endTime := endDateWeek in
  let dates :=
    whileNotAfter (roundsFor (7 * msPerDay) endTime startDateWeek)
                  weekEmit nextWeek endTime startDateWeek in
  if reversed then rev dates else dates.

Definition nextMonth (d : Z) : Z := setMonth tz d (getMonth tz d + 1) None.

Definition eachMonthOfInterval (start end_ : Z) : list Z :=
  let reversed := end_ <? start in
  let endTime := if reversed then start else end_ in
  let date := startOfDay (if reversed then end_ else start) in
  let date := setDate tz date 1 in
  let dates :=
    whileNotAfter (roundsFor (28 * msPerDay) endTime date) (fun d => d)
                  nextMonth endTime date in
  if reversed then rev dates else dates.

(** [format(d, 'MMM d')] *)
Definition format_MMM_d (d : Z) : string :=
  (nth (Z.to_nat (getMonth tz d)) monthNames "" ++ " "
     ++ decimal (getDate tz d))%string.

(** [format(d, 'MMM yyyy')]; the year is the year of the era. *)
Definition format_MMM_yyyy (d : Z) : string :=
  let signedYear := getFullYear tz d in
  let year := if 0 <? signedYear then signedYear else 1 - signedYear in
  (nth (Z.to_nat (getMonth tz d)) monthNames "" ++ " "
     ++ addLeadingZeros year 4)%string.

End LocalTime.

End DateFns.

(* ===================================================================== *)
(** * Computations that read and change a world and may throw *)
(* ===================================================================== *)

Module Effect.

(** A thrown value: an [Error] instance carrying its message, [null],
    [undefined], or any other value (one without a message). *)
Inductive thrown : Type :=
| Error (message : string)
| NonError
| Null
| Undefined.

Inductive outcome (A : Type) : Type :=
| Returned (a : A)
| Thrown (e : thrown).
Arguments Returned {A} a.
Arguments Thrown {A} e.

Definition M (W A : Type) : Type := W -> outcome A * W.

Definition ret {W A} (a : A) : M W A := fun w => (Returned a, w).

Definition throw {W A} (e : thrown) : M W A := fun w => (Thrown e, w).

Definition bind {W A B} (c : M W A) (k : A -> M W B) : M W B :=
  fun w =>
    match c w with
    | (Returned a, w') => k a w'
    | (Thrown e, w') => (Thrown e, w')
    end.

(** [try { c } catch (error) { handler(error) }] *)
Definition tryCatch {W A} (c : M W A) (handler : thrown -> M W A) : M W A :=
  fun w =>
    match c w with
    | (Returned a, w') => (Returned a, w')
    | (Thrown e, w') => handler e w'
    end.

Definition fromOutcome {W A} (o : outcome A) : M W A := fun w => (o, w).

(** [error?.message || fallback]; a value that is not an [Error] has no
    message. *)
Definition messageOr (e : thrown) (fallback : string) : string :=
  match e with
  | Error m => if JS.falsy_string m then fallback else m
  | _ => fallback
  end.

(** The TypeError of reading [message] of [null] or [undefined]. *)
Definition cannotReadMessage (value : string) : thrown :=
  Error ("Cannot read properties of " ++ value ++ " (reading 'message')")%string.

(** [error.message || fallback]: reading the property throws when the
    thrown value is [null] or [undefined]. *)
Definition messageOf (e : thrown) (fallback : string) : outcome string :=
  match e with
  | Null => Thrown (cannotReadMessage "null"%string)
  | Undefined => Thrown (cannotReadMessage "undefined"%string)
  | _ => Returned (messageOr e fallback)
  end.

End Effect.

Declare Scope effect_scope.
Delimit Scope effect_scope with effect.
Notation "x <- c ;; k" := (Effect.bind c (fun x => k))
  (at level 61, c at next level, right associativity) : effect_scope.
Notation "c ;;; k" := (Effect.bind c (fun _ => k))
  (at level 61, right associativity) : effect_scope.

(* ===================================================================== *)
(** * Data model (Prisma schema) *)
(* ===================================================================== *)

Module Transaction.
Record t : Type := mk {
  id : string;
  name : string;
  amount : Q;
  category : string;
  date : Z;
  createdAt : Z;
  updatedAt : Z;
  userId : string
}.
End Transaction.

Module User.
Record t : Type := mk {
  id : string;
  email : string;
  name : option string;
  currency : string;
  createdAt : Z;
  updatedAt : Z
}.
End User.

(** The profile the authentication provider returns for the caller. *)
Module ClerkUser.
Record t : Type := mk {
  emailAddresses : list string;
  fullName : option string
}.
End ClerkUser.

(** Argument of [prisma.user.upsert]. *)
Module UserUpsert.
Record t : Type := mk {
  where_id : string;
  update_email : string;
  update_name : option string;
  create_id : string;
  create_email : string;
  create_name : option string;
  create_currency : string
}.
End UserUpsert.

(** [data] of [prisma.transaction.create]; [userId] is not part of the
    [data] of an update. *)
Module TransactionData.
Record t : Type := mk {
  name : string;
  amount : JS.number;
  category : string;
  date : Z;
  userId : option string
}.
End TransactionData.

Module TransactionFormData.
Record t : Type := mk {
  name : string;
  amount : string;
  category : string;
  date : Z
}.
End TransactionFormData.

(** The closed enumeration [Category] of the schema. *)
Definition Category : list string :=
  ["Food"; "Groceries"; "Transportation"; "Internet"; "Health"; "Sport";
   "Shopping"; "Entertainment"; "BadHabits"; "Other"]%string.

(* ===================================================================== *)
(** * External collaborators of the server actions *)
(* ===================================================================== *)

Module Collab.
Import Effect.

(** The authentication provider, the ORM client, the cache of the web
    framework and the clock, over a world of type [W].  Each operation may
    return or throw. *)
Record t (W : Type) : Type := mk {
  auth : M W (option string);
  currentUser : M W (option ClerkUser.t);
  user_upsert : UserUpsert.t -> M W User.t;
  transaction_create : TransactionData.t -> M W Transaction.t;
  (** [update({ where: { id, userId }, data })] *)
  transaction_update : string -> string -> TransactionData.t -> M W Transaction.t;
  (** [delete({ where: { id, userId } })] *)
  transaction_delete : string -> string -> M W Transaction.t;
  (** [findMany({ where: { userId, date: { gte, lte } }, orderBy: { date: 'desc' } })];
      the range is optional. *)
  transaction_findMany : string -> option (Z * Z) -> M W (list Transaction.t);
  (** [aggregate({ where: { userId, date: { gte, lte } }, _sum: { amount: true } })._sum.amount] *)
  transaction_aggregate : string -> Z -> Z -> M W (option Q);
  revalidatePath : string -> M W unit;
  (** [new Date()] *)
  now : M W Z
}.

Arguments auth {W} _.
Arguments currentUser {W} _.
Arguments user_upsert {W} _ _.
Arguments transaction_create {W} _ _.
Arguments transaction_update {W} _ _ _ _.
Arguments transaction_delete {W} _ _ _.
Arguments transaction_findMany {W} _ _ _.
Arguments transaction_aggregate {W} _ _ _ _.
Arguments revalidatePath {W} _ _.
Arguments now {W} _.

End Collab.

(* ===================================================================== *)
(** * Server actions (lib/actions/transactions.ts) *)
(* ===================================================================== *)

Module Actions.
Import Effect.
Local Open Scope effect_scope.
Local Open Scope string_scope.

(** The object an action resolves to; [None] is an absent property. *)
Record Result : Type := mkResult {
  success : bool;
  error : option string;
  transaction : option Transaction.t;
  transactions : option (list Transaction.t);
  total : option Q
}.

Definition failure (msg : string) : Result :=
  mkResult false (Some msg) None None None.

(** [!userId] *)
Definition noUser (userId : option string) : bool :=
  match userId with
  | None => true
  | Some u => JS.falsy_string u
  end.

Definition idOf (userId : option string) : string :=
  match userId with Some u => u | None => "" end.

(** Helper function to convert Decimal to number for serialization *)
Definition serializeTransaction (transaction : Transaction.t) : Transaction.t :=
  Transaction.mk
    (Transaction.id transaction)
    (Transaction.name transaction)
    (Transaction.amount transaction)
    (Transaction.category transaction)
    (Transaction.date transaction)
    (Transaction.createdAt transaction)
    (Transaction.updatedAt transaction)
    (Transaction.userId transaction).

Definition validCategories : list string :=
  ["Food"; "Groceries"; "Transportation"; "Internet"; "Health"; "Sport";
   "Shopping"; "Entertainment"; "BadHabits"; "Other"].

Section WithCollaborators.

Context {W : Type}.
Variable C : Collab.t W.
(** Offset of the server's local time. *)
Variable tz : Z.

(** [user?.emailAddresses[0]?.emailAddress || ''] *)
Definition emailOf (user : option ClerkUser.t) : string :=
  match user with
  | Some u =>
      match ClerkUser.emailAddresses u with
      | e :: _ => e
      | [] => ""
      end
  | None => ""
  end.

(** [user?.fullName || null] *)
Definition fullNameOf (user : option ClerkUser.t) : option string :=
  match user with
  | Some u =>
      match ClerkUser.fullName u with
      | Some n => if JS.falsy_string n then None else Some n
      | None => None
      end
  | None => None
  end.

(** Helper function to ensure user exists in database *)
Definition ensureUser (userId : string) : M W User.t :=
  tryCatch
    (user <- Collab.currentUser C ;;
     dbUser <- Collab.user_upsert C
       (UserUpsert.mk userId
          (emailOf user) (fullNameOf user)
          userId (emailOf user) (fullNameOf user) "USD") ;;
     ret dbUser)
    (fun _ => throw (Error "Failed to create user record")).

Definition createTransaction (data : TransactionFormData.t) : M W Result :=
  tryCatch
    (userId <- Collab.auth C ;;
     if noUser userId then ret (failure "Unauthorized: Please sign in")
     else
       ensureUser (idOf userId) ;;;
       let amount := JS.parseFloat (TransactionFormData.amount data) in
       if JS.isNaN amount || JS.leq0 amount then
         ret (failure "Invalid amount: Please enter a valid positive number")
       else if negb (JS.array_includes validCategories
                       (TransactionFormData.category data)) then
         ret (failure ("Invalid category: " ++ TransactionFormData.category data))
       else
         transaction <- Collab.transaction_create C
           (TransactionData.mk
              (JS.trim (TransactionFormData.name data))
              amount
              (TransactionFormData.category data)
              (TransactionFormData.date data)
              (Some (idOf userId))) ;;
         Collab.revalidatePath C "/records" ;;;
         ret (mkResult true None (Some (serializeTransaction transaction))
                       None None))
    (fun error =>
       let errorMessage := messageOr error "Unknown error occurred" in
       ret (failure ("Failed to create transaction: " ++ errorMessage))).

Definition updateTransaction (id : string) (data : TransactionFormData.t)
  : M W Result :=
  tryCatch
    (userId <- Collab.auth C ;;
     if noUser userId then ret (failure "Unauthorized")
     else
       let amount := JS.parseFloat (TransactionFormData.amount data) in
       if JS.isNaN amount || JS.leq0 amount then
         ret (failure "Invalid amount")
       else
         transaction <- Collab.transaction_update C id (idOf userId)
           (TransactionData.mk
              (JS.trim (TransactionFormData.name data))
              amount
              (TransactionFormData.category data)
              (TransactionFormData.date data)
              None) ;;
         Collab.revalidatePath C "/records" ;;;
         ret (mkResult true None (Some (serializeTransaction transaction))
                       None None))
    (fun error =>
       message <- fromOutcome (messageOf error "Unknown error") ;;
       ret (failure ("Failed to update transaction: " ++ message))).

Definition deleteTransaction (id : string) : M W Result :=
  tryCatch
    (userId <- Collab.auth C ;;
     if noUser userId then ret (failure "Unauthorized")
     else
       Collab.transaction_delete C id (idOf userId) ;;;
       Collab.revalidatePath C "/records" ;;;
       ret (mkResult true None None None None))
    (fun error =>
       message <- fromOutcome (messageOf error "Unknown error") ;;
       ret (failure ("Failed to delete transaction: " ++ message))).

Definition getTransactions : M W Result :=
  tryCatch
    (userId <- Collab.auth C ;;
     if noUser userId then
       ret (mkResult false (Some "Unauthorized") None (Some []) None)
     else
       ensureUser (idOf userId) ;;;
       transactions <- Collab.transaction_findMany C (idOf userId) None ;;
       let serializedTransactions := map serializeTransaction transactions in
       ret (mkResult true None None (Some serializedTransactions) None))
    (fun error =>
       message <- fromOutcome (messageOf error "Unknown error") ;;
       ret (mkResult false
              (Some ("Failed to fetch transactions: " ++ message))
              None (Some []) None)).

Definition getMonthlyTotal (month : option Z) : M W Result :=
  tryCatch
    (userId <- Collab.auth C ;;
     if noUser userId then
       ret (mkResult false (Some "Unauthorized") None None (Some 0%Q))
     else
       ensureUser (idOf userId) ;;;
       targetMonth <- match month with
                      | Some m => ret m
                      | None => Collab.now C
                      end ;;
       let startOfMonth :=
         Date.fromFields tz (Date.getFullYear tz targetMonth)
                         (Date.getMonth tz targetMonth) 1 in
       let endOfMonth :=
         Date.fromFields tz (Date.getFullYear tz targetMonth)
                         (Date.getMonth tz targetMonth + 1) 0 in
       sum <- Collab.transaction_aggregate C (idOf userId)
                startOfMonth endOfMonth ;;
       let total := match sum with Some s => s | None => 0%Q end in
       ret (mkResult true None None None (Some total)))
    (fun error =>
       message <- fromOutcome (messageOf error "Unknown error") ;;
       ret (mkResult false
              (Some ("Failed to fetch monthly total: " ++ message))
              None None (Some 0%Q))).

Definition getTransactionsByDateRange (startDate endDate : Z) : M W Result :=
  tryCatch
    (userId <- Collab.auth C ;;
     if noUser userId then
       ret (mkResult false (Some "Unauthorized") None (Some []) None)
     else
       ensureUser (idOf userId) ;;;
       (* Set time to start of day for startDate and end of day for endDate *)
       let start := Date.setHours tz startDate 0 (Some 0) (Some 0) (Some 0) in
       let end_ := Date.setHours tz endDate 23 (Some 59) (Some 59) (Some 999) in
       transactions <- Collab.transaction_findMany C (idOf userId)
                         (Some (start, end_)) ;;
       let serializedTransactions := map serializeTransaction transactions in
       ret (mkResult true None None (Some serializedTransactions) None))
    (fun error =>
       message <- fromOutcome (messageOf error "Unknown error") ;;
       ret (mkResult false
              (Some ("Failed to fetch transactions: " ++ message))
              None (Some []) None)).

End WithCollaborators.

End Actions.

(* ===================================================================== *)
(** * A reference model of the collaborators

    The store follows the schema of the migration: [Transaction.category]
    has the enumeration type [Category], [Transaction.amount] is a DECIMAL
    column (no infinity, no NaN), [Transaction.userId] references [User.id],
    [User.email] is unique.  An operation that violates the schema throws
    and leaves the tables as they were.  The precision of the DECIMAL
    column is not modelled. *)
(* ===================================================================== *)

Module Store.
Import Effect.
Local Open Scope string_scope.

Record World : Type := mkWorld {
  (** identity of the caller, as [auth()] resolves it *)
  session : option string;
  (** profile of the caller, as [currentUser()] resolves it *)
  profile : option ClerkUser.t;
  clock : Z;
  users : list User.t;
  transactions : list Transaction.t;
  nextId : nat;
  (** paths passed to [revalidatePath], latest first *)
  revalidated : list string
}.

Definition setUsers (w : World) (us : list User.t) : World :=
  mkWorld (session w) (profile w) (clock w) us (transactions w) (nextId w)
          (revalidated w).

Definition setTransactions (w : World) (txs : list Transaction.t) : World :=
  mkWorld (session w) (profile w) (clock w) (users w) txs (nextId w)
          (revalidated w).

Definition auth : M World (option string) := fun w => (Returned (session w), w).

Definition currentUser : M World (option ClerkUser.t) :=
  fun w => (Returned (profile w), w).

Definition now : M World Z := fun w => (Returned (clock w), w).

Definition revalidatePath (path : string) : M World unit :=
  fun w =>
    (Returned tt,
     mkWorld (session w) (profile w) (clock w) (users w) (transactions w)
             (nextId w) (path :: revalidated w)).

Definition emailTaken (us : list User.t) (ownId email : string) : bool :=
  existsb (fun u => String.eqb (User.email u) email
                    && negb (String.eqb (User.id u) ownId)) us.

Definition hasUser (us : list User.t) (uid : string) : bool :=
  existsb (fun u => String.eqb (User.id u) uid) us.

Definition user_upsert (a : UserUpsert.t) : M World User.t :=
  fun w =>
    let uid := UserUpsert.where_id a in
    match find (fun u => String.eqb (User.id u) uid) (users w) with
    | Some u =>
        if emailTaken (users w) uid (UserUpsert.update_email a) then
          (Thrown (Error "Unique constraint failed on the fields: (`email`)"), w)
        else
          let u' := User.mk uid (UserUpsert.update_email a)
                            (UserUpsert.update_name a) (User.currency u)
                            (User.createdAt u) (clock w) in
          (Returned u',
           setUsers w (map (fun v => if String.eqb (User.id v) uid then u' else v)
                           (users w)))
    | None =>
        if emailTaken (users w) (UserUpsert.create_id a) (UserUpsert.create_email a)
        then
          (Thrown (Error "Unique constraint failed on the fields: (`email`)"), w)
        else
          let u' := User.mk (UserUpsert.create_id a) (UserUpsert.create_email a)
                            (UserUpsert.create_name a)
                            (UserUpsert.create_currency a) (clock w) (clock w) in
          (Returned u', setUsers w (users w ++ [u']))
    end.

(** A value as the column [amount DECIMAL(65,30)] keeps it: rounded to 30
    places after the point, a tie away from zero; a value that has no more
    places is kept as it is. *)
Definition toDecimal (q : Q) : Q :=
  let n := (Qnum q * 10 ^ 30)%Z in
  let d := Z.pos (Qden q) in
  if (n mod d =? 0)%Z then q
  else Qmake (Z.sgn n * ((2 * Z.abs n + d) / (2 * d)))%Z (10 ^ 30)%positive.

(** The column holds at most 35 digits before the point. *)
Definition fitsDecimal (q : Q) : bool :=
  negb (Qle_bool (inject_Z (10 ^ 35)) (Qabs q)).

(** Check of the [data] of a create or update against the column types:
    the message of the exception, or the amount as it is stored. *)
Definition checkData (d : TransactionData.t) : string + Q :=
  match TransactionData.amount d with
  | JS.Finite q =>
      if JS.array_includes Category (TransactionData.category d) then
        if fitsDecimal (toDecimal q) then inr (toDecimal q)
        else inl "numeric field overflow: a field with precision 65, scale 30 must round to an absolute value less than 10^35"
      else inl "Invalid value for argument `category`. Expected Category."
  | _ => inl "Invalid value for argument `amount`. Expected Decimal."
  end.

Definition freshId (n : nat) : string := "tx" ++ DateFns.decimal (Z.of_nat n).

Definition transaction_create (d : TransactionData.t) : M World Transaction.t :=
  fun w =>
    match checkData d with
    | inl message => (Thrown (Error message), w)
    | inr q =>
        let owner := Actions.idOf (TransactionData.userId d) in
        if hasUser (users w) owner then
          let row := Transaction.mk (freshId (nextId w)) (TransactionData.name d) q
                       (TransactionData.category d) (TransactionData.date d)
                       (clock w) (clock w) owner in
          (Returned row,
           mkWorld (session w) (profile w) (clock w) (users w)
                   (transactions w ++ [row]) (S (nextId w)) (revalidated w))
        else
          (Thrown (Error "Foreign key constraint violated: `Transaction_userId_fkey`"), w)
    end.

Definition matches (id userId : string) (row : Transaction.t) : bool :=
  String.eqb (Transaction.id row) id && String.eqb (Transaction.userId row) userId.

Definition transaction_update (id userId : string) (d : TransactionData.t)
  : M World Transaction.t :=
  fun w =>
    match checkData d with
    | inl message => (Thrown (Error message), w)
    | inr q =>
        match find (matches id userId) (transactions w) with
        | Some old =>
            let row := Transaction.mk id (TransactionData.name d) q
                         (TransactionData.category d) (TransactionData.date d)
                         (Transaction.createdAt old) (clock w) userId in
            (Returned row,
             setTransactions w
               (map (fun r => if matches id userId r then row else r)
                    (transactions w)))
        | None => (Thrown (Error "Record to update not found."), w)
        end
    end.

Definition transaction_delete (id userId : string) : M World Transaction.t :=
  fun w =>
    match find (matches id userId) (transactions w) with
    | Some old =>
        (Returned old,
         setTransactions w
           (filter (fun r => negb (matches id userId r)) (transactions w)))
    | None => (Thrown (Error "Record to delete does not exist."), w)
    end.

(** [where: { userId, date: { gte, lte } }] *)
Definition selects (userId : string) (range : option (Z * Z))
           (row : Transaction.t) : bool :=
  String.eqb (Transaction.userId row) userId
  && match range with
     | Some (gte, lte) =>
         ((gte <=? Transaction.date row) && (Transaction.date row <=? lte))%Z
     | None => true
     end.

(** [orderBy: { date: 'desc' }], rows of equal date in their stored order. *)
Fixpoint insertByDateDesc (x : Transaction.t) (l : list Transaction.t)
  : list Transaction.t :=
  match l with
  | [] => [x]
  | y :: r =>
      if (Transaction.date y <=? Transaction.date x)%Z then x :: y :: r
      else y :: insertByDateDesc x r
  end.

Definition orderByDateDesc (l : list Transaction.t) : list Transaction.t :=
  fold_right insertByDateDesc [] l.

Definition transaction_findMany (userId : string) (range : option (Z * Z))
  : M World (list Transaction.t) :=
  fun w =>
    (Returned (orderByDateDesc (filter (selects userId range) (transactions w))), w).

Definition sumAmount (l : list Transaction.t) : Q :=
  fold_left (fun s r => (s + Transaction.amount r)%Q) l 0%Q.

Definition transaction_aggregate (userId : string) (gte lte : Z)
  : M World (option Q) :=
  fun w =>
    match filter (selects userId (Some (gte, lte))) (transactions w) with
    | [] => (Returned None, w)
    | rows => (Returned (Some (sumAmount rows)), w)
    end.

Definition collaborators : Collab.t World :=
  Collab.mk World auth currentUser user_upsert transaction_create
            transaction_update transaction_delete transaction_findMany
            transaction_aggregate revalidatePath now.

(** The server actions over the reference store. *)
Definition createTransaction := Actions.createTransaction collaborators.
Definition updateTransaction := Actions.updateTransaction collaborators.
Definition deleteTransaction := Actions.deleteTransaction collaborators.
Definition getTransactions := Actions.getTransactions collaborators.
Definition getMonthlyTotal := Actions.getMonthlyTotal collaborators.
Definition getTransactionsByDateRange :=
  Actions.getTransactionsByDateRange collaborators.

End Store.

(* ===================================================================== *)
(** * Receipt extraction (app/actions/scan-receipt.ts) *)
(* ===================================================================== *)

Module ScanReceipt.
Import Effect.
Local Open Scope effect_scope.
Local Open Scope string_scope.

(** A value produced by [JSON.parse]. *)
#[local] Unset Elimination Schemes.
Inductive json : Type :=
| JNull
| JBool (b : bool)
| JNum (n : JS.number)
| JStr (s : string)
| JArr (items : list json)
| JObj (fields : list (string * json)).
#[local] Set Elimination Schemes.

Fixpoint lookup (key : string) (fields : list (string * json)) : option json :=
  match fields with
  | [] => None
  | (k, v) :: r => if String.eqb k key then Some v else lookup key r
  end.

Fixpoint assign (key : string) (v : json) (fields : list (string * json))
  : list (string * json) :=
  match fields with
  | [] => [(key, v)]
  | (k, v') :: r =>
      if String.eqb k key then (k, v) :: r else (k, v') :: assign key v r
  end.

(** [value.key] for one of the keys [name], [amount], [date], [category]:
    reading a property of [null] throws a TypeError; numbers, booleans,
    strings and arrays have no such property ([None] is [undefined]). *)
Definition getProp (value : json) (key : string) : outcome (option json) :=
  match value with
  | JNull =>
      Thrown (Error ("Cannot read properties of null (reading '" ++ key ++ "')"))
  | JObj fields => Returned (lookup key fields)
  | _ => Returned None
  end.

(** [value.key = v] on an object. *)
Definition setProp (value : json) (key : string) (v : json) : json :=
  match value with
  | JObj fields => JObj (assign key v fields)
  | _ => value
  end.

(** [!v] *)
Definition falsy (v : option json) : bool :=
  match v with
  | None => true
  | Some JNull => true
  | Some (JBool b) => negb b
  | Some (JNum n) => JS.falsy_number n
  | Some (JStr s) => JS.falsy_string s
  | Some (JArr _) => false
  | Some (JObj _) => false
  end.

(** These are the categories from the Prisma schema *)
Definition categories : list string :=
  ["Food"; "Groceries"; "Transportation"; "Internet"; "Health"; "Sport";
   "Shopping"; "Entertainment"; "BadHabits"; "Other"].

(** [categories.includes(v)]: strict equality with one of the strings. *)
Definition categories_includes (v : option json) : bool :=
  match v with
  | Some (JStr s) => JS.array_includes categories s
  | _ => false
  end.

Definition allDigits (s : JS.chars) : bool := forallb JS.isDigit s.

(** [/^\d{4}-\d{2}-\d{2}$/.test(s)] *)
Definition dateRegex_test (s : string) : bool :=
  match list_ascii_of_string s with
  | [y1; y2; y3; y4; d1; m1; m2; d2; a1; a2] =>
      allDigits [y1; y2; y3; y4; m1; m2; a1; a2]
      && Ascii.eqb d1 "-" && Ascii.eqb d2 "-"
  | _ => false
  end.

Fixpoint splitOn (sep : ascii) (s : JS.chars) : list JS.chars :=
  match s with
  | [] => [[]]
  | c :: r =>
      if Ascii.eqb c sep then [] :: splitOn sep r
      else
        match splitOn sep r with
        | p :: ps => (c :: p) :: ps
        | [] => [[c]]
        end
  end.

Definition isLineTerminator (c : ascii) : bool :=
  Ascii.eqb c "010" || Ascii.eqb c "013".

(** The lazy group of [/:(.*?);/] tried right after a colon: the text up to
    the next semicolon, unless a line terminator comes first. *)
Fixpoint untilSemicolon (s : JS.chars) : option JS.chars :=
  match s with
  | [] => None
  | c :: r =>
      if Ascii.eqb c ";" then Some []
      else if isLineTerminator c then None
      else option_map (cons c) (untilSemicolon r)
  end.

(** [header.match(/:(.*?);/)?.[1]] *)
Fixpoint mimeTypeOf (header : JS.chars) : option JS.chars :=
  match header with
  | [] => None
  | c :: r =>
      if Ascii.eqb c ":" then
        match untilSemicolon r with
        | Some m => Some m
        | None => mimeTypeOf r
        end
      else mimeTypeOf r
  end.

Definition isEmpty (s : option JS.chars) : bool :=
  match s with Some (_ :: _) => false | _ => true end.

(** Helper function to convert client-side base64 to the format Gemini needs:
    the pair of the data and the mime type. *)
Definition base64ToGenerativePart (image : string) : outcome (string * string) :=
  let parts := splitOn "," (list_ascii_of_string image) in
  let header := nth 0 parts [] in
  let data := nth_error parts 1 in
  let mimeType := mimeTypeOf header in
  if isEmpty mimeType || isEmpty data then Thrown (Error "Invalid image data")
  else
    match data, mimeType with
    | Some d, Some m => Returned (string_of_list_ascii d, string_of_list_ascii m)
    | _, _ => Thrown (Error "Invalid image data")
    end.

Record ScanResult : Type := mkScanResult {
  success : bool;
  data : option json;
  error : option string
}.

Definition failed (msg : string) : ScanResult := mkScanResult false None (Some msg).

(** The runtime and the model provider around the action. *)
Record Env (W : Type) : Type := mkEnv {
  (** [process.env.GEMINI_API_KEY] *)
  GEMINI_API_KEY : option string;
  (** [genAI.getGenerativeModel(...)], [model.generateContent([prompt,
      imagePart])] and [result.response.text()], from the data and the mime
      type of the image *)
  generateContent : string * string -> M W string;
  JSON_parse : string -> outcome json;
  (** [String(n)] for a number *)
  numberToString : JS.number -> string;
  (** [new Date(v)], for a value whose conversion to a string returns:
      [None] when the date is invalid, else [toISOString().split('T')[0]] *)
  isoDateOf : json -> option string;
  (** [new Date().toISOString().split('T')[0]] *)
  today : W -> string
}.
Arguments GEMINI_API_KEY {W} _.
Arguments generateContent {W} _ _.
Arguments JSON_parse {W} _.
Arguments numberToString {W} _.
Arguments isoDateOf {W} _.
Arguments today {W} _.

Definition lift {W A} (o : outcome A) : M W A := fun w => (o, w).

(** [String(v)] for a value of [JSON.parse].  An array joins the strings of
    its elements, [null] counting as the empty string.  An object is
    converted by [toString] and then [valueOf]: an own property [toString]
    of a parsed object is never callable and hides the inherited one, and
    neither an own [valueOf] nor the inherited one yields a primitive, so
    the conversion throws a TypeError; without an own [toString] the
    inherited one answers. *)
Fixpoint toStringOf (numberToString : JS.number -> string) (v : json)
  : outcome string :=
  match v with
  | JNull => Returned "null"
  | JBool b => Returned (if b then "true" else "false")
  | JNum n => Returned (numberToString n)
  | JStr s => Returned s
  | JArr items =>
      (fix join (items : list json) : outcome string :=
         match items with
         | [] => Returned ""
         | x :: r =>
             match match x with
                   | JNull => Returned ""
                   | _ => toStringOf numberToString x
                   end with
             | Returned s =>
                 match r with
                 | [] => Returned s
                 | _ :: _ =>
                     match join r with
                     | Returned t => Returned (s ++ "," ++ t)
                     | Thrown e => Thrown e
                     end
                 end
             | Thrown e => Thrown e
             end
         end) items
  | JObj fields =>
      match lookup "toString" fields with
      | Some _ => Thrown (Error "Cannot convert object to primitive value")
      | None => Returned "[object Object]"
      end
  end.

(** [String(v)], as [RegExp.prototype.test] converts its argument. *)
Definition stringOf {W} (E : Env W) (v : option json) : outcome string :=
  match v with
  | Some j => toStringOf (numberToString E) j
  | None => Returned "undefined"
  end.

Section WithEnv.

Context {W : Type}.
Variable E : Env W.

(** The checks that follow [JSON.parse]. *)
Definition validate (jsonData : json) : M W ScanResult :=
  name <- lift (getProp jsonData "name") ;;
  amount <- lift (getProp jsonData "amount") ;;
  date <- lift (getProp jsonData "date") ;;
  category <- lift (getProp jsonData "category") ;;
  (* Basic validation *)
  if falsy name || falsy amount || falsy date || falsy category then
    throw (Error "AI returned incomplete data.")
  else
    let jsonData :=
      if negb (categories_includes category)
      then setProp jsonData "category" (JStr "Other")
      else jsonData in
    (* Validate date format *)
    text <- lift (stringOf E date) ;;
    jsonData <-
      (if negb (dateRegex_test text) then
         match option_map (isoDateOf E) date with
         | Some (Some iso) => ret (setProp jsonData "date" (JStr iso))
         | _ => fun w => (Returned (setProp jsonData "date" (JStr (today E w))), w)
         end
       else ret jsonData) ;;
    (* Validate amount is a positive number *)
    match amount with
    | Some (JNum n) =>
        if JS.leq0 n
        then throw (Error "Invalid amount extracted from receipt.")
        else ret (mkScanResult true (Some jsonData) None)
    | _ => throw (Error "Invalid amount extracted from receipt.")
    end.

Definition cleanText (text : string) : string :=
  JS.trim (JS.removeAll "```" (JS.removeAll "```json" text)).

Definition onError (error : thrown) : ScanResult :=
  match error with
  | Error message =>
      if JS.includes message "API key" || JS.includes message "API_KEY" then
        failed "Invalid API key. Please check your Gemini API configuration."
      else if JS.includes message "JSON" || JS.includes message "parse" then
        failed ("Failed to parse AI response. Raw error: " ++ message)
      else if JS.includes message "quota" || JS.includes message "limit"
              || JS.includes message "QUOTA" then
        failed "API quota exceeded. Please try again later."
      else if JS.includes message "PERMISSION_DENIED" then
        failed "API access denied. Please check your API key permissions."
      else if JS.includes message "INVALID_ARGUMENT" then
        failed "Invalid image format. Please try with a different image."
      else if JS.includes message "UNAVAILABLE"
              || JS.includes message "network" then
        failed "Service temporarily unavailable. Please try again."
      else failed ("Scan failed: " ++ message)
  | _ =>
      failed "Failed to scan receipt. Please try again with a clearer image."
  end.

(** The main server action *)
Definition scanReceipt (base64Image : string) : M W ScanResult :=
  tryCatch
    (if match GEMINI_API_KEY E with
        | Some k => JS.falsy_string k
        | None => true
        end
     then ret (failed "Gemini API key not configured. Please add GEMINI_API_KEY to your .env file.")
     else if JS.falsy_string base64Image
             || negb (JS.startsWith (list_ascii_of_string "data:image/")
                                    (list_ascii_of_string base64Image))
     then ret (failed "Invalid image format. Please select a valid image file.")
     else
       imagePart <- lift (base64ToGenerativePart base64Image) ;;
       text <- generateContent E imagePart ;;
       jsonData <- lift (JSON_parse E (cleanText text)) ;;
       validate jsonData)
    (fun error => ret (onError error)).

End WithEnv.

End ScanReceipt.

(* ===================================================================== *)
(** * Reports page: date window, trend series, total *)
(* ===================================================================== *)

(** The window, the buckets and their labels.  The bucket sums of this
    module are over the stored decimals, exactly; [Reports64] below has the
    sums and the total as the engine adds them. *)

Module Reports.
Import Date DateFns.

Inductive TimePeriod : Type := thisMonth | last3Months | thisYear | custom.

Record TrendPoint : Type := mkTrendPoint {
  date : string;
  amount : Q
}.

Section LocalTime.

(** Offset of the browser's local time. *)
Variable tz : Z.

(** Calculate date range based on selected period *)
Definition dateRange (now : Z) (selectedPeriod : TimePeriod)
           (customStartDate customEndDate : option Z) : Z * Z :=
  match selectedPeriod with
  | thisMonth => (startOfMonth tz now, endOfMonth tz now)
  | last3Months => (startOfMonth tz (subMonths tz now 2), endOfMonth tz now)
  | thisYear => (startOfYear tz now, endOfYear tz now)
  | custom => (orElse customStartDate now, orElse customEndDate now)
  end.

(** The [intervals] of [trendData]: the starts of the buckets. *)
Definition intervalsOf (period : TimePeriod) (startDate endDate : Z) : list Z :=
  match period with
  | thisMonth => eachDayOfInterval tz startDate endDate
  | last3Months => eachWeekOfInterval tz startDate endDate
  | _ => eachMonthOfInterval tz startDate endDate
  end.

(** The [formatFn] of [trendData]: the label of a bucket. *)
Definition formatFn (period : TimePeriod) (d : Z) : string :=
  match period with
  | thisMonth => format_MMM_d tz d
  | last3Months => format_MMM_d tz d
  | _ => format_MMM_yyyy tz d
  end.

(** The [intervalEnd] of [trendData]: the end of the bucket that starts at
    [intervalStart]. *)
Definition intervalEndOf (period : TimePeriod) (intervalStart : Z) : Z :=
  match period with
  | thisMonth => addDays tz intervalStart 1
  | last3Months => addWeeks tz intervalStart 1
  | _ => addMonths tz intervalStart 1
  end.

(** [transactions.filter(t => tDate >= intervalStart && tDate < intervalEnd)
      .reduce((sum, t) => sum + t.amount, 0)] *)
Definition bucketAmount (transactions : list Transaction.t)
           (intervalStart intervalEnd : Z) : Q :=
  fold_left (fun sum t => (sum + Transaction.amount t)%Q)
    (filter (fun t => (intervalStart <=? Transaction.date t)
                      && (Transaction.date t <? intervalEnd))
            transactions)
    0%Q.

(** Group transactions by time period for trend *)
Definition trendData (transactions : list Transaction.t)
           (selectedPeriod : TimePeriod) (startDate endDate : Z)
  : list TrendPoint :=
  match transactions with
  | [] => []
  | _ =>
      let period := selectedPeriod in
      let intervals := intervalsOf period startDate endDate in
      map (fun interval =>
             let intervalStart := interval in
             let intervalEnd := intervalEndOf period intervalStart in
             mkTrendPoint (formatFn period interval)
                          (bucketAmount transactions intervalStart intervalEnd))
          intervals
  end.

End LocalTime.

End Reports.

(* ===================================================================== *)
(** * Numbers of the engine: IEEE 754 binary64 *)
(* ===================================================================== *)

Module Double.

Definition t : Type := spec_float.

Definition prec : Z := 53.
Definition emax : Z := 1024.

Definition zero : t := S754_zero false.

(** [a + b]: the exact sum, rounded to the nearest double, a tie to the
    even mantissa. *)
Definition add (a b : t) : t := SFadd prec emax a b.

(** [Number(d)] for a decimal [d]: the double nearest to [d], a tie to the
    even mantissa; an infinity beyond the largest double. *)
Definition Number (d : Q) : t :=
  match Qnum d with
  | Z0 => zero
  | Zpos n =>
      SFdiv prec emax (S754_finite false n 0) (S754_finite false (Qden d) 0)
  | Zneg n =>
      SFdiv prec emax (S754_finite true n 0) (S754_finite false (Qden d) 0)
  end.

(** The rational a finite double stands for. *)
Definition exact (x : t) : Q :=
  match x with
  | S754_finite s m e =>
      (inject_Z (if s then Z.neg m else Z.pos m) * Qpower 2 e)%Q
  | _ => 0%Q
  end.

End Double.

(* ===================================================================== *)
(** * Reports page: the sums, in the numbers of the engine
      ([Reports] has the buckets; here [t.amount] is the double that
      [serializeTransaction] made of the stored decimal, and [+] rounds) *)
(* ===================================================================== *)

Module Reports64.

Record TrendPoint : Type := mkTrendPoint {
  date : string;
  amount : Double.t
}.

(** [amount: Number(transaction.amount)] of [serializeTransaction]: what
    the page reads as [t.amount]. *)
Definition amountOf (t : Transaction.t) : Double.t :=
  Double.Number (Transaction.amount t).

(** [transactions.filter(t => tDate >= intervalStart && tDate < intervalEnd)
      .reduce((sum, t) => sum + t.amount, 0)] *)
Definition bucketAmount (transactions : list Transaction.t)
           (intervalStart intervalEnd : Z) : Double.t :=
  fold_left (fun sum t => Double.add sum (amountOf t))
    (filter (fun t => (intervalStart <=? Transaction.date t)
                      && (Transaction.date t <? intervalEnd))
            transactions)
    Double.zero.

(** Group transactions by time period for trend *)
Definition trendData (tz : Z) (transactions : list Transaction.t)
           (selectedPeriod : Reports.TimePeriod) (startDate endDate : Z)
  : list TrendPoint :=
  match transactions with
  | [] => []
  | _ =>
      let period := selectedPeriod in
      let intervals := Reports.intervalsOf tz period startDate endDate in
      map (fun interval =>
             let intervalStart := interval in
             let intervalEnd := Reports.intervalEndOf tz period intervalStart in
             mkTrendPoint (Reports.formatFn tz period interval)
                          (bucketAmount transactions intervalStart intervalEnd))
          intervals
  end.

(** [transactions.reduce((sum, t) => sum + t.amount, 0)] *)
Definition totalSpending (transactions : list Transaction.t) : Double.t :=
  fold_left (fun sum t => Double.add sum (amountOf t)) transactions
            Double.zero.

End Reports64.

(* ===================================================================== *)
(** * Vocabulary of the specification *)
(* ===================================================================== *)

Module Spec.
Import Date.

(** The calendar day, in local time, on which an instant falls. *)
Definition localDay (tz t : Z) : Z := Day (LocalTime tz t).

(** First and last millisecond of the calendar day of [t]. *)
Definition dayStart (tz t : Z) : Z := UTC tz (localDay tz t * msPerDay).
Definition dayEnd (tz t : Z) : Z := dayStart tz t + msPerDay - 1.

(** A finite positive number. *)
Definition finitePositive (n : JS.number) : Prop :=
  match n with
  | JS.Finite q => (0 < q)%Q
  | _ => False
  end.

(** The closed set of ten categories. *)
Definition closedSet : list string :=
  ["Food"; "Groceries"; "Transportation"; "Internet"; "Health"; "Sport";
   "Shopping"; "Entertainment"; "BadHabits"; "Other"]%string.

(** Bucket granularities of the trend series. *)
Inductive Granularity : Type := Daily | Weekly | Monthly.

(** Months since year 0 of the month in which [t] falls. *)
Definition monthIndex (tz t : Z) : Z := 12 * getFullYear tz t + getMonth tz t.

(** The granularity the specification derives from the window: daily for a
    window inside one month, weekly for one over up to three months,
    monthly otherwise. *)
Definition granularityOfWindow (tz startDate endDate : Z) : Granularity :=
  let months := monthIndex tz endDate - monthIndex tz startDate + 1 in
  if months <=? 1 then Daily
  else if months <=? 3 then Weekly
  else Monthly.

(** The granularity the page takes from the selected period. *)
Definition granularityOfPeriod (p : Reports.TimePeriod) : Granularity :=
  match p with
  | Reports.thisMonth => Daily
  | Reports.last3Months => Weekly
  | _ => Monthly
  end.

(** Number of days of a month, from the table of month starts. *)
Definition daysInMonth (y m : Z) : Z :=
  let leap := if isLeapYear y then 1 else 0 in
  monthStart leap (m + 1) - monthStart leap m.

(** Sum of a list of rationals. *)
Definition sumQ (l : list Q) : Q := fold_right Qplus 0%Q l.

(** Sum of the bucket sums of a trend series, added from the first bucket
    on as the engine adds. *)
Definition sumOfBuckets (l : list Reports64.TrendPoint) : Double.t :=
  fold_left (fun sum p => Double.add sum (Reports64.amount p)) l Double.zero.

(** The bucket [i, iend i) contains the date of [x]. *)
Definition inBucket (iend : Z -> Z) (x : Transaction.t) (i : Z) : bool :=
  (i <=? Transaction.date x) && (Transaction.date x <? iend i).

(** Sum of the amounts of the transactions dated in [lo, hi). *)
Definition amountWithin (txs : list Transaction.t) (lo hi : Z) : Q :=
  sumQ (map Transaction.amount
            (filter (fun t => (lo <=? Transaction.date t)
                              && (Transaction.date t <? hi)) txs)).

(** A list of dates in decreasing order. *)
Definition dateDescending (l : list Transaction.t) : Prop :=
  StronglySorted (fun a b => Transaction.date b <= Transaction.date a) l.

(** An instant is at local midnight. *)
Definition midnight (tz c : Z) : Prop := (c + tz) mod msPerDay = 0.

(** Sunday 15:00, local time. *)
Definition sundayAfternoon (tz c : Z) : Prop :=
  (c + tz) mod (7 * msPerDay) = 3 * msPerDay + 15 * msPerHour.

(** Day number of the first day of month [m] (0..11) of year [y]. *)
Definition firstDay (y m : Z) : Z :=
  DayFromYear y + monthStart (if isLeapYear y then 1 else 0) m.

(** The month after month [m] of year [y]. *)
Definition nextYM (ym : Z * Z) : Z * Z :=
  let (y, m) := ym in if m =? 11 then (y + 1, 0) else (y, m + 1).

(** An instant is the local midnight that begins a month. *)
Definition firstOfMonth (tz c : Z) : Prop :=
  exists y m, 0 <= m <= 11 /\ c + tz = firstDay y m * msPerDay.

(** The buckets [i, iend i) of the list [l] tile the span from [lo] to
    [hi]: their sums add up to the sum over the span, every instant of the
    span is in a bucket and no instant is in two buckets. *)
Definition tiles (txs : list Transaction.t) (iend : Z -> Z) (l : list Z)
           (lo hi : Z) : Prop :=
  (sumQ (map (fun i => Reports.bucketAmount txs i (iend i)) l)
   == amountWithin txs lo hi)%Q
  /\ (forall t, lo <= t < hi -> exists i, In i l /\ i <= t < iend i)
  /\ (forall i j t, In i l -> In j l ->
                    i <= t < iend i -> j <= t < iend j -> i = j).

(** A field of the parsed response is missing: absent, [null] or
    otherwise falsy, or the response is [null] itself. *)
Definition missing (response : ScanReceipt.json) (key : string) : Prop :=
  match ScanReceipt.getProp response key with
  | Effect.Returned v => ScanReceipt.falsy v = true
  | Effect.Thrown _ => True
  end.

(** A field of the parsed response is present. *)
Definition present (response : ScanReceipt.json) (key : string) : Prop :=
  exists v, ScanReceipt.getProp response key = Effect.Returned v
            /\ ScanReceipt.falsy v = false.

(** The category of the parsed response is present and outside the closed
    set. *)
Definition unknownCategory (response : ScanReceipt.json) : Prop :=
  exists v, ScanReceipt.getProp response "category" = Effect.Returned v
            /\ ScanReceipt.falsy v = false
            /\ ScanReceipt.categories_includes v = false.

(** The date of the parsed response is present and can be read as text: a
    string, a number, a boolean, or an array or an object whose conversion
    to a string returns. *)
Definition readableDate {W} (E : ScanReceipt.Env W)
           (response : ScanReceipt.json) : Prop :=
  exists v text,
    ScanReceipt.getProp response "date" = Effect.Returned (Some v)
    /\ ScanReceipt.falsy (Some v) = false
    /\ ScanReceipt.toStringOf (ScanReceipt.numberToString E) v
       = Effect.Returned text.

(** The amount of the parsed response is a number above zero. *)
Definition positiveAmount (response : ScanReceipt.json) : Prop :=
  exists n, ScanReceipt.getProp response "amount"
            = Effect.Returned (Some (ScanReceipt.JNum n))
            /\ JS.falsy_number n = false /\ JS.leq0 n = false.

(** The scan reaches the checks with the parsed response [response]: the
    key is configured, the image is accepted, the provider answers, the
    answer parses. *)
Definition parsesTo {W} (E : ScanReceipt.Env W) (image : string) (w w1 : W)
           (response : ScanReceipt.json) : Prop :=
  (exists k, ScanReceipt.GEMINI_API_KEY E = Some k
             /\ JS.falsy_string k = false)
  /\ JS.falsy_string image = false
  /\ JS.startsWith (list_ascii_of_string "data:image/")
                   (list_ascii_of_string image) = true
  /\ exists part text,
      ScanReceipt.base64ToGenerativePart image = Effect.Returned part
      /\ ScanReceipt.generateContent E part w = (Effect.Returned text, w1)
      /\ ScanReceipt.JSON_parse E (ScanReceipt.cleanText text)
         = Effect.Returned response.

(** The result of a create that stopped at the check of the amount. *)
Definition amountRejected (o : Effect.outcome Actions.Result) : Prop :=
  o = Effect.Returned
        (Actions.failure
           "Invalid amount: Please enter a valid positive number").

(** The result is an object with [success]; when [success] is false it
    carries an error message. *)
Definition structured (r : Actions.Result) : Prop :=
  Actions.success r = false -> exists msg, Actions.error r = Some msg.

(** The action returns, and returns a structured result. *)
Definition returnsStructured {W} (m : Effect.M W Actions.Result) (w : W)
  : Prop :=
  exists r w', m w = (Effect.Returned r, w') /\ structured r.

(** The action returns a structured result, or lets the TypeError of its
    own handler escape: the one of reading [message] of [null] or of
    [undefined]. *)
Definition structuredOrEscapes {W} (m : Effect.M W Actions.Result) (w : W)
  : Prop :=
  returnsStructured m w
  \/ exists value w',
      (value = "null"%string \/ value = "undefined"%string)
      /\ m w = (Effect.Thrown (Effect.cannotReadMessage value), w').

(** The same for the receipt scan, whose failures carry no data. *)
Definition structuredScan (r : ScanReceipt.ScanResult) : Prop :=
  ScanReceipt.success r = false ->
  (exists msg, ScanReceipt.error r = Some msg) /\ ScanReceipt.data r = None.

(** The value of the loop variable when [DateFns.whileNotAfter] stops. *)
Fixpoint exitOf (fuel : nat) (next : Z -> Z) (endTime cur : Z) : Z :=
  match fuel with
  | O => cur
  | S fuel' =>
      if cur <=? endTime then exitOf fuel' next endTime (next cur) else cur
  end.

End Spec.

(* ===================================================================== *)
(** * Sample data *)
(* ===================================================================== *)

Module Examples.
Local Open Scope string_scope.

(** Midnight of a day of November 2024, server and browser on UTC. *)
Definition nov (day : Z) : Z := Date.fromFields 0 2024 10 day.

Definition coffee : Transaction.t :=
  Transaction.mk "tx0" "Starbucks Coffee" (9 # 2) "Food" (nov 3)
                 (nov 3) (nov 3) "user_1".

(** An expense entered at 10:00 on the last day of the month. *)
Definition taxi : Transaction.t :=
  Transaction.mk "tx1" "Taxi" 20 "Transportation"
                 (nov 30 + 10 * Date.msPerHour)
                 (nov 30) (nov 30) "user_1".

Definition ann : User.t :=
  User.mk "user_1" "ann@example.org" (Some "Ann") "USD" (nov 1) (nov 1).

(** A signed-in caller with two stored transactions. *)
Definition world : Store.World :=
  Store.mkWorld (Some "user_1")
                (Some (ClerkUser.mk ["ann@example.org"] (Some "Ann")))
                (nov 30 + 12 * Date.msPerHour)
                [ann] [coffee; taxi] 2 [].

Definition form (name amount category : string) : TransactionFormData.t :=
  TransactionFormData.mk name amount category (nov 15).

(** A runtime for the receipt scan in which the provider's answer parses
    to [response]. *)
Definition scanEnv (response : ScanReceipt.json) : ScanReceipt.Env unit :=
  ScanReceipt.mkEnv unit (Some "secret")
    (fun _ w => (Effect.Returned "{}", w))
    (fun _ => Effect.Returned response)
    (fun _ => "NaN")
    (fun _ => None)
    (fun _ => "2024-11-30").

Definition image : string := "data:image/png;base64,iVBORw0KGgo=".

Definition receipt (amount : Q) (category : string) : ScanReceipt.json :=
  ScanReceipt.JObj
    [("name", ScanReceipt.JStr "Cafe");
     ("amount", ScanReceipt.JNum (JS.Finite amount));
     ("date", ScanReceipt.JStr "2024-11-03");
     ("category", ScanReceipt.JStr category)].

(** The world after [ensureUser] has refreshed the caller's row. *)
Definition refreshed : Store.World :=
  snd (Actions.ensureUser Store.collaborators "user_1" world).

Definition annRefreshed : User.t :=
  User.mk "user_1" "ann@example.org" (Some "Ann") "USD" (nov 1)
          (nov 30 + 12 * Date.msPerHour).

End Examples.

(* ===================================================================== *)
(** * Objects used as maps

    A JavaScript object whose keys are strings that are not array indices
    (date keys, category names) lists its keys in the order of their first
    assignment. *)
(* ===================================================================== *)

Module JSObject.

Definition t (V : Type) : Type := list (string * V).

(** [obj[key]]; [None] is [undefined]. *)
Fixpoint get {V} (key : string) (obj : t V) : option V :=
  match obj with
  | [] => None
  | (k, v) :: r => if String.eqb k key then Some v else get key r
  end.

(** [obj[key] = v]: an existing key keeps its place, a new key goes last
    (the order of [Object.entries] for keys that are not array indices, as
    category names and [yyyy-MM-dd] day keys are). *)
Fixpoint set {V} (key : string) (v : V) (obj : t V) : t V :=
  match obj with
  | [] => [(key, v)]
  | (k, v') :: r =>
      if String.eqb k key then (k, v) :: r else (k, v') :: set key v r
  end.

(** [Object.keys(obj)] *)
Definition keys {V} (obj : t V) : list string := map fst obj.

End JSObject.

(* ===================================================================== *)
(** * Reports page: category breakdown and top expenses *)
(* ===================================================================== *)

Module Breakdown.
Local Open Scope string_scope.

(** [value] and [label] of [categoryConfig] (transaction-modal.tsx). *)
Definition categoryConfig : list (string * string) :=
  [("Food", "Food"); ("Groceries", "Groceries");
   ("Transportation", "Transportation"); ("Internet", "Internet");
   ("Health", "Health"); ("Sport", "Sport"); ("Shopping", "Shopping");
   ("Entertainment", "Entertainment"); ("BadHabits", "Bad Habits");
   ("Other", "Other")].

Definition COLORS : list string :=
  ["oklch(0.7357 0.1641 34.7091)"; "oklch(0.8278 0.1131 57.9984)";
   "oklch(0.8773 0.0763 54.9314)"; "oklch(0.8200 0.1054 40.8859)";
   "oklch(0.6368 0.1306 32.0721)"; "oklch(0.7357 0.1641 34.7091)";
   "oklch(0.8278 0.1131 57.9984)"; "oklch(0.8773 0.0763 54.9314)";
   "oklch(0.8200 0.1054 40.8859)"; "oklch(0.6368 0.1306 32.0721)"].

(** [arr.sort((a, b) => value(b) - value(a))]: insertion into a list in
    descending order; elements of equal value keep their order, as a stable
    sort does. *)
Fixpoint insertDesc {A} (value : A -> Q) (x : A) (l : list A) : list A :=
  match l with
  | [] => [x]
  | y :: r =>
      if Qle_bool (value y) (value x) then x :: y :: r
      else y :: insertDesc value x r
  end.

Definition sortDesc {A} (value : A -> Q) (l : list A) : list A :=
  fold_right (insertDesc value) [] l.

(** The reducer of [categoryData]:
    [if (!acc[category]) acc[category] = 0; acc[category] += amount]. *)
Definition addAmount (acc : JSObject.t Q) (transaction : Transaction.t)
  : JSObject.t Q :=
  let category := Transaction.category transaction in
  let acc :=
    match JSObject.get category acc with
    | Some v => if Qeq_bool v 0 then JSObject.set category 0%Q acc else acc
    | None => JSObject.set category 0%Q acc
    end in
  match JSObject.get category acc with
  | Some v =>
      JSObject.set category (v + Transaction.amount transaction)%Q acc
  | None => acc
  end.

Definition grouped (transactions : list Transaction.t) : JSObject.t Q :=
  fold_left addAmount transactions [].

Record CategoryDatum : Type := mkDatum {
  category : string;
  label : string;
  value : Q;
  (** [None] is [undefined] *)
  fill : option string
}.

(** [categoryConfig.findIndex(c => c.value === category)]; [None] is -1. *)
Fixpoint findIndex (category : string) (config : list (string * string))
  : option nat :=
  match config with
  | [] => None
  | (v, _) :: r =>
      if String.eqb v category then Some O
      else option_map S (findIndex category r)
  end.

Definition datumOf (entry : string * Q) : CategoryDatum :=
  let (category, total) := entry in
  let config := find (fun c => String.eqb (fst c) category) categoryConfig in
  mkDatum category
    match config with
    | Some (_, l) => if JS.falsy_string l then category else l
    | None => category
    end
    total
    (* [COLORS[-1 % COLORS.length]] is [COLORS[-1]], which is undefined *)
    match findIndex category categoryConfig with
    | Some i => nth_error COLORS (i mod List.length COLORS)%nat
    | None => None
    end.

(** Group transactions by category *)
Definition categoryData (transactions : list Transaction.t)
  : list CategoryDatum :=
  sortDesc value (map datumOf (grouped transactions)).

(** Top expenses *)
Definition topExpenses (transactions : list Transaction.t)
  : list Transaction.t :=
  firstn 10 (sortDesc Transaction.amount transactions).

End Breakdown.

(* ===================================================================== *)
(** * Records page: grouping by day and search *)
(* ===================================================================== *)

Module Records.
Local Open Scope string_scope.

(** [format(d, 'yyyy-MM-dd')] *)
Definition format_yyyy_MM_dd (tz d : Z) : string :=
  let signedYear := Date.getFullYear tz d in
  let year := (if 0 <? signedYear then signedYear else 1 - signedYear)%Z in
  DateFns.addLeadingZeros year 4 ++ "-"
    ++ DateFns.addLeadingZeros (Date.getMonth tz d + 1) 2 ++ "-"
    ++ DateFns.addLeadingZeros (Date.getDate tz d) 2.

(** [s.toLowerCase()], on the letters A to Z. *)
Definition lowerChar (c : ascii) : ascii :=
  let n := nat_of_ascii c in
  if ((65 <=? n) && (n <=? 90))%nat then ascii_of_nat (n + 32) else c.

Definition toLowerCase (s : string) : string :=
  string_of_list_ascii (map lowerChar (list_ascii_of_string s)).

(** The reducer of [groupedTransactions]:
    [if (!groups[dateKey]) groups[dateKey] = []; groups[dateKey].push(t)]. *)
Definition addToGroup (tz : Z) (groups : JSObject.t (list Transaction.t))
           (transaction : Transaction.t) : JSObject.t (list Transaction.t) :=
  let dateKey := format_yyyy_MM_dd tz (Transaction.date transaction) in
  let groups :=
    match JSObject.get dateKey groups with
    | Some _ => groups
    | None => JSObject.set dateKey [] groups
    end in
  match JSObject.get dateKey groups with
  | Some g => JSObject.set dateKey (g ++ [transaction])%list groups
  | None => groups
  end.

(** Group transactions by date *)
Definition groupedTransactions (tz : Z) (transactions : list Transaction.t)
  : JSObject.t (list Transaction.t) :=
  fold_left (addToGroup tz) transactions [].

Definition matchesQuery (searchQuery : string) (transaction : Transaction.t)
  : bool :=
  JS.includes (toLowerCase (Transaction.name transaction))
              (toLowerCase searchQuery)
  || JS.includes (toLowerCase (Transaction.category transaction))
                 (toLowerCase searchQuery).

(** Filter transactions based on search query *)
Definition filteredGroups (searchQuery : string)
           (groupedTransactions : JSObject.t (list Transaction.t))
  : JSObject.t (list Transaction.t) :=
  fold_left
    (fun filtered entry =>
       let (dateKey, transactions) := entry : string * list Transaction.t in
       let filteredTransactions :=
         filter (matchesQuery searchQuery) transactions in
       if (0 <? List.length filteredTransactions)%nat
       then JSObject.set dateKey filteredTransactions filtered
       else filtered)
    groupedTransactions [].

End Records.

(* ===================================================================== *)
(** * Client forms *)
(* ===================================================================== *)

Module Forms.
Local Open Scope string_scope.

(** [handleSubmit] of the transaction modal: the form data handed to
    [onSubmit], or [None] when the handler returns before. *)
Definition handleSubmit (formData : TransactionFormData.t)
  : option TransactionFormData.t :=
  if JS.falsy_string (JS.trim (TransactionFormData.name formData))
     || JS.falsy_string (TransactionFormData.amount formData)
  then None
  else Some formData.

Record Currency : Type := mkCurrency {
  code : string;
  symbol : string;
  name : string
}.

Definition currencies : list Currency :=
  [mkCurrency "USD" "$" "US Dollar";
   mkCurrency "EUR" "€" "Euro";
   mkCurrency "GBP" "£" "British Pound";
   mkCurrency "JPY" "¥" "Japanese Yen";
   mkCurrency "CAD" "C$" "Canadian Dollar";
   mkCurrency "AUD" "A$" "Australian Dollar";
   mkCurrency "CHF" "Fr" "Swiss Franc";
   mkCurrency "CNY" "¥" "Chinese Yuan"].

(** [handleCurrencyChange] of the profile page, as the currency of the
    store after the call. *)
Definition handleCurrencyChange (currencyCode : string) (currency : Currency)
  : Currency :=
  match find (fun c => String.eqb (code c) currencyCode) currencies with
  | Some newCurrency => newCurrency
  | None => currency
  end.

End Forms.

(* ===================================================================== *)
(** * More vocabulary *)
(* ===================================================================== *)

Module Terms.

(** The rows that do not belong to [uid], in their stored order. *)
Definition others (uid : string) (rows : list Transaction.t)
  : list Transaction.t :=
  filter (fun r => negb (String.eqb (Transaction.userId r) uid)) rows.

(** The row that an accepted create or update writes. *)
Definition written (id : string) (data : TransactionFormData.t) (amount : Q)
           (createdAt updatedAt : Z) (uid : string) : Transaction.t :=
  Transaction.mk id (JS.trim (TransactionFormData.name data)) amount
                 (TransactionFormData.category data)
                 (TransactionFormData.date data) createdAt updatedAt uid.

(** Whether an action returned a result whose [success] is true. *)
Definition succeeded (o : Effect.outcome Actions.Result) : bool :=
  match o with
  | Effect.Returned r => Actions.success r
  | Effect.Thrown _ => false
  end.

(** The keys of a list in the order of their first occurrence. *)
Fixpoint firstOccurrences (keys : list string) : list string :=
  match keys with
  | [] => []
  | k :: r => k :: filter (fun k' => negb (String.eqb k' k)) (firstOccurrences r)
  end.

(** The amounts of a list are in descending order. *)
Definition descendingBy {A} (value : A -> Q) (l : list A) : Prop :=
  StronglySorted (fun a b => (value b <= value a)%Q) l.

(** Sum of the amounts of the transactions of a category. *)
Definition amountOfCategory (category : string) (txs : list Transaction.t) : Q :=
  Spec.sumQ (map Transaction.amount
                 (filter (fun t => String.eqb (Transaction.category t) category)
                         txs)).

End Terms.

(* ===================================================================== *)
(** * More sample data *)
(* ===================================================================== *)

Module Samples.
Local Open Scope string_scope.

Definition bob : User.t :=
  User.mk "user_2" "bob@example.org" (Some "Bob") "USD"
          (Examples.nov 1) (Examples.nov 1).

(** An expense of another user. *)
Definition rent : Transaction.t :=
  Transaction.mk "tx2" "Rent" 900 "Other" (Examples.nov 1)
                 (Examples.nov 1) (Examples.nov 1) "user_2".

(** Two users; the first is signed in. *)
Definition shared : Store.World :=
  Store.mkWorld (Some "user_1")
                (Some (ClerkUser.mk ["ann@example.org"] (Some "Ann")))
                (Examples.nov 30 + 12 * Date.msPerHour)
                [Examples.ann; bob] [Examples.coffee; Examples.taxi; rent] 3 [].

Definition sharedRefreshed : Store.World :=
  snd (Actions.ensureUser Store.collaborators "user_1" shared).

(** Nobody is signed in. *)
Definition signedOut : Store.World :=
  Store.mkWorld None None (Examples.nov 30)
                [Examples.ann; bob] [Examples.coffee; Examples.taxi; rent] 3 [].

(** The caller's profile carries the address of another user's row. *)
Definition collision : Store.World :=
  Store.mkWorld (Some "user_1")
                (Some (ClerkUser.mk ["bob@example.org"] (Some "Ann")))
                (Examples.nov 30)
                [Examples.ann; bob] [Examples.coffee; Examples.taxi; rent] 3 [].

(** A caller who signs in for the first time: no row in the table of
    users yet. *)
Definition newcomer : Store.World :=
  Store.mkWorld (Some "user_3")
                (Some (ClerkUser.mk ["cy@example.org"] (Some "Cy")))
                (Examples.nov 30)
                [Examples.ann; bob] [Examples.coffee; Examples.taxi; rent] 3 [].

(** Expenses of 2.2 on November 3 and of 1.1 and 3.3 on November 4. *)
Definition juice : Transaction.t :=
  Transaction.mk "tx5" "Juice" (22 # 10) "Food" (Examples.nov 3)
                 (Examples.nov 3) (Examples.nov 3) "user_1".

Definition bread : Transaction.t :=
  Transaction.mk "tx6" "Bread" (11 # 10) "Groceries" (Examples.nov 4)
                 (Examples.nov 4) (Examples.nov 4) "user_1".

Definition milk : Transaction.t :=
  Transaction.mk "tx7" "Milk" (33 # 10) "Groceries"
                 (Examples.nov 4 + 9 * Date.msPerHour)
                 (Examples.nov 4) (Examples.nov 4) "user_1".

(** The reference store behind a driver whose operations on transactions
    reject with [undefined]. *)
Definition faulty : Collab.t Store.World :=
  Collab.mk Store.World Store.auth Store.currentUser Store.user_upsert
            (fun _ => Effect.throw Effect.Undefined)
            (fun _ _ _ => Effect.throw Effect.Undefined)
            (fun _ _ => Effect.throw Effect.Undefined)
            (fun _ _ => Effect.throw Effect.Undefined)
            (fun _ _ _ => Effect.throw Effect.Undefined)
            Store.revalidatePath Store.now.

End Samples.

(* ===================================================================== *)
(** * Calendar facts *)
(* ===================================================================== *)

Module DateFacts.
Import Date.

Ltac unfold_ms := unfold msPerDay, msPerHour, msPerMinute, msPerSecond in *.

(** Evaluate the table of month starts at closed arguments. *)
Ltac eval_monthStart :=
  cbv beta iota in *;
  repeat match goal with
         | |- context [ monthStart ?l ?m ] =>
             let v := eval compute in (monthStart l m) in
             change (monthStart l m) with v
         | H : context [ monthStart ?l ?m ] |- _ =>
             let v := eval compute in (monthStart l m) in
             change (monthStart l m) with v in H
         end.

Ltac split_ltb :=
  repeat match goal with
         | |- context [ (?a <? ?b) ] => destruct (Z.ltb_spec a b)
         end.

Ltac month_cases m :=
  let Cs := fresh "Cs" in
  assert (m = 0 \/ m = 1 \/ m = 2 \/ m = 3 \/ m = 4 \/ m = 5 \/ m = 6
          \/ m = 7 \/ m = 8 \/ m = 9 \/ m = 10 \/ m = 11) as Cs by lia;
  repeat (destruct Cs as [->|Cs]); try subst m.

Lemma DayFromYear_succ (y : Z) :
  DayFromYear (y + 1) = DayFromYear y + DaysInYear y.
Proof.
  unfold DayFromYear, DaysInYear, isLeapYear.
  repeat match goal with
         | |- context [ (?a =? ?b) ] => destruct (Z.eqb_spec a b)
         end; cbn [negb]; Z.div_mod_to_equations; lia.
Qed.

Lemma DaysInYear_pos (y : Z) : 365 <= DaysInYear y <= 366.
Proof. unfold DaysInYear. destruct (isLeapYear y); lia. Qed.

Lemma DayFromYear_lt (y y' : Z) : y < y' -> DayFromYear y < DayFromYear y'.
Proof.
  intros H. unfold DayFromYear. Z.div_mod_to_equations. lia.
Qed.

Lemma YearFromDay_spec (d : Z) :
  DayFromYear (YearFromDay d) <= d < DayFromYear (YearFromDay d + 1).
Proof.
  unfold YearFromDay.
  set (y := 1970 + 400 * d / 146097).
  destruct (Z.ltb_spec d (DayFromYear y)) as [H1|H1].
  - replace (y - 1 + 1) with y by lia. split; [|lia].
    subst y. unfold DayFromYear in *. Z.div_mod_to_equations. lia.
  - destruct (Z.leb_spec (DayFromYear (y + 1)) d) as [H2|H2]; [|lia].
    split; [lia|]. subst y. unfold DayFromYear in *.
    Z.div_mod_to_equations. lia.
Qed.

(** A day between the first day of [y] and the first day of [y + 1] is in
    year [y]. *)
Lemma YearFromDay_unique (y d : Z) :
  DayFromYear y <= d < DayFromYear (y + 1) -> YearFromDay d = y.
Proof.
  intros H. pose proof (YearFromDay_spec d) as S.
  destruct (Z.lt_trichotomy (YearFromDay d) y) as [L|[E|G]]; [|exact E|].
  - assert (DayFromYear (YearFromDay d + 1) <= DayFromYear y).
    { destruct (Z.eq_dec (YearFromDay d + 1) y) as [->|]; [lia|].
      apply Z.lt_le_incl, DayFromYear_lt. lia. }
    lia.
  - assert (DayFromYear (y + 1) <= DayFromYear (YearFromDay d)).
    { destruct (Z.eq_dec (y + 1) (YearFromDay d)) as [->|]; [lia|].
      apply Z.lt_le_incl, DayFromYear_lt. lia. }
    lia.
Qed.

Lemma DayWithinYear_range (t : Z) :
  0 <= DayWithinYear t < DaysInYear (YearFromTime t).
Proof.
  unfold DayWithinYear, YearFromTime.
  pose proof (YearFromDay_spec (Day t)) as S.
  rewrite DayFromYear_succ in S. lia.
Qed.

Lemma MonthFromTime_range (t : Z) : 0 <= MonthFromTime t <= 11.
Proof.
  unfold MonthFromTime.
  repeat match goal with
         | |- context [ (?a <? ?b) ] => destruct (Z.ltb_spec a b)
         end; lia.
Qed.

(** The day of the month is at least 1: the day within the year is not
    before the start of its month. *)
Lemma DateFromTime_pos (t : Z) : 1 <= DateFromTime t.
Proof.
  unfold DateFromTime, MonthFromTime.
  pose proof (DayWithinYear_range t) as R.
  assert (0 <= InLeapYear t <= 1) as L
      by (unfold InLeapYear; destruct (isLeapYear _); lia).
  repeat match goal with
         | |- context [ (?a <? ?b) ] => destruct (Z.ltb_spec a b)
         end; cbn [monthStart]; lia.
Qed.

(** [MakeDay] of the fields of [t], with the date shifted by [k], is the
    day of [t] shifted by [k]. *)
Lemma MakeDay_fields (t k : Z) :
  MakeDay (YearFromTime t) (MonthFromTime t) (DateFromTime t + k) = Day t + k.
Proof.
  pose proof (MonthFromTime_range t) as R.
  unfold MakeDay.
  rewrite Z.div_small, Z.mod_small, Z.add_0_r by lia.
  unfold DateFromTime, DayWithinYear, InLeapYear. lia.
Qed.

(** Fields of the [k]-th day (from 0) of month [m] of year [y]. *)
Lemma fields_of_day (y m k t : Z) :
  0 <= m <= 11 ->
  0 <= k < Spec.daysInMonth y m ->
  Day t = DayFromYear y + monthStart (if isLeapYear y then 1 else 0) m + k ->
  YearFromTime t = y /\ MonthFromTime t = m /\ DateFromTime t = k + 1.
Proof.
  intros Hm Hk Hd.
  assert (YearFromTime t = y) as HY.
  { unfold YearFromTime. apply YearFromDay_unique.
    rewrite DayFromYear_succ, Hd. unfold DaysInYear.
    unfold Spec.daysInMonth in Hk.
    destruct (isLeapYear y); month_cases m; eval_monthStart; lia. }
  assert (DayWithinYear t
          = monthStart (if isLeapYear y then 1 else 0) m + k) as HW.
  { unfold DayWithinYear. rewrite HY. lia. }
  assert (MonthFromTime t = m) as HM.
  { unfold MonthFromTime, InLeapYear. rewrite HW, HY.
    unfold Spec.daysInMonth in Hk.
    destruct (isLeapYear y); month_cases m; eval_monthStart; split_ltb; lia. }
  split; [exact HY|]. split; [exact HM|].
  unfold DateFromTime, InLeapYear. rewrite HW, HY, HM. lia.
Qed.

End DateFacts.

(* ===================================================================== *)
(** * Local time and date-fns facts *)
(* ===================================================================== *)

Module DateFnsFacts.
Import Date DateFns DateFacts.

Section LocalTime.

Variable tz : Z.

Local Abbreviation midnight := (Spec.midnight tz).
Local Abbreviation sundayAfternoon := (Spec.sundayAfternoon tz).
Local Abbreviation firstOfMonth := (Spec.firstOfMonth tz).

Lemma time_fields (t : Z) :
  TimeWithinDay t
  = MakeTime (HourFromTime t) (MinFromTime t) (SecFromTime t) (msFromTime t).
Proof.
  unfold TimeWithinDay, MakeTime, HourFromTime, MinFromTime, SecFromTime,
    msFromTime. unfold_ms. Z.div_mod_to_equations. lia.
Qed.

Lemma startOfDay_dayStart (d : Z) : startOfDay tz d = Spec.dayStart tz d.
Proof.
  unfold startOfDay, setHours, Spec.dayStart, Spec.localDay, MakeDate,
    MakeTime, orElse. f_equal. lia.
Qed.

Lemma dayStart_bounds (d : Z) :
  Spec.dayStart tz d <= d < Spec.dayStart tz d + msPerDay.
Proof.
  unfold Spec.dayStart, Spec.localDay, UTC, LocalTime, Day. unfold_ms.
  Z.div_mod_to_equations. lia.
Qed.

Lemma midnight_dayStart (d : Z) : midnight (Spec.dayStart tz d).
Proof.
  unfold Spec.midnight, Spec.dayStart, Spec.localDay, UTC, LocalTime, Day.
  unfold_ms. Z.div_mod_to_equations. lia.
Qed.

Lemma dayStart_of_midnight (c : Z) : midnight c -> Spec.dayStart tz c = c.
Proof.
  unfold Spec.midnight, Spec.dayStart, Spec.localDay, UTC, LocalTime, Day.
  unfold_ms. intros H. Z.div_mod_to_equations. lia.
Qed.

(** A local midnight after [e] is after the whole calendar day of [e]. *)
Lemma midnight_after (x e : Z) :
  midnight x -> e < x -> Spec.dayEnd tz e < x.
Proof.
  unfold Spec.midnight, Spec.dayEnd, Spec.dayStart, Spec.localDay, UTC,
    LocalTime, Day. unfold_ms. intros H L. Z.div_mod_to_equations. lia.
Qed.

Lemma setDate_shift (d k : Z) :
  setDate tz d (getDate tz d + k) = d + k * msPerDay.
Proof.
  unfold setDate, getDate. rewrite MakeDay_fields.
  unfold MakeDate, UTC, LocalTime, Day, TimeWithinDay. unfold_ms.
  Z.div_mod_to_equations. lia.
Qed.

Lemma setDate_first (d : Z) :
  setDate tz d 1 = d - (getDate tz d - 1) * msPerDay.
Proof.
  replace 1 with (getDate tz d + (1 - getDate tz d)) at 1 by lia.
  rewrite setDate_shift. lia.
Qed.

Lemma addDays_shift (d k : Z) : addDays tz d k = d + k * msPerDay.
Proof.
  unfold addDays. destruct (Z.eqb_spec k 0) as [->|_]; [lia|].
  apply setDate_shift.
Qed.

Lemma addWeeks_shift (d k : Z) : addWeeks tz d k = d + k * (7 * msPerDay).
Proof. unfold addWeeks. rewrite addDays_shift. lia. Qed.

Lemma dayStart_shift (d k : Z) :
  Spec.dayStart tz (d + k * msPerDay) = Spec.dayStart tz d + k * msPerDay.
Proof.
  unfold Spec.dayStart, Spec.localDay, UTC, LocalTime, Day. unfold_ms.
  Z.div_mod_to_equations. lia.
Qed.

Lemma nextDay_shift (d : Z) : nextDay tz d = Spec.dayStart tz d + msPerDay.
Proof.
  unfold nextDay. rewrite setDate_shift, startOfDay_dayStart.
  rewrite dayStart_shift. lia.
Qed.

(** [d.setHours(h)] moves the hour and keeps the rest. *)
Lemma setHours_hour (d h : Z) :
  setHours tz d h None None None = d + (h - getHours tz d) * msPerHour.
Proof.
  unfold setHours, getHours, orElse, MakeDate, UTC.
  pose proof (time_fields (LocalTime tz d)) as F.
  unfold MakeTime, TimeWithinDay, Day in *. unfold LocalTime in *.
  unfold_ms.
  assert ((d + tz) = 86400000 * ((d + tz) / 86400000) + (d + tz) mod 86400000)
    by (apply Z.div_mod; lia).
  lia.
Qed.

Lemma getHours_sundayAfternoon (c : Z) : sundayAfternoon c -> getHours tz c = 15.
Proof.
  unfold Spec.sundayAfternoon, getHours, HourFromTime, LocalTime. unfold_ms.
  intros H. Z.div_mod_to_equations. lia.
Qed.

Lemma getHours_midnight (c : Z) : midnight c -> getHours tz c = 0.
Proof.
  unfold Spec.midnight, getHours, HourFromTime, LocalTime. unfold_ms.
  intros H. Z.div_mod_to_equations. lia.
Qed.

Lemma weekEmit_shift (c : Z) :
  sundayAfternoon c -> weekEmit tz c = c - 15 * msPerHour.
Proof.
  intros H. unfold weekEmit.
  rewrite setHours_hour, (getHours_sundayAfternoon c H). lia.
Qed.

Lemma midnight_weekEmit (c : Z) :
  sundayAfternoon c -> midnight (c - 15 * msPerHour).
Proof.
  unfold Spec.sundayAfternoon, midnight. unfold_ms. intros H.
  Z.div_mod_to_equations. lia.
Qed.

Lemma nextWeek_shift (c : Z) :
  sundayAfternoon c -> nextWeek tz c = c + 7 * msPerDay.
Proof.
  intros H. unfold nextWeek.
  rewrite (weekEmit_shift c H), addWeeks_shift, setHours_hour.
  rewrite getHours_midnight.
  - lia.
  - pose proof (midnight_weekEmit c H) as M. unfold Spec.midnight in *.
    unfold_ms. Z.div_mod_to_equations. lia.
Qed.

Lemma sundayAfternoon_next (c : Z) :
  sundayAfternoon c -> sundayAfternoon (c + 7 * msPerDay).
Proof.
  unfold Spec.sundayAfternoon. unfold_ms. intros H.
  Z.div_mod_to_equations. lia.
Qed.

Lemma getDay_range (d : Z) : 0 <= getDay tz d <= 6.
Proof. unfold getDay, WeekDay. Z.div_mod_to_equations. lia. Qed.

Lemma startOfWeek_eq (d : Z) :
  startOfWeek tz d = Spec.dayStart tz d - getDay tz d * msPerDay.
Proof.
  unfold startOfWeek. pose proof (getDay_range d) as R.
  destruct (Z.ltb_spec (getDay tz d) 0); [lia|].
  replace (getDate tz d - (0 + getDay tz d - 0))
    with (getDate tz d + (- getDay tz d)) by lia.
  rewrite setDate_shift, startOfDay_dayStart, dayStart_shift. lia.
Qed.

(** The start of a week, moved to 15:00, is a Sunday afternoon. *)
Lemma sundayAfternoon_startOfWeek (d : Z) :
  setHours tz (startOfWeek tz d) 15 None None None
  = startOfWeek tz d + 15 * msPerHour
  /\ sundayAfternoon (startOfWeek tz d + 15 * msPerHour).
Proof.
  assert (midnight (startOfWeek tz d)) as M.
  { rewrite startOfWeek_eq. pose proof (midnight_dayStart d) as M.
    unfold Spec.midnight in *. unfold_ms. Z.div_mod_to_equations. lia. }
  split.
  - rewrite setHours_hour, (getHours_midnight _ M). lia.
  - rewrite startOfWeek_eq.
    unfold Spec.sundayAfternoon, getDay, WeekDay, Spec.dayStart, Spec.localDay,
      UTC, LocalTime, Day. unfold_ms. Z.div_mod_to_equations. lia.
Qed.

(** ** Months *)

Lemma daysInMonth_range (y m : Z) :
  0 <= m <= 11 -> 28 <= Spec.daysInMonth y m <= 31.
Proof.
  intros H. unfold Spec.daysInMonth.
  destruct (isLeapYear y); month_cases m; eval_monthStart; lia.
Qed.

Lemma nextYM_range (y m : Z) :
  0 <= m <= 11 -> 0 <= snd (Spec.nextYM (y, m)) <= 11.
Proof.
  intros H. unfold Spec.nextYM.
  destruct (Z.eqb_spec m 11); cbn [snd]; lia.
Qed.

Lemma firstDay_next (y m : Z) :
  0 <= m <= 11 ->
  Spec.firstDay (fst (Spec.nextYM (y, m))) (snd (Spec.nextYM (y, m)))
  = Spec.firstDay y m + Spec.daysInMonth y m.
Proof.
  intros H. unfold Spec.nextYM, Spec.firstDay, Spec.daysInMonth.
  destruct (Z.eqb_spec m 11) as [->|N]; cbn [fst snd].
  - rewrite DayFromYear_succ. unfold DaysInYear.
    destruct (isLeapYear y), (isLeapYear (y + 1)); eval_monthStart; lia.
  - lia.
Qed.

(** [MakeDay] of the month after [m]. *)
Lemma MakeDay_next (y m d : Z) :
  0 <= m <= 11 ->
  MakeDay y (m + 1) d
  = Spec.firstDay (fst (Spec.nextYM (y, m))) (snd (Spec.nextYM (y, m)))
    + d - 1.
Proof.
  intros H. unfold MakeDay, Spec.nextYM, Spec.firstDay.
  destruct (Z.eqb_spec m 11) as [->|N]; cbn [fst snd].
  - reflexivity.
  - rewrite Z.div_small, Z.mod_small, Z.add_0_r by lia. reflexivity.
Qed.

Lemma firstOfMonth_midnight (c : Z) : firstOfMonth c -> midnight c.
Proof.
  intros (y & m & _ & E). unfold Spec.midnight. rewrite E.
  apply Z.mod_mul. unfold_ms. lia.
Qed.

Lemma firstOfMonth_fields (c y m : Z) :
  0 <= m <= 11 ->
  c + tz = Spec.firstDay y m * msPerDay ->
  getFullYear tz c = y /\ getMonth tz c = m /\ getDate tz c = 1
  /\ TimeWithinDay (LocalTime tz c) = 0 /\ Day (LocalTime tz c) = Spec.firstDay y m.
Proof.
  intros Hm E.
  assert (Day (LocalTime tz c) = Spec.firstDay y m) as HD.
  { unfold Day, LocalTime. rewrite E. apply Z.div_mul. unfold_ms. lia. }
  pose proof (daysInMonth_range y m Hm) as R.
  destruct (fields_of_day y m 0 (LocalTime tz c) Hm) as (A & B & D).
  - lia.
  - rewrite HD. unfold Spec.firstDay. lia.
  - unfold getFullYear, getMonth, getDate. repeat split; try assumption.
    unfold TimeWithinDay, LocalTime. rewrite E. apply Z.mod_mul.
    unfold_ms. lia.
Qed.

(** The first day of the month of [x], at midnight. *)
Lemma firstOfMonth_setDate (x : Z) :
  firstOfMonth (setDate tz (startOfDay tz x) 1)
  /\ setDate tz (startOfDay tz x) 1 <= Spec.dayStart tz x.
Proof.
  rewrite setDate_first, startOfDay_dayStart.
  set (s := Spec.dayStart tz x).
  pose proof (DateFromTime_pos (LocalTime tz s)) as P.
  pose proof (MonthFromTime_range (LocalTime tz s)) as R.
  split.
  - exists (YearFromTime (LocalTime tz s)), (MonthFromTime (LocalTime tz s)).
    split; [exact R|].
    pose proof (midnight_dayStart x) as M. fold s in M.
    unfold Spec.midnight in M.
    unfold getDate, DateFromTime, DayWithinYear, InLeapYear, Spec.firstDay,
      Day, LocalTime in *.
    unfold_ms. Z.div_mod_to_equations. lia.
  - unfold getDate. unfold_ms. lia.
Qed.

Lemma nextMonth_first (c y m : Z) :
  0 <= m <= 11 ->
  c + tz = Spec.firstDay y m * msPerDay ->
  nextMonth tz c + tz
  = Spec.firstDay (fst (Spec.nextYM (y, m))) (snd (Spec.nextYM (y, m)))
    * msPerDay.
Proof.
  intros Hm E.
  destruct (firstOfMonth_fields c y m Hm E) as (HY & HM & HD & HT & _).
  unfold nextMonth, setMonth, orElse.
  unfold getFullYear, getMonth, getDate in *.
  rewrite HY, HM, HD, HT, MakeDay_next by exact Hm.
  unfold MakeDate, UTC. lia.
Qed.

Lemma nextMonth_firstOfMonth (c : Z) :
  firstOfMonth c ->
  firstOfMonth (nextMonth tz c)
  /\ c + 28 * msPerDay <= nextMonth tz c <= c + 31 * msPerDay.
Proof.
  intros (y & m & Hm & E).
  pose proof (nextMonth_first c y m Hm E) as N.
  split.
  - exists (fst (Spec.nextYM (y, m))), (snd (Spec.nextYM (y, m))).
    split; [apply nextYM_range; exact Hm | exact N].
  - rewrite firstDay_next in N by exact Hm.
    pose proof (daysInMonth_range y m Hm). unfold_ms. lia.
Qed.

(** From the first of a month, [addMonths(c, 1)] is the first of the next
    month, the instant the loop of [eachMonthOfInterval] moves to. *)
Lemma addMonths_first (c : Z) :
  firstOfMonth c -> addMonths tz c 1 = nextMonth tz c.
Proof.
  intros (y & m & Hm & E).
  destruct (firstOfMonth_fields c y m Hm E) as (HY & HM & HD & HT & _).
  pose proof (nextMonth_first c y m Hm E) as N.
  set (y1 := fst (Spec.nextYM (y, m))) in *.
  set (m1 := snd (Spec.nextYM (y, m))) in *.
  assert (0 <= m1 <= 11) as Hm1 by (apply nextYM_range; exact Hm).
  pose proof (daysInMonth_range y1 m1 Hm1) as R1.
  unfold addMonths. cbn [Z.eqb].
  set (e := setMonth tz c (getMonth tz c + 1 + 1) (Some 0)).
  assert (Day (LocalTime tz e)
          = Spec.firstDay y1 m1 + (Spec.daysInMonth y1 m1 - 1)) as HE.
  { unfold e, setMonth, orElse. unfold getFullYear, getMonth in *.
    rewrite HY, HM, HT.
    assert (MakeDay y (m + 1 + 1) 0
            = Spec.firstDay y1 m1 + Spec.daysInMonth y1 m1 - 1) as MD.
    { rewrite <- firstDay_next by exact Hm1.
      unfold y1, m1, Spec.nextYM, MakeDay, Spec.firstDay.
      destruct (Z.eqb_spec m 11) as [->|N11]; cbn [fst snd].
      - change ((11 + 1 + 1) / 12) with 1.
        change ((11 + 1 + 1) mod 12) with 1.
        change (0 =? 11) with false. cbn [fst snd].
        change (0 + 1) with 1. lia.
      - destruct (Z.eqb_spec (m + 1) 11) as [E11|N12]; cbn [fst snd].
        + replace m with 10 by lia.
          change ((10 + 1 + 1) / 12) with 1.
          change ((10 + 1 + 1) mod 12) with 0. lia.
        + rewrite Z.div_small, Z.mod_small by lia.
          rewrite !Z.add_0_r. reflexivity. }
    rewrite MD. unfold MakeDate, UTC, LocalTime, Day. unfold_ms.
    Z.div_mod_to_equations. lia. }
  destruct (fields_of_day y1 m1 (Spec.daysInMonth y1 m1 - 1)
              (LocalTime tz e) Hm1) as (EY & EM & ED).
  { lia. }
  { rewrite HE. unfold Spec.firstDay. lia. }
  unfold getFullYear, getMonth, getDate in *.
  rewrite ED, HD.
  destruct (Z.leb_spec (Spec.daysInMonth y1 m1 - 1 + 1) 1) as [L|_]; [lia|].
  rewrite EY, EM.
  unfold setFullYear, orElse. rewrite HT.
  assert (MakeDay y1 m1 1 = Spec.firstDay y1 m1) as MD1.
  { unfold MakeDay, Spec.firstDay.
    rewrite Z.div_small, Z.mod_small, Z.add_0_r by lia. lia. }
  rewrite MD1. unfold MakeDate, UTC. lia.
Qed.

End LocalTime.

End DateFnsFacts.

(* ===================================================================== *)
(** * Sums over buckets *)
(* ===================================================================== *)

Module TrendFacts.
Import Date DateFns DateFacts DateFnsFacts.

Lemma fold_left_amount (l : list Transaction.t) (a : Q) :
  (fold_left (fun sum t => sum + Transaction.amount t) l a
   == a + Spec.sumQ (map Transaction.amount l))%Q.
Proof.
  revert a. induction l as [|x l IH]; intros a;
    cbn [fold_left map Spec.sumQ fold_right].
  - ring.
  - rewrite IH. unfold Spec.sumQ. ring.
Qed.

Lemma bucketAmount_within (txs : list Transaction.t) (a b : Z) :
  (Reports.bucketAmount txs a b == Spec.amountWithin txs a b)%Q.
Proof.
  unfold Reports.bucketAmount, Spec.amountWithin.
  rewrite fold_left_amount. ring.
Qed.

Lemma amountWithin_split (txs : list Transaction.t) (a b c : Z) :
  a <= b <= c ->
  (Spec.amountWithin txs a b + Spec.amountWithin txs b c
   == Spec.amountWithin txs a c)%Q.
Proof.
  intros H. unfold Spec.amountWithin.
  induction txs as [|x l IH]; cbn [filter map Spec.sumQ fold_right].
  - ring.
  - destruct (Z.leb_spec a (Transaction.date x)),
      (Z.ltb_spec (Transaction.date x) b),
      (Z.leb_spec b (Transaction.date x)),
      (Z.ltb_spec (Transaction.date x) c);
      cbn [andb map Spec.sumQ fold_right]; try lia;
      rewrite <- IH; unfold Spec.sumQ; ring.
Qed.

Lemma amountWithin_none (txs : list Transaction.t) (a b : Z) :
  (forall x, In x txs -> ~ (a <= Transaction.date x < b)) ->
  Spec.amountWithin txs a b = 0%Q.
Proof.
  intros H. unfold Spec.amountWithin.
  replace (filter _ txs) with (@nil Transaction.t); [reflexivity|].
  symmetry. induction txs as [|x l IH]; cbn; [reflexivity|].
  destruct (Z.leb_spec a (Transaction.date x)),
    (Z.ltb_spec (Transaction.date x) b); cbn;
    try (apply IH; intros y Hy; apply H; right; exact Hy).
  exfalso. apply (H x); [left; reflexivity | lia].
Qed.

Lemma bucketAmount_none (txs : list Transaction.t) (a b : Z) :
  (forall x, In x txs -> ~ (a <= Transaction.date x < b)) ->
  Reports.bucketAmount txs a b = 0%Q.
Proof.
  intros H. unfold Reports.bucketAmount.
  replace (filter _ txs) with (@nil Transaction.t); [reflexivity|].
  symmetry. induction txs as [|x l IH]; cbn; [reflexivity|].
  destruct (Z.leb_spec a (Transaction.date x)),
    (Z.ltb_spec (Transaction.date x) b); cbn;
    try (apply IH; intros y Hy; apply H; right; exact Hy).
  exfalso. apply (H x); [left; reflexivity | lia].
Qed.

Lemma amountWithin_all (txs : list Transaction.t) (a b : Z) :
  (forall x, In x txs -> a <= Transaction.date x < b) ->
  Spec.amountWithin txs a b = Spec.sumQ (map Transaction.amount txs).
Proof.
  intros H. unfold Spec.amountWithin.
  replace (filter _ txs) with txs; [reflexivity|].
  induction txs as [|x l IH]; cbn; [reflexivity|].
  pose proof (H x (or_introl eq_refl)).
  destruct (Z.leb_spec a (Transaction.date x)),
    (Z.ltb_spec (Transaction.date x) b); cbn; try lia.
  f_equal. apply IH. intros y Hy. apply H. right. exact Hy.
Qed.

Lemma roundsFor_enough (step endTime cur : Z) :
  (endTime - cur) / step < Z.of_nat (roundsFor step endTime cur).
Proof. unfold roundsFor. lia. Qed.

(** ** The bucket loop, for any step function *)

Section Loop.

Variables emit next iend : Z -> Z.
Variables endTime step : Z.
Variable Inv : Z -> Prop.
Variable txs : list Transaction.t.

Hypothesis Hstep : 0 < step.
Hypothesis Hinv : forall c, Inv c -> Inv (next c).
Hypothesis Hgrow : forall c, Inv c -> c + step <= next c.
Hypothesis Hemit : forall c, Inv c -> emit c < emit (next c).
Hypothesis Hend : forall c, Inv c -> iend (emit c) = emit (next c).

Lemma enough_next (fuel : nat) (cur : Z) :
  Inv cur -> cur <= endTime ->
  (endTime - cur) / step < Z.of_nat (S fuel) ->
  (endTime - next cur) / step < Z.of_nat fuel.
Proof.
  intros I L E. pose proof (Hgrow cur I) as G.
  assert ((endTime - next cur) / step <= (endTime - cur - step) / step)
    by (apply Z.div_le_mono; lia).
  assert ((endTime - cur - step) / step = (endTime - cur) / step - 1).
  { replace (endTime - cur - step) with (endTime - cur + (-1) * step) by lia.
    rewrite Z.div_add by lia. lia. }
  lia.
Qed.

(** With enough rounds the loop stops because its variable passed
    [endTime]. *)
Lemma exit_spec (fuel : nat) (cur : Z) :
  Inv cur ->
  (endTime - cur) / step < Z.of_nat fuel ->
  Inv (Spec.exitOf fuel next endTime cur)
  /\ endTime < Spec.exitOf fuel next endTime cur
  /\ emit cur <= emit (Spec.exitOf fuel next endTime cur).
Proof.
  revert cur. induction fuel as [|fuel IH]; intros cur I E.
  - cbn. split; [exact I|]. split; [|lia].
    destruct (Z.le_gt_cases cur endTime) as [L|G]; [|lia].
    assert (0 <= (endTime - cur) / step) by (apply Z.div_pos; lia). lia.
  - cbn [Spec.exitOf]. destruct (Z.leb_spec cur endTime) as [L|G].
    + destruct (IH (next cur) (Hinv cur I) (enough_next fuel cur I L E))
        as (A & B & D).
      pose proof (Hemit cur I). repeat split; try assumption. lia.
    + repeat split; try assumption. lia.
Qed.

Lemma loop_lower (fuel : nat) (cur p : Z) :
  Inv cur ->
  In p (whileNotAfter fuel emit next endTime cur) -> emit cur <= p.
Proof.
  revert cur. induction fuel as [|fuel IH]; intros cur I H; cbn in H.
  - contradiction.
  - destruct (Z.leb_spec cur endTime); [|contradiction].
    destruct H as [<-|H]; [lia|].
    pose proof (IH (next cur) (Hinv cur I) H). pose proof (Hemit cur I). lia.
Qed.

(** The sum of the bucket sums is the sum over the span of the buckets. *)
Lemma loop_sum (fuel : nat) (cur : Z) :
  Inv cur ->
  (endTime - cur) / step < Z.of_nat fuel ->
  (Spec.sumQ (map (fun p => Reports.bucketAmount txs p (iend p))
                  (whileNotAfter fuel emit next endTime cur))
   == Spec.amountWithin txs (emit cur)
        (emit (Spec.exitOf fuel next endTime cur)))%Q.
Proof.
  revert cur. induction fuel as [|fuel IH]; intros cur I E.
  - cbn. rewrite amountWithin_none; [reflexivity | intros; lia].
  - cbn [whileNotAfter Spec.exitOf].
    destruct (Z.leb_spec cur endTime) as [L|G].
    + cbn [map Spec.sumQ fold_right].
      pose proof (enough_next fuel cur I L E) as E'.
      destruct (exit_spec fuel (next cur) (Hinv cur I) E') as (_ & _ & D).
      fold (Spec.sumQ (map (fun p => Reports.bucketAmount txs p (iend p))
              (whileNotAfter fuel emit next endTime (next cur)))).
      rewrite (IH (next cur) (Hinv cur I) E').
      rewrite bucketAmount_within, (Hend cur I).
      apply amountWithin_split. pose proof (Hemit cur I). lia.
    + cbn. rewrite amountWithin_none; [reflexivity | intros; lia].
Qed.

(** Every instant of the span lies in a bucket of the list. *)
Lemma loop_cover (fuel : nat) (cur t : Z) :
  Inv cur ->
  (endTime - cur) / step < Z.of_nat fuel ->
  emit cur <= t < emit (Spec.exitOf fuel next endTime cur) ->
  exists p, In p (whileNotAfter fuel emit next endTime cur)
            /\ p <= t < iend p.
Proof.
  revert cur. induction fuel as [|fuel IH]; intros cur I E T.
  - cbn in T. lia.
  - cbn [whileNotAfter Spec.exitOf] in *.
    destruct (Z.leb_spec cur endTime) as [L|G]; [|lia].
    destruct (Z.lt_ge_cases t (emit (next cur))) as [Lt|Ge].
    + exists (emit cur). split; [left; reflexivity|].
      rewrite (Hend cur I). lia.
    + destruct (IH (next cur) (Hinv cur I) (enough_next fuel cur I L E))
        as (p & Hp & Ht); [lia|].
      exists p. split; [right; exact Hp | exact Ht].
Qed.

(** No instant lies in two buckets. *)
Lemma loop_unique (fuel : nat) (cur p q t : Z) :
  Inv cur ->
  In p (whileNotAfter fuel emit next endTime cur) ->
  In q (whileNotAfter fuel emit next endTime cur) ->
  p <= t < iend p -> q <= t < iend q -> p = q.
Proof.
  revert cur. induction fuel as [|fuel IH]; intros cur I Hp Hq Tp Tq;
    cbn in Hp, Hq.
  - contradiction.
  - destruct (Z.leb_spec cur endTime); [|contradiction].
    destruct Hp as [<-|Hp], Hq as [<-|Hq].
    + reflexivity.
    + pose proof (loop_lower fuel (next cur) q (Hinv cur I) Hq).
      rewrite (Hend cur I) in Tp. lia.
    + pose proof (loop_lower fuel (next cur) p (Hinv cur I) Hp).
      rewrite (Hend cur I) in Tq. lia.
    + exact (IH (next cur) (Hinv cur I) Hp Hq Tp Tq).
Qed.

(** Every bucket start is emitted from a loop variable that satisfies the
    invariant. *)
Lemma loop_members (fuel : nat) (cur p : Z) :
  Inv cur ->
  In p (whileNotAfter fuel emit next endTime cur) ->
  exists c, Inv c /\ p = emit c.
Proof.
  revert cur. induction fuel as [|fuel IH]; intros cur I H; cbn in H.
  - contradiction.
  - destruct (Z.leb_spec cur endTime); [|contradiction].
    destruct H as [<-|H].
    + exists cur. split; [exact I | reflexivity].
    + exact (IH (next cur) (Hinv cur I) H).
Qed.

Lemma loop_tiles (fuel : nat) (cur : Z) :
  Inv cur ->
  (endTime - cur) / step < Z.of_nat fuel ->
  Spec.tiles txs iend (whileNotAfter fuel emit next endTime cur)
             (emit cur) (emit (Spec.exitOf fuel next endTime cur)).
Proof.
  intros I E. split; [|split].
  - apply loop_sum; assumption.
  - intros t Ht. apply loop_cover; assumption.
  - intros i j t Hi Hj Ti Tj.
    exact (loop_unique fuel cur i j t I Hi Hj Ti Tj).
Qed.

End Loop.

(** ** The three kinds of buckets *)

Section Buckets.

Variable tz : Z.
Variable txs : list Transaction.t.

Local Abbreviation midnight := (Spec.midnight tz).
Local Abbreviation sundayAfternoon := (Spec.sundayAfternoon tz).
Local Abbreviation firstOfMonth := (Spec.firstOfMonth tz).

Lemma midnight_shift (c : Z) : midnight c -> midnight (c + msPerDay).
Proof.
  unfold Spec.midnight. unfold_ms. intros H. Z.div_mod_to_equations. lia.
Qed.

Lemma nextDay_midnight (c : Z) : midnight c -> nextDay tz c = c + msPerDay.
Proof.
  intros H. rewrite nextDay_shift, (dayStart_of_midnight tz c H). reflexivity.
Qed.

Lemma days_tile (s e : Z) :
  s <= e ->
  exists hi,
    Spec.dayEnd tz e < hi
    /\ Spec.tiles txs (Reports.intervalEndOf tz Reports.thisMonth)
                  (eachDayOfInterval tz s e) (Spec.dayStart tz s) hi.
Proof.
  intros Hse. unfold eachDayOfInterval.
  destruct (Z.ltb_spec e s) as [C|_]; [lia|].
  rewrite startOfDay_dayStart.
  set (cur := Spec.dayStart tz s).
  set (fuel := roundsFor msPerDay e cur).
  assert (midnight cur) as I by apply midnight_dayStart.
  assert (0 < msPerDay) as Hstep by (unfold_ms; lia).
  assert (forall c, midnight c -> midnight (nextDay tz c)) as Hinv.
  { intros c M. rewrite (nextDay_midnight c M). apply midnight_shift, M. }
  assert (forall c, midnight c -> c + msPerDay <= nextDay tz c) as Hgrow.
  { intros c M. rewrite (nextDay_midnight c M). lia. }
  assert (forall c, midnight c -> c < nextDay tz c) as Hemit.
  { intros c M. rewrite (nextDay_midnight c M). unfold_ms. lia. }
  assert (forall c, midnight c ->
                    Reports.intervalEndOf tz Reports.thisMonth c
                    = nextDay tz c) as Hend.
  { intros c M. unfold Reports.intervalEndOf.
    rewrite addDays_shift, (nextDay_midnight c M). lia. }
  pose proof (roundsFor_enough msPerDay e cur) as En. fold fuel in En.
  destruct (exit_spec (fun d => d) (nextDay tz) e msPerDay midnight
              Hstep Hinv Hgrow Hemit fuel cur I En) as (Ix & Ex & _).
  exists (Spec.exitOf fuel (nextDay tz) e cur).
  split; [apply midnight_after; assumption|].
  exact (loop_tiles (fun d => d) (nextDay tz) _ e msPerDay midnight txs
           Hstep Hinv Hgrow Hemit Hend fuel cur I En).
Qed.

Lemma weeks_tile (s e : Z) :
  s <= e ->
  exists lo hi,
    lo <= Spec.dayStart tz s /\ Spec.dayEnd tz e < hi
    /\ Spec.tiles txs (Reports.intervalEndOf tz Reports.last3Months)
                  (eachWeekOfInterval tz s e) lo hi.
Proof.
  intros Hse. unfold eachWeekOfInterval.
  destruct (Z.ltb_spec e s) as [C|_]; [lia|].
  destruct (sundayAfternoon_startOfWeek tz s) as (-> & Is).
  destruct (sundayAfternoon_startOfWeek tz e) as (-> & Ie).
  set (cur := startOfWeek tz s + 15 * msPerHour) in *.
  set (endTime := startOfWeek tz e + 15 * msPerHour) in *.
  set (fuel := roundsFor (7 * msPerDay) endTime cur).
  assert (0 < 7 * msPerDay) as Hstep by (unfold_ms; lia).
  assert (forall c, sundayAfternoon c -> sundayAfternoon (nextWeek tz c))
    as Hinv.
  { intros c M. rewrite (nextWeek_shift tz c M).
    apply sundayAfternoon_next, M. }
  assert (forall c, sundayAfternoon c -> c + 7 * msPerDay <= nextWeek tz c)
    as Hgrow.
  { intros c M. rewrite (nextWeek_shift tz c M). lia. }
  assert (forall c, sundayAfternoon c ->
                    weekEmit tz c < weekEmit tz (nextWeek tz c)) as Hemit.
  { intros c M. rewrite (weekEmit_shift tz _ (Hinv c M)).
    rewrite (weekEmit_shift tz c M), (nextWeek_shift tz c M).
    unfold_ms. lia. }
  assert (forall c, sundayAfternoon c ->
                    Reports.intervalEndOf tz Reports.last3Months
                                          (weekEmit tz c)
                    = weekEmit tz (nextWeek tz c)) as Hend.
  { intros c M. unfold Reports.intervalEndOf.
    rewrite addWeeks_shift, (weekEmit_shift tz _ (Hinv c M)).
    rewrite (weekEmit_shift tz c M), (nextWeek_shift tz c M). lia. }
  pose proof (roundsFor_enough (7 * msPerDay) endTime cur) as En.
  fold fuel in En.
  destruct (exit_spec (weekEmit tz) (nextWeek tz) endTime (7 * msPerDay)
              sundayAfternoon Hstep Hinv Hgrow Hemit fuel cur Is En)
    as (Ix & Ex & _).
  exists (weekEmit tz cur), (weekEmit tz (Spec.exitOf fuel (nextWeek tz) endTime cur)).
  split; [|split].
  - rewrite (weekEmit_shift tz cur Is). unfold cur.
    rewrite startOfWeek_eq. pose proof (getDay_range tz s). unfold_ms. lia.
  - rewrite (weekEmit_shift tz _ Ix).
    set (x := Spec.exitOf fuel (nextWeek tz) endTime cur) in *.
    unfold endTime in Ex, Ie. rewrite startOfWeek_eq in Ex, Ie.
    pose proof (getDay_range tz e).
    unfold Spec.sundayAfternoon, Spec.dayEnd in *. unfold_ms.
    Z.div_mod_to_equations. lia.
  - exact (loop_tiles (weekEmit tz) (nextWeek tz) _ endTime (7 * msPerDay)
             sundayAfternoon txs Hstep Hinv Hgrow Hemit Hend fuel cur Is En).
Qed.

Lemma months_tile (s e : Z) (period : Reports.TimePeriod) :
  Spec.granularityOfPeriod period = Spec.Monthly ->
  s <= e ->
  exists lo hi,
    lo <= Spec.dayStart tz s /\ Spec.dayEnd tz e < hi
    /\ Spec.tiles txs (Reports.intervalEndOf tz period)
                  (eachMonthOfInterval tz s e) lo hi.
Proof.
  intros Hp Hse. unfold eachMonthOfInterval.
  destruct (Z.ltb_spec e s) as [C|_]; [lia|].
  destruct (firstOfMonth_setDate tz s) as (I & Lo).
  set (cur := setDate tz (startOfDay tz s) 1) in *.
  set (fuel := roundsFor (28 * msPerDay) e cur).
  assert (0 < 28 * msPerDay) as Hstep by (unfold_ms; lia).
  assert (forall c, firstOfMonth c -> firstOfMonth (nextMonth tz c)) as Hinv.
  { intros c M. apply nextMonth_firstOfMonth, M. }
  assert (forall c, firstOfMonth c -> c + 28 * msPerDay <= nextMonth tz c)
    as Hgrow.
  { intros c M. apply nextMonth_firstOfMonth, M. }
  assert (forall c, firstOfMonth c -> c < nextMonth tz c) as Hemit.
  { intros c M. pose proof (Hgrow c M). unfold_ms. lia. }
  assert (forall c, firstOfMonth c ->
                    Reports.intervalEndOf tz period c = nextMonth tz c)
    as Hend.
  { intros c M. destruct period; try discriminate Hp;
      apply addMonths_first, M. }
  pose proof (roundsFor_enough (28 * msPerDay) e cur) as En. fold fuel in En.
  destruct (exit_spec (fun d => d) (nextMonth tz) e (28 * msPerDay)
              firstOfMonth Hstep Hinv Hgrow Hemit fuel cur I En)
    as (Ix & Ex & _).
  exists cur, (Spec.exitOf fuel (nextMonth tz) e cur).
  split; [exact Lo|]. split.
  - apply midnight_after; [apply firstOfMonth_midnight, Ix | exact Ex].
  - exact (loop_tiles (fun d => d) (nextMonth tz) _ e (28 * msPerDay)
             firstOfMonth txs Hstep Hinv Hgrow Hemit Hend fuel cur I En).
Qed.

(** Whatever the period, the buckets tile a span that contains the
    calendar days from the start date to the end date. *)
Lemma intervals_tile (period : Reports.TimePeriod) (s e : Z) :
  s <= e ->
  exists lo hi,
    lo <= Spec.dayStart tz s /\ Spec.dayEnd tz e < hi
    /\ Spec.tiles txs (Reports.intervalEndOf tz period)
                  (Reports.intervalsOf tz period s e) lo hi.
Proof.
  intros Hse. destruct period eqn:P; cbn [Reports.intervalsOf].
  - destruct (days_tile s e Hse) as (hi & H1 & H2).
    exists (Spec.dayStart tz s), hi. split; [lia|]. split; assumption.
  - apply weeks_tile, Hse.
  - apply months_tile; [reflexivity | exact Hse].
  - apply months_tile; [reflexivity | exact Hse].
Qed.

(** Width and alignment of each bucket. *)
Lemma interval_shape (period : Reports.TimePeriod) (s e i : Z) :
  s <= e ->
  In i (Reports.intervalsOf tz period s e) ->
  match Spec.granularityOfPeriod period with
  | Spec.Daily =>
      midnight i /\ Reports.intervalEndOf tz period i = i + msPerDay
  | Spec.Weekly =>
      midnight i /\ getDay tz i = 0
      /\ Reports.intervalEndOf tz period i = i + 7 * msPerDay
  | Spec.Monthly =>
      firstOfMonth i /\ firstOfMonth (Reports.intervalEndOf tz period i)
      /\ i + 28 * msPerDay <= Reports.intervalEndOf tz period i
         <= i + 31 * msPerDay
  end.
Proof.
  intros Hse Hi.
  assert (forall i, In i (eachMonthOfInterval tz s e) ->
                    firstOfMonth i /\ firstOfMonth (addMonths tz i 1)
                    /\ i + 28 * msPerDay <= addMonths tz i 1
                       <= i + 31 * msPerDay) as Months.
  { clear i Hi. intros i Hi. unfold eachMonthOfInterval in Hi.
    destruct (Z.ltb_spec e s) as [C|_]; [lia|].
    destruct (firstOfMonth_setDate tz s) as (I & _).
    destruct (loop_members (fun d => d) (nextMonth tz) e firstOfMonth
                (fun c M => proj1 (nextMonth_firstOfMonth tz c M))
                _ _ i I Hi) as (c & Ic & ->).
    rewrite (addMonths_first tz c Ic).
    destruct (nextMonth_firstOfMonth tz c Ic) as (A & B).
    split; [exact Ic|]. split; [exact A | exact B]. }
  destruct period; cbn [Spec.granularityOfPeriod Reports.intervalsOf
                          Reports.intervalEndOf] in *.
  - unfold eachDayOfInterval in Hi.
    destruct (Z.ltb_spec e s) as [C|_]; [lia|].
    rewrite startOfDay_dayStart in Hi.
    destruct (loop_members (fun d => d) (nextDay tz) e midnight) with
      (fuel := roundsFor msPerDay e (Spec.dayStart tz s))
      (cur := Spec.dayStart tz s) (p := i) as (c & Ic & ->).
    + intros c M. rewrite (nextDay_midnight c M). apply midnight_shift, M.
    + apply midnight_dayStart.
    + exact Hi.
    + split; [exact Ic|]. rewrite addDays_shift. lia.
  - unfold eachWeekOfInterval in Hi.
    destruct (Z.ltb_spec e s) as [C|_]; [lia|].
    destruct (sundayAfternoon_startOfWeek tz s) as (Es & Is).
    destruct (sundayAfternoon_startOfWeek tz e) as (Ee & Ie).
    rewrite Es, Ee in Hi.
    destruct (loop_members (weekEmit tz) (nextWeek tz)
                (startOfWeek tz e + 15 * msPerHour) sundayAfternoon)
      with (fuel := roundsFor (7 * msPerDay)
                      (startOfWeek tz e + 15 * msPerHour)
                      (startOfWeek tz s + 15 * msPerHour))
           (cur := startOfWeek tz s + 15 * msPerHour) (p := i)
      as (c & Ic & ->).
    + intros c M. rewrite (nextWeek_shift tz c M).
      apply sundayAfternoon_next, M.
    + exact Is.
    + exact Hi.
    + rewrite (weekEmit_shift tz c Ic), addWeeks_shift.
      split; [apply midnight_weekEmit, Ic|]. split; [|lia].
      unfold Spec.sundayAfternoon, getDay, WeekDay, LocalTime, Day in *.
      unfold_ms. Z.div_mod_to_equations. lia.
  - apply Months, Hi.
  - apply Months, Hi.
Qed.

End Buckets.

End TrendFacts.

(* ===================================================================== *)
(** * The trend series *)
(* ===================================================================== *)

Module TrendSeries.
Import Date DateFns DateFacts DateFnsFacts TrendFacts.

Lemma trendData_nonempty (tz : Z) (txs : list Transaction.t)
      (period : Reports.TimePeriod) (s e : Z) :
  txs <> [] ->
  Reports.trendData tz txs period s e
  = map (fun i => Reports.mkTrendPoint
                    (Reports.formatFn tz period i)
                    (Reports.bucketAmount txs i
                       (Reports.intervalEndOf tz period i)))
        (Reports.intervalsOf tz period s e).
Proof.
  intros H. destruct txs as [|x l]; [congruence | reflexivity].
Qed.

Lemma trendData64_nonempty (tz : Z) (txs : list Transaction.t)
      (period : Reports.TimePeriod) (s e : Z) :
  txs <> [] ->
  Reports64.trendData tz txs period s e
  = map (fun i => Reports64.mkTrendPoint
                    (Reports.formatFn tz period i)
                    (Reports64.bucketAmount txs i
                       (Reports.intervalEndOf tz period i)))
        (Reports.intervalsOf tz period s e).
Proof.
  intros H. destruct txs as [|x l]; [congruence | reflexivity].
Qed.

(** The buckets that contain one expense of amount 1, counted by their
    sums. *)
Lemma unit_counts (u : Transaction.t) (iend : Z -> Z) (l : list Z) :
  Transaction.amount u = 1%Q ->
  (Spec.sumQ (map (fun i => Reports.bucketAmount [u] i (iend i)) l)
   == inject_Z (Z.of_nat (List.length (filter (Spec.inBucket iend u) l))))%Q.
Proof.
  intros A. induction l as [|i l IH]; [reflexivity|].
  cbn [map Spec.sumQ fold_right filter]. fold (Spec.sumQ) in *.
  change (fold_right Qplus 0%Q
            (map (fun i => Reports.bucketAmount [u] i (iend i)) l))
    with (Spec.sumQ (map (fun i => Reports.bucketAmount [u] i (iend i)) l)).
  rewrite IH. unfold Reports.bucketAmount, Spec.inBucket. cbn [filter].
  destruct ((i <=? Transaction.date u) && (Transaction.date u <? iend i)).
  - cbn [fold_left List.length]. rewrite A, Nat2Z.inj_succ.
    unfold Z.succ. rewrite inject_Z_plus. ring.
  - cbn [fold_left]. ring.
Qed.

(** Every date of the calendar days of the window is in exactly one
    bucket of the list. *)
Lemma one_bucket (tz : Z) (period : Reports.TimePeriod) (s e : Z)
      (x : Transaction.t) :
  s <= e ->
  Spec.dayStart tz s <= Transaction.date x <= Spec.dayEnd tz e ->
  List.length (filter (Spec.inBucket (Reports.intervalEndOf tz period) x)
                      (Reports.intervalsOf tz period s e)) = 1%nat.
Proof.
  intros Hse Hx.
  set (u := Transaction.mk EmptyString EmptyString 1 EmptyString
                           (Transaction.date x) 0 0 EmptyString).
  destruct (intervals_tile tz [u] period s e Hse)
    as (lo & hi & Hlo & Hhi & Sum & _).
  rewrite (unit_counts u _ _ eq_refl) in Sum.
  assert (Spec.amountWithin [u] lo hi = (1 + 0)%Q) as W.
  { unfold Spec.amountWithin. cbn [filter Transaction.date u].
    destruct (Z.leb_spec lo (Transaction.date x)),
      (Z.ltb_spec (Transaction.date x) hi); try lia. reflexivity. }
  rewrite W in Sum.
  replace (filter (Spec.inBucket (Reports.intervalEndOf tz period) x)
                  (Reports.intervalsOf tz period s e))
    with (filter (Spec.inBucket (Reports.intervalEndOf tz period) u)
                 (Reports.intervalsOf tz period s e)) by reflexivity.
  set (n := List.length _) in *. clearbody n.
  unfold Qeq in Sum. cbn in Sum. lia.
Qed.




(** C5, as the code has it.  The granularity follows the selected period:
    days for [thisMonth], weeks for [last3Months], months for [thisYear]
    and [custom].  For a non-empty list of transactions and a window
    [startDate <= endDate] the series has one point per bucket, the buckets
    cover every instant of the calendar days of the window, and a bucket in
    which no transaction is dated reports 0.  For an empty list of
    transactions the series is empty. *)
Theorem trend_series_buckets (tz : Z) (txs : list Transaction.t)
        (period : Reports.TimePeriod) (startDate endDate : Z) :
  txs <> [] ->
  startDate <= endDate ->
  let intervals := Reports.intervalsOf tz period startDate endDate in
  let intervalEnd := Reports.intervalEndOf tz period in
  let point i := Reports.mkTrendPoint (Reports.formatFn tz period i)
                   (Reports.bucketAmount txs i (intervalEnd i)) in
  Reports.trendData tz [] period startDate endDate = []
  /\ Reports.trendData tz txs period startDate endDate = map point intervals
  /\ (forall i, In i intervals ->
       match Spec.granularityOfPeriod period with
       | Spec.Daily => Spec.midnight tz i /\ intervalEnd i = i + msPerDay
       | Spec.Weekly =>
           Spec.midnight tz i /\ getDay tz i = 0
           /\ intervalEnd i = i + 7 * msPerDay
       | Spec.Monthly =>
           Spec.firstOfMonth tz i /\ Spec.firstOfMonth tz (intervalEnd i)
           /\ i + 28 * msPerDay <= intervalEnd i <= i + 31 * msPerDay
       end)
  /\ (forall t, Spec.dayStart tz startDate <= t <= Spec.dayEnd tz endDate ->
       exists i, In i intervals /\ i <= t < intervalEnd i
                 /\ In (point i)
                       (Reports.trendData tz txs period startDate endDate))
  /\ (forall i, In i intervals ->
       (forall x, In x txs ->
                  ~ (i <= Transaction.date x < intervalEnd i)) ->
       Reports.amount (point i) = 0%Q).
Proof.
  intros Hne Hse intervals intervalEnd point.
  pose proof (trendData_nonempty tz txs period startDate endDate Hne) as TD.
  fold intervals in TD.
  split; [reflexivity|]. split; [exact TD|]. split; [|split].
  - intros i Hi. exact (interval_shape tz period startDate endDate i Hse Hi).
  - intros t Ht.
    destruct (intervals_tile tz txs period startDate endDate Hse)
      as (lo & hi & Hlo & Hhi & _ & Cover & _).
    destruct (Cover t) as (i & Hi & Ti); [lia|].
    exists i. split; [exact Hi|]. split; [exact Ti|].
    rewrite TD. apply in_map, Hi.
  - intros i Hi Hnone. cbn [point Reports.amount].
    apply bucketAmount_none, Hnone.
Qed.

Lemma trend_series_buckets_witness :
  [Examples.coffee] <> []
  /\ Examples.nov 1 <= Examples.nov 30
  /\ Reports.trendData 0 [Examples.coffee] Reports.thisMonth
                       (Examples.nov 1) (Examples.nov 30)
     = map (fun i => Reports.mkTrendPoint
                       (Reports.formatFn 0 Reports.thisMonth i)
                       (Reports.bucketAmount [Examples.coffee] i
                          (Reports.intervalEndOf 0 Reports.thisMonth i)))
           (Reports.intervalsOf 0 Reports.thisMonth
                                (Examples.nov 1) (Examples.nov 30)).
Proof.
  assert ([Examples.coffee] <> []) as H1 by discriminate.
  assert (Examples.nov 1 <= Examples.nov 30) as H2 by (vm_compute; discriminate).
  split; [exact H1|]. split; [exact H2|].
  exact (proj1 (proj2 (trend_series_buckets 0 [Examples.coffee]
                         Reports.thisMonth (Examples.nov 1) (Examples.nov 30)
                         H1 H2))).
Defined.

(** C5, as the claim states it, fails.  A custom window inside one month,
    for which the specification asks for daily buckets, gets one monthly
    bucket; and with no transactions the series of a month of thirty daily
    buckets has no point at all. *)
Lemma trend_granularity_counterexample :
  Spec.granularityOfWindow 0 (Examples.nov 1) (Examples.nov 30) = Spec.Daily
  /\ map Reports.date
         (Reports.trendData 0 [Examples.coffee] Reports.custom
                            (Examples.nov 1) (Examples.nov 30))
     = ["Nov 2024"%string]
  /\ List.length (Reports.intervalsOf 0 Reports.thisMonth
                                      (Examples.nov 1) (Examples.nov 30))
     = 30%nat
  /\ Reports.trendData 0 [] Reports.thisMonth
                       (Examples.nov 1) (Examples.nov 30) = [].
Proof. vm_compute. repeat split. Qed.

End TrendSeries.

(* ===================================================================== *)
(** * Results of the server actions, whatever the collaborators do *)
(* ===================================================================== *)

Module ResultShape.
Import Effect.

(** A [try] whose handler returns never throws. *)
Lemma tryCatch_returns {W A} (c : M W A) (f : thrown -> A) (w : W) :
  exists r w',
    tryCatch c (fun e => ret (f e)) w = (Returned r, w')
    /\ (c w = (Returned r, w') \/ exists e, c w = (Thrown e, w') /\ r = f e).
Proof.
  unfold tryCatch, ret. destruct (c w) as [[a|e] w'].
  - exists a, w'. split; [reflexivity | left; reflexivity].
  - exists (f e), w'. split; [reflexivity | right; exists e; split; reflexivity].
Qed.

(** Run one more call of a collaborator, or decide one more test. *)
Ltac run_step :=
  match goal with
  | |- context [ match ?e with
                 | Error _ => _ | NonError => _ | Null => _ | Undefined => _
                 end ] => is_var e; destruct e
  | |- context [ if ?b then _ else _ ] => destruct b
  | |- context [ match ?o with Some _ => _ | None => _ end ] => destruct o
  | |- context [ match ?c ?w with pair _ _ => _ end ] =>
      let o := fresh "o" in
      let w' := fresh "w" in
      destruct (c w) as [o w']; destruct o
  | |- context [ match ?o with Returned _ => _ | Thrown _ => _ end ] =>
      destruct o
  | |- context [ match ?x with _ => _ end ] => is_var x; destruct x
  end.

Ltac run_all :=
  unfold tryCatch, bind, ret, throw, fromOutcome, messageOf;
  repeat (cbv beta iota; run_step).

Section AnyCollaborators.

Context {W : Type}.
Variable C : Collab.t W.
Variable tz : Z.

Lemma ensureUser_outcome (uid : string) (w : W) :
  (exists u w', Actions.ensureUser C uid w = (Returned u, w'))
  \/ (exists w', Actions.ensureUser C uid w
                 = (Thrown (Error "Failed to create user record"), w')).
Proof.
  unfold Actions.ensureUser, tryCatch, bind, ret, throw.
  destruct (Collab.currentUser C w) as [[u|e] w1]; [|right; eauto].
  destruct (Collab.user_upsert C _ w1) as [[d|e] w2]; [left|right]; eauto.
Qed.

Ltac structured_result :=
  eexists _, _; split; [reflexivity|];
  unfold Spec.structured; cbn; intros; try discriminate; eauto.

(** A result, or the TypeError of the handler. *)
Ltac structured_or_escapes :=
  first
    [ left; structured_result
    | right; eexists _, _; split; [|reflexivity]; auto ].

Lemma createTransaction_structured (data : TransactionFormData.t) (w : W) :
  Spec.returnsStructured (Actions.createTransaction C data) w.
Proof.
  unfold Spec.returnsStructured, Actions.createTransaction.
  run_all; structured_result.
Qed.

Lemma updateTransaction_outcome (id : string)
      (data : TransactionFormData.t) (w : W) :
  Spec.structuredOrEscapes (Actions.updateTransaction C id data) w.
Proof.
  unfold Spec.structuredOrEscapes, Spec.returnsStructured,
    Actions.updateTransaction.
  run_all; structured_or_escapes.
Qed.

Lemma deleteTransaction_outcome (id : string) (w : W) :
  Spec.structuredOrEscapes (Actions.deleteTransaction C id) w.
Proof.
  unfold Spec.structuredOrEscapes, Spec.returnsStructured,
    Actions.deleteTransaction.
  run_all; structured_or_escapes.
Qed.

Lemma getTransactions_outcome (w : W) :
  Spec.structuredOrEscapes (Actions.getTransactions C) w.
Proof.
  unfold Spec.structuredOrEscapes, Spec.returnsStructured,
    Actions.getTransactions.
  run_all; structured_or_escapes.
Qed.

Lemma getMonthlyTotal_outcome (month : option Z) (w : W) :
  Spec.structuredOrEscapes (Actions.getMonthlyTotal C tz month) w.
Proof.
  unfold Spec.structuredOrEscapes, Spec.returnsStructured,
    Actions.getMonthlyTotal.
  run_all; structured_or_escapes.
Qed.

Lemma getTransactionsByDateRange_outcome (startDate endDate : Z) (w : W) :
  Spec.structuredOrEscapes
    (Actions.getTransactionsByDateRange C tz startDate endDate) w.
Proof.
  unfold Spec.structuredOrEscapes, Spec.returnsStructured,
    Actions.getTransactionsByDateRange.
  run_all; structured_or_escapes.
Qed.

(** A rejection with [null] or [undefined] at the first call of an action
    reaches the handler, whose reading of [error.message] throws. *)
Lemma nullish_auth_escapes (w w1 : W) (e : thrown) (value : string)
      (id : string) (data : TransactionFormData.t) (month : option Z)
      (startDate endDate : Z) :
  Collab.auth C w = (Thrown e, w1) ->
  messageOf e "Unknown error" = Thrown (cannotReadMessage value) ->
  Actions.updateTransaction C id data w
  = (Thrown (cannotReadMessage value), w1)
  /\ Actions.deleteTransaction C id w = (Thrown (cannotReadMessage value), w1)
  /\ Actions.getTransactions C w = (Thrown (cannotReadMessage value), w1)
  /\ Actions.getMonthlyTotal C tz month w
     = (Thrown (cannotReadMessage value), w1)
  /\ Actions.getTransactionsByDateRange C tz startDate endDate w
     = (Thrown (cannotReadMessage value), w1).
Proof.
  intros A M.
  unfold Actions.updateTransaction, Actions.deleteTransaction,
    Actions.getTransactions, Actions.getMonthlyTotal,
    Actions.getTransactionsByDateRange, tryCatch, bind, fromOutcome.
  rewrite A, M. repeat split.
Qed.

End AnyCollaborators.

Lemma onError_failed (e : thrown) :
  exists msg, ScanReceipt.onError e = ScanReceipt.failed msg.
Proof.
  destruct e as [m| | |]; cbn [ScanReceipt.onError]; [|eauto..].
  repeat match goal with
         | |- context [ if ?b then _ else _ ] => destruct b
         end; eauto.
Qed.

Lemma scanReceipt_structured {W} (E : ScanReceipt.Env W) (image : string)
      (w : W) :
  exists r w', ScanReceipt.scanReceipt E image w = (Returned r, w')
               /\ Spec.structuredScan r.
Proof.
  destruct (tryCatch_returns
              (if match ScanReceipt.GEMINI_API_KEY E with
                  | Some k => JS.falsy_string k
                  | None => true
                  end
               then ret (ScanReceipt.failed "Gemini API key not configured. Please add GEMINI_API_KEY to your .env file.")
               else if JS.falsy_string image
                       || negb (JS.startsWith (list_ascii_of_string "data:image/")
                                              (list_ascii_of_string image))
               then ret (ScanReceipt.failed "Invalid image format. Please select a valid image file.")
               else
                 bind (ScanReceipt.lift (ScanReceipt.base64ToGenerativePart image))
                   (fun imagePart =>
                      bind (ScanReceipt.generateContent E imagePart)
                        (fun text =>
                           bind (ScanReceipt.lift
                                   (ScanReceipt.JSON_parse E (ScanReceipt.cleanText text)))
                                (fun jsonData => ScanReceipt.validate E jsonData))))
              ScanReceipt.onError w) as (r & w' & Run & Body).
  exists r, w'. split; [exact Run|].
  destruct Body as [Body | (e & _ & ->)].
  - revert Body. unfold ScanReceipt.validate, ScanReceipt.lift.
    run_all; intros Body; inversion Body; subst;
      unfold Spec.structuredScan; cbn; intros; try discriminate; eauto.
  - destruct (onError_failed e) as (msg & ->).
    unfold Spec.structuredScan. cbn. eauto.
Qed.

(** C9, on the code.  [createTransaction] reads [error?.message] and the
    receipt scan tests [error instanceof Error]: from every world, whatever
    the collaborators return or throw, both return a result with a
    [success] field, and a result whose [success] is false carries an error
    message.  The handlers of the five other actions read [error.message]:
    each of these actions returns such a result or throws the TypeError of
    that reading, and it does throw when a call rejects with [null] or
    [undefined].  With a driver that rejects with [undefined],
    [deleteTransaction], [updateTransaction] and the three read actions
    throw, where [createTransaction] returns its failure. *)
Theorem nullish_rejection_escapes {W W' : Type} (C : Collab.t W)
        (E : ScanReceipt.Env W') (tz : Z) (w : W) (w' : W')
        (id image : string) (data : TransactionFormData.t)
        (month : option Z) (startDate endDate : Z) :
  (Spec.returnsStructured (Actions.createTransaction C data) w
   /\ exists r w'', ScanReceipt.scanReceipt E image w' = (Returned r, w'')
                    /\ Spec.structuredScan r)
  /\ (Spec.structuredOrEscapes (Actions.updateTransaction C id data) w
      /\ Spec.structuredOrEscapes (Actions.deleteTransaction C id) w
      /\ Spec.structuredOrEscapes (Actions.getTransactions C) w
      /\ Spec.structuredOrEscapes (Actions.getMonthlyTotal C tz month) w
      /\ Spec.structuredOrEscapes
           (Actions.getTransactionsByDateRange C tz startDate endDate) w)
  /\ (fst (Actions.deleteTransaction Samples.faulty "tx1" Samples.shared)
      = Thrown (cannotReadMessage "undefined")
      /\ fst (Actions.updateTransaction
                Samples.faulty "tx1" (Examples.form "Taxi" "20" "Food")
                Samples.shared)
         = Thrown (cannotReadMessage "undefined")
      /\ fst (Actions.getTransactions Samples.faulty Samples.shared)
         = Thrown (cannotReadMessage "undefined")
      /\ fst (Actions.getMonthlyTotal Samples.faulty 0 None Samples.shared)
         = Thrown (cannotReadMessage "undefined")
      /\ fst (Actions.getTransactionsByDateRange
                Samples.faulty 0 (Examples.nov 1) (Examples.nov 30)
                Samples.shared)
         = Thrown (cannotReadMessage "undefined")
      /\ fst (Actions.createTransaction
                Samples.faulty (Examples.form "Taxi" "20" "Food")
                Samples.shared)
         = Returned (Actions.failure
                       "Failed to create transaction: Unknown error occurred")).
Proof.
  split; [split|split].
  - apply createTransaction_structured.
  - apply scanReceipt_structured.
  - split; [apply updateTransaction_outcome|].
    split; [apply deleteTransaction_outcome|].
    split; [apply getTransactions_outcome|].
    split; [apply getMonthlyTotal_outcome|].
    apply getTransactionsByDateRange_outcome.
  - repeat split; vm_compute; reflexivity.
Qed.

(** C10. Every result of a read operation has its payload field: the list
    of transactions, empty when [success] is false, or the total, 0 when
    [success] is false.  On every path a read operation returns such a
    result, or its handler throws on reading the message of a [null] or
    [undefined] rejection, and then there is no result at all. *)
Theorem read_failures_carry_default_payload {W : Type} (C : Collab.t W)
        (tz : Z) (w : W) (month : option Z) (startDate endDate : Z) :
  ((exists r w' l,
       Actions.getTransactions C w = (Returned r, w')
       /\ Actions.transactions r = Some l
       /\ (Actions.success r = false -> l = []))
   \/ exists value w',
       (value = "null"%string \/ value = "undefined"%string)
       /\ Actions.getTransactions C w
          = (Thrown (cannotReadMessage value), w'))
  /\ ((exists r w' l,
          Actions.getTransactionsByDateRange C tz startDate endDate w
          = (Returned r, w')
          /\ Actions.transactions r = Some l
          /\ (Actions.success r = false -> l = []))
      \/ exists value w',
          (value = "null"%string \/ value = "undefined"%string)
          /\ Actions.getTransactionsByDateRange C tz startDate endDate w
             = (Thrown (cannotReadMessage value), w'))
  /\ ((exists r w' q,
          Actions.getMonthlyTotal C tz month w = (Returned r, w')
          /\ Actions.total r = Some q
          /\ (Actions.success r = false -> q = 0%Q))
      \/ exists value w',
          (value = "null"%string \/ value = "undefined"%string)
          /\ Actions.getMonthlyTotal C tz month w
             = (Thrown (cannotReadMessage value), w')).
Proof.
  split; [|split].
  - unfold Actions.getTransactions. run_all;
      first [ left; eexists _, _, _; split; [reflexivity|];
              split; [reflexivity|]; cbn; intros; try discriminate; reflexivity
            | right; eexists _, _; split; [|reflexivity];
              first [left; reflexivity | right; reflexivity] ].
  - unfold Actions.getTransactionsByDateRange. run_all;
      first [ left; eexists _, _, _; split; [reflexivity|];
              split; [reflexivity|]; cbn; intros; try discriminate; reflexivity
            | right; eexists _, _; split; [|reflexivity];
              first [left; reflexivity | right; reflexivity] ].
  - unfold Actions.getMonthlyTotal. run_all;
      first [ left; eexists _, _, _; split; [reflexivity|];
              split; [reflexivity|]; cbn; intros; try discriminate; reflexivity
            | right; eexists _, _; split; [|reflexivity];
              first [left; reflexivity | right; reflexivity] ].
Qed.

End ResultShape.

(* ===================================================================== *)
(** * The server actions over the reference store *)
(* ===================================================================== *)

Module StoreFacts.
Import Effect Date DateFacts DateFnsFacts.

Lemma serializeTransaction_id (t : Transaction.t) :
  Actions.serializeTransaction t = t.
Proof. destruct t. reflexivity. Qed.

Lemma map_serializeTransaction (l : list Transaction.t) :
  map Actions.serializeTransaction l = l.
Proof.
  induction l as [|x l IH]; cbn; [reflexivity|].
  rewrite serializeTransaction_id, IH. reflexivity.
Qed.

(** [ensureUser] only touches the table of users. *)
Lemma ensureUser_frame (uid : string) (w w' : Store.World)
      (o : outcome User.t) :
  Actions.ensureUser Store.collaborators uid w = (o, w') ->
  Store.transactions w' = Store.transactions w
  /\ Store.session w' = Store.session w
  /\ Store.clock w' = Store.clock w
  /\ Store.nextId w' = Store.nextId w.
Proof.
  unfold Actions.ensureUser, tryCatch, bind, ret, throw. cbn.
  unfold Store.user_upsert. cbn.
  repeat match goal with
         | |- context [ match ?x with Some _ => _ | None => _ end ] =>
             destruct x
         | |- context [ if ?b then _ else _ ] => destruct b
         end; intros H; inversion H; subst; cbn; repeat split.
Qed.

Lemma ensureUser_cache (uid : string) (w w' : Store.World)
      (o : outcome User.t) :
  Actions.ensureUser Store.collaborators uid w = (o, w') ->
  Store.revalidated w' = Store.revalidated w.
Proof.
  unfold Actions.ensureUser, tryCatch, bind, ret, throw. cbn.
  unfold Store.user_upsert. cbn.
  repeat match goal with
         | |- context [ match ?x with Some _ => _ | None => _ end ] =>
             destruct x
         | |- context [ if ?b then _ else _ ] => destruct b
         end; intros H; inversion H; subst; reflexivity.
Qed.

(** ** Ordering by date *)

Lemma insertByDateDesc_perm (x : Transaction.t) (l : list Transaction.t) :
  Permutation (Store.insertByDateDesc x l) (x :: l).
Proof.
  induction l as [|y l IH]; cbn; [reflexivity|].
  destruct (Transaction.date y <=? Transaction.date x); [reflexivity|].
  rewrite IH. apply perm_swap.
Qed.

Lemma orderByDateDesc_perm (l : list Transaction.t) :
  Permutation (Store.orderByDateDesc l) l.
Proof.
  induction l as [|x l IH]; cbn; [reflexivity|].
  rewrite insertByDateDesc_perm. apply perm_skip, IH.
Qed.

Lemma insertByDateDesc_sorted (x : Transaction.t) (l : list Transaction.t) :
  Spec.dateDescending l -> Spec.dateDescending (Store.insertByDateDesc x l).
Proof.
  unfold Spec.dateDescending.
  induction l as [|y l IH]; intros S; cbn.
  - constructor; constructor.
  - destruct (Z.leb_spec (Transaction.date y) (Transaction.date x)) as [L|G].
    + constructor; [exact S|]. constructor; [exact L|].
      inversion S as [|? ? _ F]; subst.
      apply Forall_impl with (2 := F). intros z Hz. lia.
    + inversion S as [|? ? S' F]; subst.
      constructor; [apply IH, S'|].
      apply Permutation_Forall with (x :: l).
      * symmetry. apply insertByDateDesc_perm.
      * constructor; [lia | exact F].
Qed.

Lemma orderByDateDesc_sorted (l : list Transaction.t) :
  Spec.dateDescending (Store.orderByDateDesc l).
Proof.
  induction l as [|x l IH]; cbn.
  - constructor.
  - apply insertByDateDesc_sorted, IH.
Qed.

(** ** Bounds of the day *)

Section LocalTime.

Variable tz : Z.

Lemma setHours_start (d : Z) :
  setHours tz d 0 (Some 0) (Some 0) (Some 0) = Spec.dayStart tz d.
Proof. apply startOfDay_dayStart. Qed.

Lemma setHours_end (d : Z) :
  setHours tz d 23 (Some 59) (Some 59) (Some 999) = Spec.dayEnd tz d.
Proof.
  unfold setHours, Spec.dayEnd, Spec.dayStart, Spec.localDay, MakeDate,
    MakeTime, orElse, UTC. unfold_ms. lia.
Qed.

Lemma dayStart_clock (d : Z) :
  getHours tz (Spec.dayStart tz d) = 0
  /\ getMinutes tz (Spec.dayStart tz d) = 0
  /\ getSeconds tz (Spec.dayStart tz d) = 0
  /\ getMilliseconds tz (Spec.dayStart tz d) = 0
  /\ Spec.localDay tz (Spec.dayStart tz d) = Spec.localDay tz d.
Proof.
  unfold getHours, getMinutes, getSeconds, getMilliseconds, HourFromTime,
    MinFromTime, SecFromTime, msFromTime, Spec.dayStart, Spec.localDay,
    UTC, LocalTime, Day. unfold_ms.
  repeat split; Z.div_mod_to_equations; lia.
Qed.

Lemma dayEnd_clock (d : Z) :
  getHours tz (Spec.dayEnd tz d) = 23
  /\ getMinutes tz (Spec.dayEnd tz d) = 59
  /\ getSeconds tz (Spec.dayEnd tz d) = 59
  /\ getMilliseconds tz (Spec.dayEnd tz d) = 999
  /\ Spec.localDay tz (Spec.dayEnd tz d) = Spec.localDay tz d.
Proof.
  unfold getHours, getMinutes, getSeconds, getMilliseconds, HourFromTime,
    MinFromTime, SecFromTime, msFromTime, Spec.dayEnd, Spec.dayStart,
    Spec.localDay, UTC, LocalTime, Day. unfold_ms.
  repeat split; Z.div_mod_to_equations; lia.
Qed.

(** Between the first and the last millisecond of a day are exactly the
    instants of that day. *)
Lemma within_day (d t : Z) :
  Spec.dayStart tz d <= t <= Spec.dayEnd tz d
  <-> Spec.localDay tz t = Spec.localDay tz d.
Proof.
  unfold Spec.dayEnd, Spec.dayStart, Spec.localDay, UTC, LocalTime, Day.
  unfold_ms. split; intros H; Z.div_mod_to_equations; lia.
Qed.

End LocalTime.

(** ** Reading *)

Section Reading.

Variable tz : Z.
Variables w w1 : Store.World.
Variable uid : string.
Variable u : User.t.

Hypothesis signedIn : Store.session w = Some uid.
Hypothesis realId : JS.falsy_string uid = false.
Hypothesis userOk :
  Actions.ensureUser Store.collaborators uid w = (Returned u, w1).

Lemma getTransactionsByDateRange_run (startDate endDate : Z) :
  Store.getTransactionsByDateRange tz startDate endDate w
  = (Returned
       (Actions.mkResult true None None
          (Some (Store.orderByDateDesc
                   (filter (Store.selects uid
                              (Some (Spec.dayStart tz startDate,
                                     Spec.dayEnd tz endDate)))
                           (Store.transactions w))))
          None),
     w1).
Proof.
  destruct (ensureUser_frame uid w w1 _ userOk) as (Tx & _).
  unfold Store.getTransactionsByDateRange, Actions.getTransactionsByDateRange.
  unfold tryCatch, bind, ret.
  cbn [Collab.auth Collab.transaction_findMany Store.collaborators].
  unfold Store.auth. rewrite signedIn.
  cbn [Actions.noUser Actions.idOf]. rewrite realId, userOk.
  unfold Store.transaction_findMany.
  rewrite map_serializeTransaction, setHours_start, setHours_end, Tx.
  reflexivity.
Qed.

Lemma getMonthlyTotal_run (month : Z) :
  Store.getMonthlyTotal tz (Some month) w
  = (Returned
       (Actions.mkResult true None None None
          (Some
             match filter (Store.selects uid
                             (Some (fromFields tz (getFullYear tz month)
                                               (getMonth tz month) 1,
                                    fromFields tz (getFullYear tz month)
                                               (getMonth tz month + 1) 0)))
                          (Store.transactions w) with
             | [] => 0%Q
             | rows => Store.sumAmount rows
             end)),
     w1).
Proof.
  destruct (ensureUser_frame uid w w1 _ userOk) as (Tx & _).
  unfold Store.getMonthlyTotal, Actions.getMonthlyTotal.
  unfold tryCatch, bind, ret.
  cbn [Collab.auth Collab.transaction_aggregate Store.collaborators].
  unfold Store.auth. rewrite signedIn.
  cbn [Actions.noUser Actions.idOf]. rewrite realId, userOk.
  unfold Store.transaction_aggregate. rewrite Tx.
  destruct (filter _ (Store.transactions w)); reflexivity.
Qed.

End Reading.

(** C7. For a signed-in caller, [getTransactionsByDateRange] queries from
    00:00:00.000 of the day of [startDate] to 23:59:59.999 of the day of
    [endDate], both inclusive, and returns the caller's transactions in
    that range by descending date.  With [startDate = endDate] these are
    exactly the caller's transactions dated on that calendar day, whatever
    their time of day. *)
Theorem getTransactionsByDateRange_window (tz : Z) (w w1 : Store.World)
        (uid : string) (u : User.t) (startDate endDate : Z) :
  Store.session w = Some uid ->
  JS.falsy_string uid = false ->
  Actions.ensureUser Store.collaborators uid w = (Returned u, w1) ->
  let start := Spec.dayStart tz startDate in
  let end_ := Spec.dayEnd tz endDate in
  (getHours tz start = 0 /\ getMinutes tz start = 0
   /\ getSeconds tz start = 0 /\ getMilliseconds tz start = 0
   /\ Spec.localDay tz start = Spec.localDay tz startDate)
  /\ (getHours tz end_ = 23 /\ getMinutes tz end_ = 59
      /\ getSeconds tz end_ = 59 /\ getMilliseconds tz end_ = 999
      /\ Spec.localDay tz end_ = Spec.localDay tz endDate)
  /\ exists l,
      Store.getTransactionsByDateRange tz startDate endDate w
      = (Returned (Actions.mkResult true None None (Some l) None), w1)
      /\ Spec.dateDescending l
      /\ Permutation l
           (filter (fun t => String.eqb (Transaction.userId t) uid
                             && ((start <=? Transaction.date t)
                                 && (Transaction.date t <=? end_)))
                   (Store.transactions w))
      /\ (startDate = endDate ->
          forall t, In t l <->
                    In t (Store.transactions w)
                    /\ Transaction.userId t = uid
                    /\ Spec.localDay tz (Transaction.date t)
                       = Spec.localDay tz startDate).
Proof.
  intros signedIn realId userOk start end_. subst start end_.
  split; [apply dayStart_clock|]. split; [apply dayEnd_clock|].
  eexists.
  split; [exact (getTransactionsByDateRange_run tz w w1 uid u signedIn realId
                   userOk startDate endDate)|].
  split; [apply orderByDateDesc_sorted|].
  split; [apply orderByDateDesc_perm|].
  intros <- t.
  set (rows := filter _ (Store.transactions w)).
  assert (In t (Store.orderByDateDesc rows) <-> In t rows) as Same.
  { split; apply Permutation_in;
      [|symmetry]; apply orderByDateDesc_perm. }
  rewrite Same. unfold rows. rewrite filter_In. unfold Store.selects.
  rewrite !andb_true_iff, String.eqb_eq, !Z.leb_le.
  pose proof (within_day tz startDate (Transaction.date t)) as D.
  tauto.
Qed.

Lemma getTransactionsByDateRange_window_witness :
  Store.session Examples.world = Some "user_1"%string
  /\ exists l,
      Store.getTransactionsByDateRange 0 (Examples.nov 30) (Examples.nov 30)
                                       Examples.world
      = (Returned (Actions.mkResult true None None (Some l) None),
         Examples.refreshed)
      /\ forall t, In t l <->
                   In t (Store.transactions Examples.world)
                   /\ Transaction.userId t = "user_1"%string
                   /\ Spec.localDay 0 (Transaction.date t)
                      = Spec.localDay 0 (Examples.nov 30).
Proof.
  split; [reflexivity|].
  destruct (getTransactionsByDateRange_window 0 Examples.world
              Examples.refreshed "user_1" Examples.annRefreshed
              (Examples.nov 30) (Examples.nov 30)
              eq_refl eq_refl eq_refl)
    as (_ & _ & l & Run & _ & _ & Day).
  exists l. split; [exact Run | exact (Day eq_refl)].
Defined.

(** ** Creating *)

Section Creating.

Variables w w1 : Store.World.
Variable uid : string.
Variable u : User.t.

Hypothesis signedIn : Store.session w = Some uid.
Hypothesis realId : JS.falsy_string uid = false.
Hypothesis userOk :
  Actions.ensureUser Store.collaborators uid w = (Returned u, w1).

Lemma createTransaction_run (data : TransactionFormData.t) :
  Store.createTransaction data w
  = let amount := JS.parseFloat (TransactionFormData.amount data) in
    if JS.isNaN amount || JS.leq0 amount then
      (Returned (Actions.failure
                   "Invalid amount: Please enter a valid positive number"),
       w1)
    else if negb (JS.array_includes Actions.validCategories
                    (TransactionFormData.category data)) then
      (Returned (Actions.failure
                   ("Invalid category: "
                      ++ TransactionFormData.category data)), w1)
    else
      match Store.transaction_create
              (TransactionData.mk
                 (JS.trim (TransactionFormData.name data)) amount
                 (TransactionFormData.category data)
                 (TransactionFormData.date data) (Some uid)) w1 with
      | (Returned row, w2) =>
          (Returned (Actions.mkResult true None (Some row) None None),
           snd (Store.revalidatePath "/records" w2))
      | (Thrown e, w2) =>
          (Returned (Actions.failure
                       ("Failed to create transaction: "
                          ++ messageOr e "Unknown error occurred")), w2)
      end.
Proof.
  unfold Store.createTransaction, Actions.createTransaction.
  unfold tryCatch, bind, ret.
  cbn [Collab.auth Collab.transaction_create Collab.revalidatePath
         Store.collaborators].
  unfold Store.auth. rewrite signedIn.
  cbn [Actions.noUser Actions.idOf]. rewrite realId, userOk.
  cbv zeta.
  destruct (JS.isNaN _ || JS.leq0 _); [reflexivity|].
  destruct (negb _); [reflexivity|].
  destruct (Store.transaction_create _ w1) as [[row|e] w2];
    [|reflexivity].
  rewrite serializeTransaction_id. reflexivity.
Qed.

End Creating.

Lemma Qle_bool_false (q : Q) : Qle_bool q 0 = false <-> (0 < q)%Q.
Proof.
  split; intros H.
  - apply Qnot_le_lt. intros L. apply Qle_bool_iff in L. congruence.
  - destruct (Qle_bool q 0) eqn:E; [|reflexivity].
    apply Qle_bool_iff in E. exfalso. exact (Qlt_not_le _ _ H E).
Qed.

(** What follows the check of the amount never yields its message. *)
Lemma past_amount_check (w1 : Store.World) (data : TransactionData.t)
      (category : string) :
  ~ Spec.amountRejected
      (fst (if negb (JS.array_includes Actions.validCategories category) then
              (Returned (Actions.failure ("Invalid category: " ++ category)),
               w1)
            else
              match Store.transaction_create data w1 with
              | (Returned row, w2) =>
                  (Returned (Actions.mkResult true None (Some row) None None),
                   snd (Store.revalidatePath "/records" w2))
              | (Thrown e, w2) =>
                  (Returned (Actions.failure
                               ("Failed to create transaction: "
                                  ++ messageOr e "Unknown error occurred")),
                   w2)
              end)).
Proof.
  unfold Spec.amountRejected.
  destruct (negb _); [cbn; intros H; inversion H|].
  destruct (Store.transaction_create data w1) as [[row|e] w2];
    cbn; intros H; inversion H.
Qed.




(** ** Updating *)

(** Whatever the collaborators, once the caller is known and the amount is
    accepted, [updateTransaction] hands the category to the store as it is:
    the outcome is the one of the store. *)
Lemma updateTransaction_defers_category {W : Type} (C : Collab.t W)
      (id uid : string) (data : TransactionFormData.t) (w w1 : W) :
  Collab.auth C w = (Returned (Some uid), w1) ->
  JS.falsy_string uid = false ->
  JS.isNaN (JS.parseFloat (TransactionFormData.amount data))
  || JS.leq0 (JS.parseFloat (TransactionFormData.amount data)) = false ->
  Actions.updateTransaction C id data w
  = match Collab.transaction_update C id uid
            (TransactionData.mk
               (JS.trim (TransactionFormData.name data))
               (JS.parseFloat (TransactionFormData.amount data))
               (TransactionFormData.category data)
               (TransactionFormData.date data) None) w1 with
    | (Returned row, w2) =>
        match Collab.revalidatePath C "/records" w2 with
        | (Returned _, w3) =>
            (Returned (Actions.mkResult true None (Some row) None None), w3)
        | (Thrown e, w3) =>
            match messageOf e "Unknown error" with
            | Returned message =>
                (Returned (Actions.failure
                             ("Failed to update transaction: " ++ message)),
                 w3)
            | Thrown typeError => (Thrown typeError, w3)
            end
        end
    | (Thrown e, w2) =>
        match messageOf e "Unknown error" with
        | Returned message =>
            (Returned (Actions.failure
                         ("Failed to update transaction: " ++ message)), w2)
        | Thrown typeError => (Thrown typeError, w2)
        end
    end.
Proof.
  intros A U V.
  unfold Actions.updateTransaction, tryCatch, bind, ret, fromOutcome.
  rewrite A. cbn [Actions.noUser Actions.idOf]. rewrite U, V.
  destruct (Collab.transaction_update C id uid _ w1) as [[row|e] w2];
    [|destruct (messageOf e _); reflexivity].
  destruct (Collab.revalidatePath C "/records" w2) as [[[]|e] w3];
    [|destruct (messageOf e _); reflexivity].
  rewrite serializeTransaction_id. reflexivity.
Qed.

(** C1, on the code.  For the category [Holidays], outside the closed set,
    [createTransaction] stops with the validation error that names the
    value; [updateTransaction] has no such check: it passes the value to the
    store, and what it reports is the exception of the store. *)
Theorem updateTransaction_skips_category_check :
  JS.array_includes Spec.closedSet "Holidays" = false
  /\ fst (Store.createTransaction (Examples.form "Taxi" "20" "Holidays")
                                  Examples.world)
     = Returned (Actions.failure "Invalid category: Holidays")
  /\ fst (Store.updateTransaction "tx1" (Examples.form "Taxi" "20" "Holidays")
                                  Examples.world)
     <> Returned (Actions.failure "Invalid category: Holidays")
  /\ exists msg,
      fst (Store.updateTransaction "tx1" (Examples.form "Taxi" "20" "Holidays")
                                   Examples.world)
      = Returned (Actions.failure ("Failed to update transaction: " ++ msg)).
Proof.
  split; [reflexivity|]. split; [vm_compute; reflexivity|].
  split; [vm_compute; intros H; discriminate H|].
  eexists. vm_compute. reflexivity.
Qed.

(** C4, on the code.  A name of three spaces is trimmed to the empty string
    and stored: [createTransaction] succeeds and the new row has an empty
    name. *)
Theorem createTransaction_persists_blank_name :
  JS.trim "   " = ""%string
  /\ exists row w',
      Store.createTransaction (Examples.form "   " "5" "Food") Examples.world
      = (Returned (Actions.mkResult true None (Some row) None None), w')
      /\ Transaction.name row = ""%string
      /\ In row (Store.transactions w').
Proof.
  split; [reflexivity|].
  eexists _, _. split; [vm_compute; reflexivity|].
  split; [reflexivity|]. cbn. right. right. left. reflexivity.
Qed.

(** ** The monthly total *)

Lemma getMonthlyTotal_no_rows (tz : Z) (w w1 : Store.World) (uid : string)
      (u : User.t) (month : Z) :
  Store.session w = Some uid ->
  JS.falsy_string uid = false ->
  Actions.ensureUser Store.collaborators uid w = (Returned u, w1) ->
  (forall t, In t (Store.transactions w) ->
             Store.selects uid
               (Some (fromFields tz (getFullYear tz month) (getMonth tz month) 1,
                      fromFields tz (getFullYear tz month)
                                 (getMonth tz month + 1) 0)) t = false) ->
  Store.getMonthlyTotal tz (Some month) w
  = (Returned (Actions.mkResult true None None None (Some 0%Q)), w1).
Proof.
  intros signedIn realId userOk None_.
  rewrite (getMonthlyTotal_run tz w w1 uid u signedIn realId userOk month).
  replace (filter _ (Store.transactions w)) with (@nil Transaction.t);
    [reflexivity|].
  symmetry. induction (Store.transactions w) as [|x l IH]; [reflexivity|].
  cbn [filter]. rewrite (None_ x (or_introl eq_refl)).
  apply IH. intros t Ht. apply None_. right. exact Ht.
Qed.

(** C2, on the code.  The caller's expense [Examples.taxi] is dated 30
    November 2024 at 10:00.  The total for November leaves it out: the upper
    bound of the query is the midnight that begins the last day of the
    month, so the total is 9/2, the amount of the other expense alone. *)
Theorem getMonthlyTotal_misses_last_day :
  In Examples.taxi (Store.transactions Examples.world)
  /\ Transaction.userId Examples.taxi = "user_1"%string
  /\ (getFullYear 0 (Transaction.date Examples.taxi),
      getMonth 0 (Transaction.date Examples.taxi),
      getDate 0 (Transaction.date Examples.taxi),
      getHours 0 (Transaction.date Examples.taxi)) = (2024, 10, 30, 10)
  /\ fromFields 0 2024 (10 + 1) 0 = Examples.nov 30
  /\ fst (Store.getMonthlyTotal 0 (Some (Examples.nov 15)) Examples.world)
     = Returned (Actions.mkResult true None None None (Some (9 # 2))).
Proof.
  split; [right; left; reflexivity|]. vm_compute. repeat split.
Qed.

End StoreFacts.

(* ===================================================================== *)
(** * The receipt scan *)
(* ===================================================================== *)

Module ScanFacts.
Import Effect ScanReceipt.
Local Open Scope string_scope.

Lemma lookup_assign_same (key : string) (v : json)
      (fields : list (string * json)) :
  lookup key (assign key v fields) = Some v.
Proof.
  induction fields as [|[k v'] r IH]; cbn.
  - rewrite String.eqb_refl. reflexivity.
  - destruct (String.eqb k key) eqn:E; cbn; rewrite E; [reflexivity | exact IH].
Qed.

Lemma lookup_assign_other (key key' : string) (v : json)
      (fields : list (string * json)) :
  key <> key' -> lookup key (assign key' v fields) = lookup key fields.
Proof.
  intros N. induction fields as [|[k v'] r IH]; cbn.
  - destruct (String.eqb key' key) eqn:E; [|reflexivity].
    apply String.eqb_eq in E. congruence.
  - destruct (String.eqb k key') eqn:E; cbn.
    + apply String.eqb_eq in E. subst k.
      destruct (String.eqb key' key) eqn:E'; [|reflexivity].
      apply String.eqb_eq in E'. congruence.
    + destruct (String.eqb k key); [reflexivity | exact IH].
Qed.

(** Past the provider and the parser, the scan is the validation of the
    parsed response under the error handler. *)
Lemma scanReceipt_parsed {W} (E : Env W) (image : string) (w w1 : W)
      (response : json) :
  Spec.parsesTo E image w w1 response ->
  scanReceipt E image w
  = tryCatch (validate E response) (fun e => ret (onError e)) w1.
Proof.
  intros ((k & K & Kt) & I1 & I2 & part & text & P & G & J).
  unfold scanReceipt, tryCatch, bind, lift.
  rewrite K, Kt, I1, I2, P. cbn [orb negb]. rewrite G, J. reflexivity.
Qed.

(** A response with a present field is an object. *)
Lemma present_object (response : json) (key : string) :
  Spec.present response key ->
  exists fields, response = JObj fields.
Proof.
  intros (v & G & F). destruct response; cbn in G;
    try (inversion G; subst; discriminate F).
  eexists. reflexivity.
Qed.

(** From the checks on, a response whose category is present and outside
    the closed set is the same response with the category [Other]. *)
Lemma validate_coerces {W} (E : Env W) (response : json) (w : W) :
  Spec.unknownCategory response ->
  validate E response w
  = validate E (setProp response "category" (JStr "Other")) w.
Proof.
  intros (c & Cg & Cf & Ci).
  destruct response as [| | | | |fields]; cbn in Cg;
    try (inversion Cg; subst; discriminate Cf).
  inversion Cg; subst c. clear Cg.
  unfold validate, bind, lift, ret, throw. cbn [getProp setProp].
  rewrite !lookup_assign_other by discriminate.
  rewrite lookup_assign_same, Cf, Ci.
  cbn [falsy JS.falsy_string categories_includes negb].
  change (JS.array_includes categories "Other") with true.
  cbn [negb setProp]. rewrite !orb_false_r. reflexivity.
Qed.

(** C8.  For a parsed response whose category is present and outside the
    closed set, the checks go on as for the same response with the category
    [Other]; with the name present, the amount a number above zero and the
    date present and readable, the scan succeeds, and the category of its
    data is [Other], name and amount as they came.  When the name, the
    amount, the date or the category is missing, the scan reports failure
    and returns no data. *)
Theorem scanReceipt_category_and_missing_fields {W : Type} (E : Env W)
        (image : string) (w w1 : W) (response : json) :
  Spec.parsesTo E image w w1 response ->
  (Spec.unknownCategory response ->
   validate E response w1
   = validate E (setProp response "category" (JStr "Other")) w1
   /\ (Spec.present response "name" ->
       Spec.positiveAmount response ->
       Spec.readableDate E response ->
       exists d w2,
         scanReceipt E image w
         = (Returned (mkScanResult true (Some d) None), w2)
         /\ getProp d "category" = Returned (Some (JStr "Other"))
         /\ getProp d "name" = getProp response "name"
         /\ getProp d "amount" = getProp response "amount"))
  /\ (Spec.missing response "name" \/ Spec.missing response "amount"
      \/ Spec.missing response "date" \/ Spec.missing response "category" ->
      exists msg w2,
        scanReceipt E image w = (Returned (failed msg), w2)).
Proof.
  intros Parsed. rewrite (scanReceipt_parsed E image w w1 response Parsed).
  split.
  - intros Unknown. split; [apply validate_coerces, Unknown|].
    destruct Unknown as (c & Cg & Cf & Ci).
    intros Name (n & An & Af & Al) (dt & text & Dg & Df & Dt).
    destruct (present_object response "name" Name) as (fields & ->).
    destruct Name as (nm & Ng & Nf).
    cbn [getProp] in *.
    inversion Ng; subst nm. inversion An as [An'].
    inversion Dg as [Dg']. inversion Cg; subst c.
    unfold validate, tryCatch, bind, lift, ret, throw. cbn [getProp].
    rewrite An', Dg', Nf, Df, Cf, Ci. cbn [falsy orb negb]. rewrite Af.
    cbn [setProp stringOf]. rewrite Dt.
    assert (forall v, lookup "category"
                        (assign "date" v (assign "category" (JStr "Other") fields))
                      = Some (JStr "Other")) as Both.
    { intros v. rewrite lookup_assign_other by discriminate.
      apply lookup_assign_same. }
    destruct (negb (dateRegex_test text)).
    + cbn [option_map]. destruct (isoDateOf E dt) as [iso|];
        rewrite Al; eexists _, _; (split; [reflexivity|]);
        cbn [getProp]; rewrite Both, !lookup_assign_other by discriminate;
        rewrite An'; repeat split.
    + rewrite Al. eexists _, _. split; [reflexivity|].
      cbn [getProp]. rewrite lookup_assign_same,
        !lookup_assign_other by discriminate.
      rewrite An'. repeat split.
  - intros Missing.
    assert (forall e, exists msg w2,
               (Returned (onError e), w1) = (Returned (failed msg), w2)) as Fail.
    { intros e. destruct (ResultShape.onError_failed e) as (msg & ->).
      exists msg, w1. reflexivity. }
    unfold validate, tryCatch, bind, lift, ret, throw.
    unfold Spec.missing in Missing.
    destruct (getProp response "name") as [name|e] eqn:Gn; [|apply Fail].
    assert (forall key, getProp response key
                        = Returned match response with
                                   | JObj fields => lookup key fields
                                   | _ => None
                                   end) as Get.
    { intros key. destruct response; cbn in *; try reflexivity.
      discriminate Gn. }
    rewrite (Get "amount"), (Get "date"), (Get "category") in *.
    rewrite (Get "name") in Gn. inversion Gn; subst name.
    replace (falsy _ || falsy _ || falsy _ || falsy _) with true; [apply Fail|].
    symmetry. destruct Missing as [M|[M|[M|M]]]; rewrite M;
      repeat rewrite orb_true_r; reflexivity.
Qed.

Lemma scanReceipt_category_and_missing_fields_witness :
  Spec.parsesTo (Examples.scanEnv (Examples.receipt (25 # 2) "Coffee"))
                Examples.image tt tt (Examples.receipt (25 # 2) "Coffee")
  /\ exists d w2,
      scanReceipt (Examples.scanEnv (Examples.receipt (25 # 2) "Coffee"))
                  Examples.image tt
      = (Returned (mkScanResult true (Some d) None), w2)
      /\ getProp d "category" = Returned (Some (JStr "Other")).
Proof.
  assert (Spec.parsesTo (Examples.scanEnv (Examples.receipt (25 # 2) "Coffee"))
                        Examples.image tt tt
                        (Examples.receipt (25 # 2) "Coffee")) as P.
  { split; [exists "secret"; split; reflexivity|].
    split; [reflexivity|]. split; [reflexivity|].
    exists ("iVBORw0KGgo=", "image/png"), "{}".
    split; [reflexivity|]. split; reflexivity. }
  split; [exact P|].
  destruct (proj2 (proj1 (scanReceipt_category_and_missing_fields _ _ _ _ _ P)
                     (ex_intro _ (Some (JStr "Coffee"))
                               (conj eq_refl (conj eq_refl eq_refl)))))
    as (d & w2 & Run & Cat & _).
  - exists (Some (JStr "Cafe")). split; reflexivity.
  - exists (JS.Finite (25 # 2)). split; [reflexivity|]. split; reflexivity.
  - exists (JStr "2024-11-03"), "2024-11-03". repeat split.
  - exists d, w2. split; [exact Run | exact Cat].
Defined.

End ScanFacts.

(* ===================================================================== *)
(** * More on the server actions *)
(* ===================================================================== *)

Module ServiceFacts.
Import Effect StoreFacts.

(** Without a caller, every action fails at once: the message says so, the
    read actions carry their empty payload, and no collaborator is called
    after [auth]. *)
Theorem unauthorized_without_effect {W : Type} (C : Collab.t W) (tz : Z)
        (w w1 : W) (userId : option string) (id : string)
        (data : TransactionFormData.t) (month : option Z)
        (startDate endDate : Z) :
  Collab.auth C w = (Returned userId, w1) ->
  Actions.noUser userId = true ->
  Actions.createTransaction C data w
  = (Returned (Actions.failure "Unauthorized: Please sign in"), w1)
  /\ Actions.updateTransaction C id data w
     = (Returned (Actions.failure "Unauthorized"), w1)
  /\ Actions.deleteTransaction C id w
     = (Returned (Actions.failure "Unauthorized"), w1)
  /\ Actions.getTransactions C w
     = (Returned (Actions.mkResult false (Some "Unauthorized"%string) None
                                   (Some []) None), w1)
  /\ Actions.getMonthlyTotal C tz month w
     = (Returned (Actions.mkResult false (Some "Unauthorized"%string) None
                                   None (Some 0%Q)), w1)
  /\ Actions.getTransactionsByDateRange C tz startDate endDate w
     = (Returned (Actions.mkResult false (Some "Unauthorized"%string) None
                                   (Some []) None), w1).
Proof.
  intros A N.
  unfold Actions.createTransaction, Actions.updateTransaction,
    Actions.deleteTransaction, Actions.getTransactions,
    Actions.getMonthlyTotal, Actions.getTransactionsByDateRange,
    tryCatch, bind, ret.
  rewrite A, N. repeat split.
Qed.

Lemma unauthorized_without_effect_witness :
  Store.createTransaction (Examples.form "Taxi" "20" "Transportation")
                          Samples.signedOut
  = (Returned (Actions.failure "Unauthorized: Please sign in"),
     Samples.signedOut).
Proof.
  exact (proj1 (unauthorized_without_effect Store.collaborators 0
                  Samples.signedOut Samples.signedOut None "tx1"
                  (Examples.form "Taxi" "20" "Transportation") None 0 0
                  eq_refl eq_refl)).
Defined.

(** When the caller's user row cannot be written, whatever the cause, the
    actions that need it report "Failed to create user record" behind their
    own prefix, and call no operation on transactions. *)
Theorem user_record_failure_is_masked {W : Type} (C : Collab.t W) (tz : Z)
        (w w1 w2 : W) (uid : string) (cause : thrown)
        (data : TransactionFormData.t) (month : option Z)
        (startDate endDate : Z) :
  Collab.auth C w = (Returned (Some uid), w1) ->
  JS.falsy_string uid = false ->
  (Collab.currentUser C w1 = (Thrown cause, w2)
   \/ exists profile w',
       Collab.currentUser C w1 = (Returned profile, w')
       /\ Collab.user_upsert C
            (UserUpsert.mk uid (Actions.emailOf profile)
                           (Actions.fullNameOf profile)
                           uid (Actions.emailOf profile)
                           (Actions.fullNameOf profile) "USD") w'
          = (Thrown cause, w2)) ->
  Actions.createTransaction C data w
  = (Returned (Actions.failure
                 "Failed to create transaction: Failed to create user record"),
     w2)
  /\ Actions.getTransactions C w
     = (Returned (Actions.mkResult false
                    (Some "Failed to fetch transactions: Failed to create user record"%string)
                    None (Some []) None), w2)
  /\ Actions.getMonthlyTotal C tz month w
     = (Returned (Actions.mkResult false
                    (Some "Failed to fetch monthly total: Failed to create user record"%string)
                    None None (Some 0%Q)), w2)
  /\ Actions.getTransactionsByDateRange C tz startDate endDate w
     = (Returned (Actions.mkResult false
                    (Some "Failed to fetch transactions: Failed to create user record"%string)
                    None (Some []) None), w2).
Proof.
  intros A U Cause.
  assert (Actions.ensureUser C uid w1
          = (Thrown (Error "Failed to create user record"), w2)) as E.
  { unfold Actions.ensureUser, tryCatch, bind, ret, throw.
    destruct Cause as [R|(profile & w' & R & R')].
    - rewrite R. reflexivity.
    - rewrite R, R'. reflexivity. }
  unfold Actions.createTransaction, Actions.getTransactions,
    Actions.getMonthlyTotal, Actions.getTransactionsByDateRange,
    tryCatch, bind, ret.
  rewrite A. cbn [Actions.noUser Actions.idOf]. rewrite U, E.
  repeat split.
Qed.

Lemma user_record_failure_is_masked_witness :
  Store.createTransaction (Examples.form "Taxi" "20" "Transportation")
                          Samples.collision
  = (Returned (Actions.failure
                 "Failed to create transaction: Failed to create user record"),
     Samples.collision).
Proof.
  exact (proj1 (user_record_failure_is_masked Store.collaborators 0
                  Samples.collision Samples.collision Samples.collision
                  "user_1"
                  (Error "Unique constraint failed on the fields: (`email`)")
                  (Examples.form "Taxi" "20" "Transportation") None 0 0
                  eq_refl eq_refl
                  (or_intror
                     (ex_intro _ (Store.profile Samples.collision)
                        (ex_intro _ Samples.collision
                           (conj eq_refl eq_refl)))))).
Defined.

(** ** The table of users *)

Lemma emailTaken_replace (us : list User.t) (uid email : string) (u' : User.t) :
  User.id u' = uid ->
  Store.emailTaken
    (map (fun v => if String.eqb (User.id v) uid then u' else v) us) uid email
  = Store.emailTaken us uid email.
Proof.
  intros I. unfold Store.emailTaken.
  induction us as [|v us IH]; cbn; [reflexivity|].
  rewrite IH. f_equal.
  destruct (String.eqb (User.id v) uid) eqn:E; rewrite ?E; [|reflexivity].
  rewrite I, String.eqb_refl, !andb_false_r. reflexivity.
Qed.

Lemma emailTaken_append (us : list User.t) (uid email : string) (u' : User.t) :
  User.id u' = uid ->
  Store.emailTaken (us ++ [u']) uid email = Store.emailTaken us uid email.
Proof.
  intros I. unfold Store.emailTaken. rewrite existsb_app. cbn.
  rewrite I, String.eqb_refl, andb_false_r, !orb_false_r. reflexivity.
Qed.

Lemma find_replace (us : list User.t) (uid : string) (u' old : User.t) :
  User.id u' = uid ->
  find (fun v => String.eqb (User.id v) uid) us = Some old ->
  find (fun v => String.eqb (User.id v) uid)
       (map (fun v => if String.eqb (User.id v) uid then u' else v) us)
  = Some u'.
Proof.
  intros I. induction us as [|v us IH]; cbn; [discriminate|].
  destruct (String.eqb (User.id v) uid) eqn:E.
  - intros _. rewrite I, String.eqb_refl. reflexivity.
  - rewrite E. exact IH.
Qed.

Lemma find_append (us : list User.t) (uid : string) (u' : User.t) :
  User.id u' = uid ->
  exists v, find (fun v => String.eqb (User.id v) uid) (us ++ [u']) = Some v.
Proof.
  intros I. induction us as [|v us IH]; cbn.
  - rewrite I, String.eqb_refl. eauto.
  - destruct (String.eqb (User.id v) uid); eauto.
Qed.

Lemma hasUser_find (us : list User.t) (uid : string) (v : User.t) :
  find (fun v => String.eqb (User.id v) uid) us = Some v ->
  Store.hasUser us uid = true.
Proof.
  intros F. unfold Store.hasUser. apply existsb_exists.
  exists v. apply find_some in F. exact F.
Qed.

(** What a successful [ensureUser] leaves behind: the caller has a row, the
    address of the profile is not taken by another row, and nothing but the
    table of users has changed. *)
Lemma ensureUser_done (uid : string) (w w1 : Store.World) (u : User.t) :
  Actions.ensureUser Store.collaborators uid w = (Returned u, w1) ->
  (exists v, find (fun v => String.eqb (User.id v) uid) (Store.users w1)
             = Some v)
  /\ Store.emailTaken (Store.users w1) uid (Actions.emailOf (Store.profile w))
     = false
  /\ Store.profile w1 = Store.profile w
  /\ Store.revalidated w1 = Store.revalidated w
  /\ Store.session w1 = Store.session w
  /\ Store.transactions w1 = Store.transactions w.
Proof.
  unfold Actions.ensureUser, tryCatch, bind, ret, throw.
  cbn [Collab.currentUser Collab.user_upsert Store.collaborators].
  unfold Store.currentUser, Store.user_upsert.
  cbn [UserUpsert.where_id UserUpsert.update_email UserUpsert.update_name
       UserUpsert.create_id UserUpsert.create_email UserUpsert.create_name
       UserUpsert.create_currency].
  destruct (find _ (Store.users w)) as [old|] eqn:F;
    destruct (Store.emailTaken _ _ _) eqn:T;
    intros H; inversion H; subst;
    cbn [Store.users Store.profile Store.revalidated Store.session
         Store.transactions Store.setUsers]; clear H.
  - split; [|repeat split].
    + eexists. eapply find_replace; [reflexivity | exact F].
    + rewrite emailTaken_replace by reflexivity. exact T.
  - split; [|repeat split].
    + apply find_append. reflexivity.
    + rewrite emailTaken_append by reflexivity. exact T.
Qed.

(** Once [ensureUser] has succeeded it succeeds again, as long as the table
    of users and the profile stay the same. *)
Lemma ensureUser_again (uid : string) (w w1 w2 : Store.World) (u : User.t) :
  Actions.ensureUser Store.collaborators uid w = (Returned u, w1) ->
  Store.users w2 = Store.users w1 ->
  Store.profile w2 = Store.profile w ->
  exists u2 w3,
    Actions.ensureUser Store.collaborators uid w2 = (Returned u2, w3).
Proof.
  intros E Us Pr.
  destruct (ensureUser_done uid w w1 u E) as ((v & F) & T & _).
  unfold Actions.ensureUser, tryCatch, bind, ret, throw.
  cbn [Collab.currentUser Collab.user_upsert Store.collaborators].
  unfold Store.currentUser, Store.user_upsert.
  cbn [UserUpsert.where_id UserUpsert.update_email UserUpsert.update_name
       UserUpsert.create_id UserUpsert.create_email UserUpsert.create_name
       UserUpsert.create_currency].
  rewrite Us, Pr, F, T. eauto.
Qed.

(** ** Listing *)

Section Listing.

Variables w w1 : Store.World.
Variable uid : string.
Variable u : User.t.

Hypothesis signedIn : Store.session w = Some uid.
Hypothesis realId : JS.falsy_string uid = false.
Hypothesis userOk :
  Actions.ensureUser Store.collaborators uid w = (Returned u, w1).

Lemma getTransactions_run :
  Store.getTransactions w
  = (Returned
       (Actions.mkResult true None None
          (Some (Store.orderByDateDesc
                   (filter (Store.selects uid None) (Store.transactions w))))
          None),
     w1).
Proof.
  destruct (ensureUser_frame uid w w1 _ userOk) as (Tx & _).
  unfold Store.getTransactions, Actions.getTransactions.
  unfold tryCatch, bind, ret.
  cbn [Collab.auth Collab.transaction_findMany Store.collaborators].
  unfold Store.auth. rewrite signedIn.
  cbn [Actions.noUser Actions.idOf]. rewrite realId, userOk.
  unfold Store.transaction_findMany.
  rewrite map_serializeTransaction, Tx. reflexivity.
Qed.

End Listing.

(** For a signed-in caller, [getTransactions] returns the caller's
    transactions, all of them and no others, each as often as it is stored,
    by descending date. *)
Theorem getTransactions_lists_own_rows (w w1 : Store.World) (uid : string)
        (u : User.t) :
  Store.session w = Some uid ->
  JS.falsy_string uid = false ->
  Actions.ensureUser Store.collaborators uid w = (Returned u, w1) ->
  exists l,
    Store.getTransactions w
    = (Returned (Actions.mkResult true None None (Some l) None), w1)
    /\ Spec.dateDescending l
    /\ Permutation l
         (filter (fun t => String.eqb (Transaction.userId t) uid)
                 (Store.transactions w))
    /\ (forall t, In t l <->
                  In t (Store.transactions w) /\ Transaction.userId t = uid).
Proof.
  intros signedIn realId userOk. eexists.
  split; [exact (getTransactions_run w w1 uid u signedIn realId userOk)|].
  split; [apply orderByDateDesc_sorted|].
  assert (filter (Store.selects uid None) (Store.transactions w)
          = filter (fun t => String.eqb (Transaction.userId t) uid)
                   (Store.transactions w)) as Same.
  { apply filter_ext. intros t. unfold Store.selects. apply andb_true_r. }
  rewrite Same. split; [apply orderByDateDesc_perm|].
  intros t. set (rows := filter _ (Store.transactions w)).
  assert (In t (Store.orderByDateDesc rows) <-> In t rows) as Mem.
  { split; apply Permutation_in; [|symmetry]; apply orderByDateDesc_perm. }
  rewrite Mem. unfold rows. rewrite filter_In, String.eqb_eq. reflexivity.
Qed.

Lemma getTransactions_lists_own_rows_witness :
  exists l,
    Store.getTransactions Samples.shared
    = (Returned (Actions.mkResult true None None (Some l) None),
       Samples.sharedRefreshed)
    /\ (forall t, In t l <->
                  In t (Store.transactions Samples.shared)
                  /\ Transaction.userId t = "user_1"%string).
Proof.
  destruct (getTransactions_lists_own_rows Samples.shared
              Samples.sharedRefreshed "user_1" Examples.annRefreshed
              eq_refl eq_refl eq_refl) as (l & Run & _ & _ & Mem).
  exists l. split; [exact Run | exact Mem].
Defined.

(** ** Creating, then listing *)

Section Accepted.

Variables w w1 : Store.World.
Variable uid : string.
Variable u : User.t.
Variable data : TransactionFormData.t.
Variable q : Q.

Hypothesis signedIn : Store.session w = Some uid.
Hypothesis realId : JS.falsy_string uid = false.
Hypothesis userOk :
  Actions.ensureUser Store.collaborators uid w = (Returned u, w1).
Hypothesis parsed : JS.parseFloat (TransactionFormData.amount data) = JS.Finite q.
Hypothesis positive : (0 < q)%Q.
Hypothesis known :
  JS.array_includes Actions.validCategories (TransactionFormData.category data)
  = true.
Hypothesis fits : Store.fitsDecimal (Store.toDecimal q) = true.

Lemma createTransaction_accepts :
  Store.createTransaction data w
  = let row := Terms.written (Store.freshId (Store.nextId w1)) data
                             (Store.toDecimal q)
                             (Store.clock w1) (Store.clock w1) uid in
    (Returned (Actions.mkResult true None (Some row) None None),
     Store.mkWorld (Store.session w1) (Store.profile w1) (Store.clock w1)
                   (Store.users w1) (Store.transactions w1 ++ [row])
                   (S (Store.nextId w1))
                   ("/records"%string :: Store.revalidated w1)).
Proof.
  rewrite (createTransaction_run w w1 uid u signedIn realId userOk data).
  cbv zeta. rewrite parsed. cbn [JS.isNaN JS.leq0 orb].
  replace (Qle_bool q 0) with false
    by (symmetry; apply Qle_bool_false; exact positive).
  rewrite known. cbn [negb].
  destruct (ensureUser_done uid w w1 u userOk) as ((v & F) & _).
  unfold Store.transaction_create, Store.checkData.
  cbn [TransactionData.amount TransactionData.category TransactionData.userId
       TransactionData.name TransactionData.date Actions.idOf].
  change Category with Actions.validCategories. rewrite known, fits.
  rewrite (hasUser_find _ _ _ F). reflexivity.
Qed.

End Accepted.

Lemma toDecimal_exact (q : Q) :
  ((Qnum q * 10 ^ 30) mod Z.pos (Qden q) = 0)%Z -> Store.toDecimal q = q.
Proof.
  intros E. unfold Store.toDecimal. rewrite E. reflexivity.
Qed.



(** ** Scoped mutations *)

Section SignedIn.

Variable w : Store.World.
Variable uid : string.

Hypothesis signedIn : Store.session w = Some uid.
Hypothesis realId : JS.falsy_string uid = false.

Lemma deleteTransaction_run (id : string) :
  Store.deleteTransaction id w
  = match find (Store.matches id uid) (Store.transactions w) with
    | Some _ =>
        (Returned (Actions.mkResult true None None None None),
         snd (Store.revalidatePath "/records"
                (Store.setTransactions w
                   (filter (fun r => negb (Store.matches id uid r))
                           (Store.transactions w)))))
    | None =>
        (Returned (Actions.failure
                     "Failed to delete transaction: Record to delete does not exist."),
         w)
    end.
Proof.
  unfold Store.deleteTransaction, Actions.deleteTransaction.
  unfold tryCatch, bind, ret.
  cbn [Collab.auth Collab.transaction_delete Collab.revalidatePath
       Store.collaborators].
  unfold Store.auth. rewrite signedIn.
  cbn [Actions.noUser Actions.idOf]. rewrite realId.
  unfold Store.transaction_delete.
  destruct (find _ (Store.transactions w)); reflexivity.
Qed.

Lemma updateTransaction_run (id : string) (data : TransactionFormData.t) :
  Store.updateTransaction id data w
  = let amount := JS.parseFloat (TransactionFormData.amount data) in
    if JS.isNaN amount || JS.leq0 amount then
      (Returned (Actions.failure "Invalid amount"), w)
    else
      match Store.checkData
              (TransactionData.mk (JS.trim (TransactionFormData.name data))
                                  amount (TransactionFormData.category data)
                                  (TransactionFormData.date data) None) with
      | inl message =>
          (Returned (Actions.failure
                       ("Failed to update transaction: "
                          ++ messageOr (Error message) "Unknown error")), w)
      | inr q =>
          match find (Store.matches id uid) (Store.transactions w) with
          | Some old =>
              let row := Terms.written id data q (Transaction.createdAt old)
                                       (Store.clock w) uid in
              (Returned (Actions.mkResult true None (Some row) None None),
               snd (Store.revalidatePath "/records"
                      (Store.setTransactions w
                         (map (fun r => if Store.matches id uid r
                                        then row else r)
                              (Store.transactions w)))))
          | None =>
              (Returned (Actions.failure
                           "Failed to update transaction: Record to update not found."),
               w)
          end
      end.
Proof.
  unfold Store.updateTransaction, Actions.updateTransaction.
  unfold tryCatch, bind, ret.
  cbn [Collab.auth Collab.transaction_update Collab.revalidatePath
       Store.collaborators].
  unfold Store.auth. rewrite signedIn.
  cbn [Actions.noUser Actions.idOf]. rewrite realId. cbv zeta.
  destruct (JS.isNaN _ || JS.leq0 _); [reflexivity|].
  unfold Store.transaction_update.
  destruct (Store.checkData _) as [e|q]; [reflexivity|].
  destruct (find _ (Store.transactions w)); [|reflexivity].
  rewrite serializeTransaction_id. reflexivity.
Qed.

End SignedIn.

Lemma find_none_matches (id uid : string) (rows : list Transaction.t) :
  (forall r, In r rows ->
             ~ (Transaction.id r = id /\ Transaction.userId r = uid)) ->
  find (Store.matches id uid) rows = None.
Proof.
  intros H. destruct (find _ rows) as [r|] eqn:F; [|reflexivity].
  apply find_some in F. destruct F as (I & M). exfalso. apply (H r I).
  unfold Store.matches in M. apply andb_true_iff in M.
  rewrite !String.eqb_eq in M. exact M.
Qed.

(** A mutation that targets a row the caller does not own (or no row at
    all) fails and changes nothing: neither a row nor the cache. *)
Theorem foreign_row_is_out_of_reach (w : Store.World) (uid id : string)
        (data : TransactionFormData.t) :
  Store.session w = Some uid ->
  JS.falsy_string uid = false ->
  (forall r, In r (Store.transactions w) ->
             ~ (Transaction.id r = id /\ Transaction.userId r = uid)) ->
  (exists msg,
      Store.updateTransaction id data w = (Returned (Actions.failure msg), w))
  /\ Store.deleteTransaction id w
     = (Returned (Actions.failure
                    "Failed to delete transaction: Record to delete does not exist."),
        w).
Proof.
  intros signedIn realId Foreign.
  pose proof (find_none_matches id uid _ Foreign) as F.
  split.
  - rewrite (updateTransaction_run w uid signedIn realId id data). cbv zeta.
    destruct (JS.isNaN _ || JS.leq0 _); [eauto|].
    destruct (Store.checkData _); [eauto|]. rewrite F. eauto.
  - rewrite (deleteTransaction_run w uid signedIn realId id), F. reflexivity.
Qed.

Lemma foreign_row_is_out_of_reach_witness :
  In Samples.rent (Store.transactions Samples.shared)
  /\ Store.deleteTransaction "tx2" Samples.shared
     = (Returned (Actions.failure
                    "Failed to delete transaction: Record to delete does not exist."),
        Samples.shared).
Proof.
  split; [right; right; left; reflexivity|].
  refine (proj2 (foreign_row_is_out_of_reach Samples.shared "user_1" "tx2"
                   (Examples.form "Mine" "1" "Other") eq_refl eq_refl _)).
  intros r [<-|[<-|[<-|[]]]] (I & U); discriminate.
Defined.

(** Deleting one's own row succeeds, removes the rows with that id and
    owner, and keeps every other row in place. *)
Theorem deleteTransaction_removes_own_row (w : Store.World) (uid id : string)
        (row : Transaction.t) :
  Store.session w = Some uid ->
  JS.falsy_string uid = false ->
  In row (Store.transactions w) ->
  Transaction.id row = id ->
  Transaction.userId row = uid ->
  exists w',
    Store.deleteTransaction id w
    = (Returned (Actions.mkResult true None None None None), w')
    /\ Store.transactions w'
       = filter (fun r => negb (String.eqb (Transaction.id r) id
                                && String.eqb (Transaction.userId r) uid))
                (Store.transactions w)
    /\ ~ In row (Store.transactions w')
    /\ (forall r, In r (Store.transactions w) ->
                  Transaction.id r <> id -> In r (Store.transactions w'))
    /\ Store.users w' = Store.users w.
Proof.
  intros signedIn realId I Id Ow.
  rewrite (deleteTransaction_run w uid signedIn realId id).
  destruct (find _ (Store.transactions w)) as [old|] eqn:F.
  - eexists. split; [reflexivity|]. cbn. split; [reflexivity|].
    split; [|split; [|reflexivity]].
    + rewrite filter_In. intros (_ & M). unfold Store.matches in M.
      rewrite Id, Ow, !String.eqb_refl in M. discriminate M.
    + intros r Ir N. apply filter_In. split; [exact Ir|].
      unfold Store.matches.
      destruct (String.eqb (Transaction.id r) id) eqn:E; [|reflexivity].
      apply String.eqb_eq in E. contradiction.
  - exfalso. apply (find_none _ _ F) in I. unfold Store.matches in I.
    rewrite Id, Ow, !String.eqb_refl in I. discriminate I.
Qed.

Lemma deleteTransaction_removes_own_row_witness :
  exists w',
    Store.deleteTransaction "tx1" Samples.shared
    = (Returned (Actions.mkResult true None None None None), w')
    /\ Store.transactions w' = [Examples.coffee; Samples.rent].
Proof.
  destruct (deleteTransaction_removes_own_row Samples.shared "user_1" "tx1"
              Examples.taxi eq_refl eq_refl
              (or_intror (or_introl eq_refl)) eq_refl eq_refl)
    as (w' & Run & Rows & _).
  exists w'. split; [exact Run|]. rewrite Rows. reflexivity.
Defined.



(** ** What a mutation changes *)

Lemma ensureUser_keeps (uid : string) (w w' : Store.World)
      (o : outcome User.t) :
  Actions.ensureUser Store.collaborators uid w = (o, w') ->
  Store.transactions w' = Store.transactions w
  /\ Store.revalidated w' = Store.revalidated w.
Proof.
  unfold Actions.ensureUser, tryCatch, bind, ret, throw. cbn.
  unfold Store.user_upsert. cbn.
  repeat match goal with
         | |- context [ match ?x with Some _ => _ | None => _ end ] =>
             destruct x
         | |- context [ if ?b then _ else _ ] => destruct b
         end; intros H; inversion H; subst; cbn; split; reflexivity.
Qed.

Lemma createTransaction_effect (w : Store.World)
      (data : TransactionFormData.t) :
  (Terms.succeeded (fst (Store.createTransaction data w)) = true
   /\ Store.revalidated (snd (Store.createTransaction data w))
      = "/records"%string :: Store.revalidated w
   /\ exists row,
       Transaction.userId row = Actions.idOf (Store.session w)
       /\ Store.transactions (snd (Store.createTransaction data w))
          = Store.transactions w ++ [row])
  \/ (Terms.succeeded (fst (Store.createTransaction data w)) = false
      /\ Store.revalidated (snd (Store.createTransaction data w))
         = Store.revalidated w
      /\ Store.transactions (snd (Store.createTransaction data w))
         = Store.transactions w).
Proof.
  unfold Store.createTransaction, Actions.createTransaction.
  unfold tryCatch, bind, ret.
  cbn [Collab.auth Collab.transaction_create Collab.revalidatePath
       Store.collaborators].
  unfold Store.auth.
  destruct (Store.session w) as [uid|]; cbn [Actions.noUser Actions.idOf];
    [|right; cbn; auto].
  destruct (JS.falsy_string uid); [right; cbn; auto|].
  destruct (Actions.ensureUser Store.collaborators uid w) as [[u|e] w1] eqn:E;
    destruct (ensureUser_keeps uid w w1 _ E) as (Tx & Rv);
    [|right; cbn; auto].
  destruct (JS.isNaN _ || JS.leq0 _); [right; cbn; auto|].
  destruct (negb _); [right; cbn; auto|].
  unfold Store.transaction_create.
  destruct (Store.checkData _) as [e|q]; [right; cbn; auto|].
  cbn [TransactionData.userId Actions.idOf].
  destruct (Store.hasUser _ _); [|right; cbn; auto].
  left. cbn. split; [reflexivity|]. split; [congruence|].
  eexists. split; [|rewrite Tx; reflexivity]. reflexivity.
Qed.

Lemma updateTransaction_effect (w : Store.World) (id : string)
      (data : TransactionFormData.t) :
  (Terms.succeeded (fst (Store.updateTransaction id data w)) = true
   /\ Store.revalidated (snd (Store.updateTransaction id data w))
      = "/records"%string :: Store.revalidated w
   /\ exists row,
       Transaction.userId row = Actions.idOf (Store.session w)
       /\ Store.transactions (snd (Store.updateTransaction id data w))
          = map (fun r => if Store.matches id (Actions.idOf (Store.session w)) r
                          then row else r)
                (Store.transactions w))
  \/ (Terms.succeeded (fst (Store.updateTransaction id data w)) = false
      /\ snd (Store.updateTransaction id data w) = w).
Proof.
  unfold Store.updateTransaction, Actions.updateTransaction.
  unfold tryCatch, bind, ret.
  cbn [Collab.auth Collab.transaction_update Collab.revalidatePath
       Store.collaborators].
  unfold Store.auth.
  destruct (Store.session w) as [uid|]; cbn [Actions.noUser Actions.idOf];
    [|right; cbn; auto].
  destruct (JS.falsy_string uid); [right; cbn; auto|].
  destruct (JS.isNaN _ || JS.leq0 _); [right; cbn; auto|].
  unfold Store.transaction_update.
  destruct (Store.checkData _) as [e|q]; [right; cbn; auto|].
  destruct (find _ (Store.transactions w)) as [old|]; [|right; cbn; auto].
  left. cbn. split; [reflexivity|]. split; [reflexivity|].
  eexists. split; [|reflexivity]. reflexivity.
Qed.

Lemma deleteTransaction_effect (w : Store.World) (id : string) :
  (Terms.succeeded (fst (Store.deleteTransaction id w)) = true
   /\ Store.revalidated (snd (Store.deleteTransaction id w))
      = "/records"%string :: Store.revalidated w
   /\ Store.transactions (snd (Store.deleteTransaction id w))
      = filter (fun r => negb (Store.matches id
                                 (Actions.idOf (Store.session w)) r))
               (Store.transactions w))
  \/ (Terms.succeeded (fst (Store.deleteTransaction id w)) = false
      /\ snd (Store.deleteTransaction id w) = w).
Proof.
  unfold Store.deleteTransaction, Actions.deleteTransaction.
  unfold tryCatch, bind, ret.
  cbn [Collab.auth Collab.transaction_delete Collab.revalidatePath
       Store.collaborators].
  unfold Store.auth.
  destruct (Store.session w) as [uid|]; cbn [Actions.noUser Actions.idOf];
    [|right; cbn; auto].
  destruct (JS.falsy_string uid); [right; cbn; auto|].
  unfold Store.transaction_delete.
  destruct (find _ (Store.transactions w)) as [old|]; [|right; cbn; auto].
  left. cbn. repeat split.
Qed.

Lemma others_replace (id uid : string) (row : Transaction.t)
      (rows : list Transaction.t) :
  Transaction.userId row = uid ->
  Terms.others uid
    (map (fun r => if Store.matches id uid r then row else r) rows)
  = Terms.others uid rows.
Proof.
  intros Ow. unfold Terms.others.
  induction rows as [|r rows IH]; cbn [map filter]; [reflexivity|].
  destruct (Store.matches id uid r) eqn:M.
  - unfold Store.matches in M. apply andb_true_iff in M. destruct M as (_ & M).
    rewrite M, Ow, String.eqb_refl. cbn [negb]. exact IH.
  - rewrite IH. reflexivity.
Qed.

Lemma others_remove (id uid : string) (rows : list Transaction.t) :
  Terms.others uid (filter (fun r => negb (Store.matches id uid r)) rows)
  = Terms.others uid rows.
Proof.
  unfold Terms.others.
  induction rows as [|r rows IH]; cbn [filter]; [reflexivity|].
  destruct (Store.matches id uid r) eqn:M; cbn [negb filter].
  - unfold Store.matches in M. apply andb_true_iff in M. destruct M as (_ & M).
    rewrite M. cbn [negb]. exact IH.
  - rewrite IH. reflexivity.
Qed.

(** No mutation touches the rows of another user: whatever the input, and
    whether it succeeds or fails, the rows that do not belong to the caller
    are the same rows in the same order afterwards. *)
Theorem mutations_keep_other_users_rows (w : Store.World) (id : string)
        (data : TransactionFormData.t) :
  let uid := Actions.idOf (Store.session w) in
  Terms.others uid (Store.transactions (snd (Store.createTransaction data w)))
  = Terms.others uid (Store.transactions w)
  /\ Terms.others uid
       (Store.transactions (snd (Store.updateTransaction id data w)))
     = Terms.others uid (Store.transactions w)
  /\ Terms.others uid
       (Store.transactions (snd (Store.deleteTransaction id w)))
     = Terms.others uid (Store.transactions w).
Proof.
  intros uid. split; [|split].
  - destruct (createTransaction_effect w data)
      as [(_ & _ & row & Ow & ->)|(_ & _ & ->)]; [|reflexivity].
    unfold Terms.others. rewrite filter_app. cbn.
    fold uid in Ow. rewrite Ow, String.eqb_refl. cbn. apply app_nil_r.
  - destruct (updateTransaction_effect w id data)
      as [(_ & _ & row & Ow & ->)|(_ & ->)]; [|reflexivity].
    apply others_replace, Ow.
  - destruct (deleteTransaction_effect w id)
      as [(_ & _ & ->)|(_ & ->)]; [|reflexivity].
    apply others_remove.
Qed.

(** The cached page of records is invalidated once by every mutation that
    succeeds, and by no mutation that fails. *)
Theorem mutations_revalidate_on_success_only (w : Store.World) (id : string)
        (data : TransactionFormData.t) :
  let after (r : outcome Actions.Result * Store.World) :=
    Store.revalidated (snd r)
    = if Terms.succeeded (fst r)
      then "/records"%string :: Store.revalidated w
      else Store.revalidated w in
  after (Store.createTransaction data w)
  /\ after (Store.updateTransaction id data w)
  /\ after (Store.deleteTransaction id w).
Proof.
  intros after. unfold after. split; [|split].
  - destruct (createTransaction_effect w data)
      as [(-> & -> & _)|(-> & -> & _)]; reflexivity.
  - destruct (updateTransaction_effect w id data)
      as [(-> & -> & _)|(-> & ->)]; reflexivity.
  - destruct (deleteTransaction_effect w id)
      as [(-> & -> & _)|(-> & ->)]; reflexivity.
Qed.

(** ** The window of the monthly total *)

Lemma fromFields_startOfMonth (tz t : Z) :
  ~ (0 <= Date.getFullYear tz t <= 99) ->
  Date.fromFields tz (Date.getFullYear tz t) (Date.getMonth tz t) 1
  = DateFns.startOfMonth tz t.
Proof.
  intros Y. unfold Date.fromFields, DateFns.startOfMonth.
  destruct ((0 <=? Date.getFullYear tz t) && (Date.getFullYear tz t <=? 99))
    eqn:E; [apply andb_true_iff in E; rewrite !Z.leb_le in E; lia|].
  rewrite DateFnsFacts.startOfDay_dayStart, DateFnsFacts.setDate_first.
  replace (t - (Date.getDate tz t - 1) * Date.msPerDay)
    with (t + (1 - Date.getDate tz t) * Date.msPerDay) by lia.
  rewrite DateFnsFacts.dayStart_shift.
  unfold Date.getFullYear, Date.getMonth, Date.getDate.
  replace 1 with (Date.DateFromTime (Date.LocalTime tz t)
                  + (1 - Date.DateFromTime (Date.LocalTime tz t))) at 1 by lia.
  rewrite DateFacts.MakeDay_fields.
  unfold Spec.dayStart, Spec.localDay, Date.MakeDate, Date.MakeTime, Date.UTC.
  lia.
Qed.

Lemma fromFields_endOfMonth (tz t : Z) :
  ~ (0 <= Date.getFullYear tz t <= 99) ->
  Date.fromFields tz (Date.getFullYear tz t) (Date.getMonth tz t + 1) 0
  = Spec.dayStart tz (DateFns.endOfMonth tz t).
Proof.
  intros Y. unfold Date.fromFields, DateFns.endOfMonth.
  destruct ((0 <=? Date.getFullYear tz t) && (Date.getFullYear tz t <=? 99))
    eqn:E; [apply andb_true_iff in E; rewrite !Z.leb_le in E; lia|].
  rewrite setHours_end.
  unfold Date.setFullYear, Date.orElse.
  set (day := Date.MakeDay (Date.getFullYear tz t) (Date.getMonth tz t + 1) 0).
  unfold Spec.dayEnd, Spec.dayStart, Spec.localDay, Date.MakeDate,
    Date.MakeTime, Date.UTC, Date.LocalTime, Date.Day, Date.TimeWithinDay.
  unfold Date.msPerDay. Z.div_mod_to_equations. lia.
Qed.

Lemma sumAmount_sumQ (rows : list Transaction.t) :
  (match rows with [] => 0 | t :: l => Store.sumAmount (t :: l) end
   == Spec.sumQ (map Transaction.amount rows))%Q.
Proof.
  destruct rows as [|r rows]; [reflexivity|].
  unfold Store.sumAmount. rewrite TrendFacts.fold_left_amount. ring.
Qed.



End ServiceFacts.

(* ===================================================================== *)
(** * More on the receipt scan *)
(* ===================================================================== *)

Module ScanMore.
Import Effect ScanReceipt ScanFacts.
Local Open Scope string_scope.

Lemma chars_of_append (a b : string) :
  list_ascii_of_string (a ++ b)
  = (list_ascii_of_string a ++ list_ascii_of_string b)%list.
Proof.
  induction a as [|c a IH]; cbn; [reflexivity|]. rewrite IH. reflexivity.
Qed.

Lemma splitOn_plain (sep : ascii) (s : JS.chars) :
  ~ In sep s -> splitOn sep s = [s].
Proof.
  induction s as [|c s IH]; intros N; cbn; [reflexivity|].
  destruct (Ascii.eqb c sep) eqn:E.
  - apply Ascii.eqb_eq in E. subst c. exfalso. apply N. left. reflexivity.
  - rewrite IH; [reflexivity|]. intros I. apply N. right. exact I.
Qed.

Lemma splitOn_once (sep : ascii) (a b : JS.chars) :
  ~ In sep a -> ~ In sep b ->
  splitOn sep (a ++ sep :: b)%list = [a; b].
Proof.
  intros Na Nb. induction a as [|c a IH]; cbn.
  - rewrite Ascii.eqb_refl, (splitOn_plain sep b Nb). reflexivity.
  - destruct (Ascii.eqb c sep) eqn:E.
    + apply Ascii.eqb_eq in E. subst c. exfalso. apply Na. left. reflexivity.
    + rewrite IH; [reflexivity|]. intros I. apply Na. right. exact I.
Qed.

Lemma untilSemicolon_stops (m rest : JS.chars) :
  ~ In ";"%char m ->
  (forall c, In c m -> isLineTerminator c = false) ->
  untilSemicolon (m ++ ";"%char :: rest)%list = Some m.
Proof.
  intros Ns Nl. induction m as [|c m IH]; cbn; [reflexivity|].
  destruct (Ascii.eqb c ";") eqn:E.
  - apply Ascii.eqb_eq in E. subst c. exfalso. apply Ns. left. reflexivity.
  - rewrite (Nl c (or_introl eq_refl)), IH; [reflexivity | |].
    + intros I. apply Ns. right. exact I.
    + intros c' I. apply Nl. right. exact I.
Qed.

(** A data URL [data:<mime>;base64,<data>] is taken apart into its data
    and its mime type; a payload without a comma, or with nothing after its
    only comma, is refused with "Invalid image data". *)
Theorem data_url_round_trip (mime data image : string) :
  let m := list_ascii_of_string mime in
  let d := list_ascii_of_string data in
  (m <> [] -> d <> [] ->
   ~ In ";"%char m -> ~ In ","%char m ->
   (forall c, In c m -> isLineTerminator c = false) ->
   ~ In ","%char d ->
   base64ToGenerativePart ("data:" ++ mime ++ ";base64," ++ data)
   = Returned (data, mime))
  /\ (~ In ","%char (list_ascii_of_string image) ->
      base64ToGenerativePart image = Thrown (Error "Invalid image data")
      /\ base64ToGenerativePart (image ++ ",")
         = Thrown (Error "Invalid image data")).
Proof.
  intros m d. split.
  - intros Me De Ns Nc Nl Nd. unfold base64ToGenerativePart.
    rewrite !chars_of_append. fold m d.
    change (list_ascii_of_string "data:") with ["d"; "a"; "t"; "a"; ":"]%char.
    change (list_ascii_of_string ";base64,")
      with [";"; "b"; "a"; "s"; "e"; "6"; "4"; ","]%char.
    replace (["d"; "a"; "t"; "a"; ":"]%char
             ++ m ++ [";"; "b"; "a"; "s"; "e"; "6"; "4"; ","]%char ++ d)%list
      with ((["d"; "a"; "t"; "a"; ":"]%char
             ++ m ++ [";"; "b"; "a"; "s"; "e"; "6"; "4"]%char)
            ++ ","%char :: d)%list
      by (rewrite <- !app_assoc; reflexivity).
    rewrite splitOn_once; [| |exact Nd].
    + cbn [nth nth_error].
      assert (mimeTypeOf (["d"; "a"; "t"; "a"; ":"]%char
                          ++ m ++ [";"; "b"; "a"; "s"; "e"; "6"; "4"]%char)%list
              = Some m) as ->.
      { cbn [app mimeTypeOf Ascii.eqb Bool.eqb].
        change (m ++ [";"; "b"; "a"; "s"; "e"; "6"; "4"]%char)%list
          with (m ++ ";"%char :: ["b"; "a"; "s"; "e"; "6"; "4"]%char)%list.
        rewrite untilSemicolon_stops by assumption. reflexivity. }
      destruct m as [|c m'] eqn:Em; [congruence|].
      destruct d as [|c' d'] eqn:Ed; [congruence|].
      cbn [isEmpty orb]. rewrite <- Em, <- Ed. unfold m, d.
      rewrite !string_of_list_ascii_of_string. reflexivity.
    + intros I. repeat (apply in_app_or in I; destruct I as [I|I]).
      * cbn in I. repeat (destruct I as [I|I]; [discriminate I|]). exact I.
      * exact (Nc I).
      * cbn in I. repeat (destruct I as [I|I]; [discriminate I|]). exact I.
  - intros N. split; unfold base64ToGenerativePart.
    + rewrite (splitOn_plain _ _ N). cbn [nth_error isEmpty].
      rewrite orb_true_r. reflexivity.
    + rewrite chars_of_append.
      change (list_ascii_of_string ",") with (","%char :: []).
      rewrite (splitOn_once _ _ [] N (fun I => I)).
      cbn [nth_error isEmpty]. rewrite orb_true_r. reflexivity.
Qed.

Lemma data_url_round_trip_witness :
  base64ToGenerativePart "data:image/png;base64,iVBORw0KGgo="
  = Returned ("iVBORw0KGgo=", "image/png")
  /\ base64ToGenerativePart "data:image/png;base64"
     = Thrown (Error "Invalid image data").
Proof.
  destruct (data_url_round_trip "image/png" "iVBORw0KGgo="
              "data:image/png;base64") as [R T].
  split.
  - apply R; try discriminate.
    + cbn. intuition discriminate.
    + cbn. intuition discriminate.
    + cbn. intros c I.
      repeat (destruct I as [I|I]; [subst c; reflexivity|]). destruct I.
    + cbn. intuition discriminate.
  - apply T. cbn. intuition discriminate.
Defined.

Lemma includes_category (v : option json) :
  categories_includes v = true ->
  exists c, v = Some (JStr c)
            /\ JS.array_includes Actions.validCategories c = true.
Proof.
  destruct v as [[| | |c| |]|]; cbn [categories_includes]; try discriminate.
  intros I. exists c. split; [reflexivity | exact I].
Qed.

(** What the checks leave of an object that passes them. *)
Lemma validate_success {W : Type} (E : Env W) (response : json) (w w1 : W)
      (r : ScanResult) :
  validate E response w = (Returned r, w1) ->
  success r = true ->
  w1 = w
  /\ exists fields0 name n date0 text0,
      response = JObj fields0
      /\ lookup "name" fields0 = Some name /\ falsy (Some name) = false
      /\ lookup "amount" fields0 = Some (JNum n)
      /\ JS.falsy_number n = false /\ JS.leq0 n = false
      /\ falsy (lookup "category" fields0) = false
      /\ lookup "date" fields0 = Some date0 /\ falsy (Some date0) = false
      /\ toStringOf (numberToString E) date0 = Returned text0
      /\ r = mkScanResult true
               (Some (JObj
                  (let categorised :=
                     if categories_includes (lookup "category" fields0)
                     then fields0
                     else assign "category" (JStr "Other") fields0 in
                   if dateRegex_test text0 then categorised
                   else assign "date"
                          (JStr match isoDateOf E date0 with
                                | Some iso => iso
                                | None => today E w
                                end)
                          categorised)))
               None.
Proof.
  intros V S. unfold validate, bind, lift, ret, throw in V.
  destruct response as [| | | | |fields]; cbn [getProp falsy orb] in V;
    try discriminate V.
  destruct (falsy (lookup "name" fields) || falsy (lookup "amount" fields)
            || falsy (lookup "date" fields)
            || falsy (lookup "category" fields)) eqn:F; [discriminate V|].
  apply orb_false_iff in F. destruct F as [F Fc].
  apply orb_false_iff in F. destruct F as [F Fd].
  apply orb_false_iff in F. destruct F as [Fn Fa].
  destruct (lookup "name" fields) as [name|] eqn:Ln; [|discriminate Fn].
  destruct (lookup "date" fields) as [dt|] eqn:Ld; [|discriminate Fd].
  cbn [stringOf] in V.
  destruct (toStringOf (numberToString E) dt) as [text|e] eqn:Dt;
    [|discriminate V].
  cbv zeta in V.
  assert (forall data w2,
             match lookup "amount" fields with
             | Some (JNum n) =>
                 if JS.leq0 n
                 then throw (Error "Invalid amount extracted from receipt.")
                 else ret (mkScanResult true (Some data) None)
             | _ => throw (Error "Invalid amount extracted from receipt.")
             end w2 = (Returned r, w1) ->
             w1 = w2
             /\ exists n, lookup "amount" fields = Some (JNum n)
                          /\ JS.falsy_number n = false /\ JS.leq0 n = false
                          /\ r = mkScanResult true (Some data) None) as Last.
  { intros data w2 R. unfold throw, ret in R.
    destruct (lookup "amount" fields) as [[| |n| | |]|] eqn:La;
      try discriminate R.
    destruct (JS.leq0 n) eqn:Le; [discriminate R|].
    inversion R; subst r w2. split; [reflexivity|]. exists n. auto. }
  assert (exists data,
             match lookup "amount" fields with
             | Some (JNum n) =>
                 if JS.leq0 n
                 then throw (Error "Invalid amount extracted from receipt.")
                 else ret (mkScanResult true (Some data) None)
             | _ => throw (Error "Invalid amount extracted from receipt.")
             end w = (Returned r, w1)
             /\ data
                = JObj
                    (let categorised :=
                       if categories_includes (lookup "category" fields)
                       then fields
                       else assign "category" (JStr "Other") fields in
                     if dateRegex_test text then categorised
                     else assign "date"
                            (JStr match isoDateOf E dt with
                                  | Some iso => iso
                                  | None => today E w
                                  end)
                            categorised)) as (data & R & D).
  { cbv zeta.
    destruct (categories_includes (lookup "category" fields));
      cbn [negb setProp] in V |- *;
      destruct (dateRegex_test text); cbn [negb option_map] in V |- *;
      try (eexists; split; [exact V | reflexivity]);
      destruct (isoDateOf E dt); cbn [setProp] in V;
      eexists; split; try exact V; reflexivity. }
  destruct (Last data w R) as (-> & n & La & Fz & Le & ->).
  split; [reflexivity|].
  exists fields, name, n, dt, text. rewrite D. repeat split; assumption.
Qed.

Lemma categorised_is_valid (fields : list (string * json)) :
  falsy (lookup "category" fields) = false ->
  exists c,
    lookup "category"
           (if categories_includes (lookup "category" fields) then fields
            else assign "category" (JStr "Other") fields)
    = Some (JStr c)
    /\ JS.array_includes Actions.validCategories c = true.
Proof.
  intros _. destruct (categories_includes (lookup "category" fields)) eqn:I.
  - destruct (includes_category _ I) as (c & -> & Ic). exists c. auto.
  - exists "Other". rewrite lookup_assign_same. split; reflexivity.
Qed.

(** Whenever the scan reports success, its data is the parsed response
    after the two repairs of the action and nothing else: the image was a
    [data:image/] URL, the response an object whose name is truthy, whose
    amount is a number above zero and whose category and date are truthy;
    the category is kept when it is one of the ten, else replaced by
    [Other], so that it is one that [createTransaction] accepts; the date is
    kept when its text has the shape [dddd-dd-dd], else replaced by the ISO
    day of the date it parses to, or by the day of the scan when it parses
    to none. *)
Theorem successful_scan_is_validated {W : Type} (E : Env W) (image : string)
        (w w1 : W) (r : ScanResult) :
  scanReceipt E image w = (Returned r, w1) ->
  success r = true ->
  JS.startsWith (list_ascii_of_string "data:image/")
                (list_ascii_of_string image) = true
  /\ exists part text fields0 fields name n date0 text0,
      base64ToGenerativePart image = Returned part
      /\ generateContent E part w = (Returned text, w1)
      /\ JSON_parse E (cleanText text) = Returned (JObj fields0)
      /\ lookup "name" fields0 = Some name /\ falsy (Some name) = false
      /\ lookup "amount" fields0 = Some (JNum n)
      /\ JS.falsy_number n = false /\ JS.leq0 n = false
      /\ lookup "date" fields0 = Some date0 /\ falsy (Some date0) = false
      /\ toStringOf (numberToString E) date0 = Returned text0
      /\ r = mkScanResult true (Some (JObj fields)) None
      /\ fields
         = (let categorised :=
              if categories_includes (lookup "category" fields0)
              then fields0
              else assign "category" (JStr "Other") fields0 in
            if dateRegex_test text0 then categorised
            else assign "date"
                   (JStr match isoDateOf E date0 with
                         | Some iso => iso
                         | None => today E w1
                         end)
                   categorised)
      /\ exists c,
          lookup "category" fields = Some (JStr c)
          /\ JS.array_includes Actions.validCategories c = true.
Proof.
  intros R S.
  assert (forall e w2, (Returned (onError e), w2) = (Returned r, w1) -> False)
    as Caught.
  { intros e w2 Eq. destruct (ResultShape.onError_failed e) as (msg & Em).
    rewrite Em in Eq. inversion Eq; subst r. discriminate S. }
  unfold scanReceipt, tryCatch, bind, lift, ret in R.
  destruct (match GEMINI_API_KEY E with
            | Some k => JS.falsy_string k
            | None => true
            end); [inversion R; subst r; discriminate S|].
  destruct (JS.falsy_string image); cbn [orb] in R;
    [inversion R; subst r; discriminate S|].
  destruct (JS.startsWith _ _) eqn:St; cbn [negb] in R;
    [|inversion R; subst r; discriminate S].
  split; [reflexivity|].
  destruct (base64ToGenerativePart image) as [part|e] eqn:P;
    [|exfalso; exact (Caught _ _ R)].
  destruct (generateContent E part w) as [[text|e] w2] eqn:G;
    [|exfalso; exact (Caught _ _ R)].
  destruct (JSON_parse E (cleanText text)) as [response|e] eqn:J;
    [|exfalso; exact (Caught _ _ R)].
  destruct (validate E response w2) as [[r'|e] w3] eqn:V;
    [|exfalso; exact (Caught _ _ R)].
  inversion R; subst r' w3.
  destruct (validate_success E response w2 w1 r V S)
    as (-> & fields0 & name & n & date0 & text0 & -> & Ln & Fn & La & Fz & Le
        & Fc & Ld & Fd & Dt & ->).
  exists part, text, fields0. eexists. exists name, n, date0, text0.
  repeat (split; [first [assumption | reflexivity]|]).
  cbv zeta.
  destruct (categorised_is_valid fields0 Fc) as (c & Lc & Ic).
  exists c. split; [|exact Ic].
  destruct (dateRegex_test text0); [exact Lc|].
  rewrite lookup_assign_other by discriminate. exact Lc.
Qed.

Lemma successful_scan_is_validated_witness :
  exists fields,
    data (mkScanResult true (Some (Examples.receipt (25 # 2) "Food")) None)
    = Some (JObj fields)
    /\ exists c, lookup "category" fields = Some (JStr c)
                 /\ JS.array_includes Actions.validCategories c = true.
Proof.
  destruct (successful_scan_is_validated
              (Examples.scanEnv (Examples.receipt (25 # 2) "Food"))
              Examples.image tt tt
              (mkScanResult true (Some (Examples.receipt (25 # 2) "Food")) None)
              eq_refl eq_refl)
    as (_ & part & text & fields0 & fields & name & n & date0 & text0 & _ & _
        & _ & _ & _ & _ & _ & _ & _ & _ & _ & R & _ & C).
  exists fields. split; [|exact C].
  inversion R. reflexivity.
Defined.

End ScanMore.

(* ===================================================================== *)
(** * Objects used as maps *)
(* ===================================================================== *)

Module JSObjectFacts.

Lemma get_set_same {V} (key : string) (v : V) (obj : JSObject.t V) :
  JSObject.get key (JSObject.set key v obj) = Some v.
Proof.
  induction obj as [|[k v'] r IH]; cbn.
  - rewrite String.eqb_refl. reflexivity.
  - destruct (String.eqb k key) eqn:E; cbn; rewrite E; [reflexivity | exact IH].
Qed.

Lemma get_set_other {V} (key key' : string) (v : V) (obj : JSObject.t V) :
  key <> key' ->
  JSObject.get key (JSObject.set key' v obj) = JSObject.get key obj.
Proof.
  intros N. induction obj as [|[k v'] r IH]; cbn.
  - destruct (String.eqb key' key) eqn:E; [|reflexivity].
    apply String.eqb_eq in E. congruence.
  - destruct (String.eqb k key') eqn:E; cbn.
    + apply String.eqb_eq in E. subst k.
      destruct (String.eqb key' key) eqn:E'; [|reflexivity].
      apply String.eqb_eq in E'. congruence.
    + destruct (String.eqb k key); [reflexivity | exact IH].
Qed.

Lemma get_set {V} (key key' : string) (v : V) (obj : JSObject.t V) :
  JSObject.get key (JSObject.set key' v obj)
  = if String.eqb key' key then Some v else JSObject.get key obj.
Proof.
  destruct (String.eqb key' key) eqn:E.
  - apply String.eqb_eq in E. subst key'. apply get_set_same.
  - apply get_set_other. intros ->. rewrite String.eqb_refl in E. discriminate E.
Qed.

Lemma get_none_keys {V} (key : string) (obj : JSObject.t V) :
  JSObject.get key obj = None <-> ~ In key (JSObject.keys obj).
Proof.
  induction obj as [|[k v] r IH]; cbn.
  - tauto.
  - destruct (String.eqb k key) eqn:E.
    + apply String.eqb_eq in E. split; [discriminate | tauto].
    + apply String.eqb_neq in E. rewrite IH. tauto.
Qed.

Lemma get_in {V} (key : string) (v : V) (obj : JSObject.t V) :
  JSObject.get key obj = Some v -> In (key, v) obj.
Proof.
  induction obj as [|[k v'] r IH]; cbn; [discriminate|].
  destruct (String.eqb k key) eqn:E.
  - apply String.eqb_eq in E. intros [= ->]. left. congruence.
  - intros G. right. exact (IH G).
Qed.

Lemma in_get {V} (key : string) (v : V) (obj : JSObject.t V) :
  NoDup (JSObject.keys obj) -> In (key, v) obj -> JSObject.get key obj = Some v.
Proof.
  induction obj as [|[k v'] r IH]; cbn; [tauto|].
  intros D [I|I].
  - inversion I; subst. rewrite String.eqb_refl. reflexivity.
  - inversion D as [|? ? N D']; subst.
    destruct (String.eqb k key) eqn:E.
    + apply String.eqb_eq in E. subst k. exfalso. apply N.
      exact (in_map fst _ _ I).
    + exact (IH D' I).
Qed.

Lemma keys_set_present {V} (key : string) (v : V) (obj : JSObject.t V) :
  JSObject.get key obj <> None ->
  JSObject.keys (JSObject.set key v obj) = JSObject.keys obj.
Proof.
  induction obj as [|[k v'] r IH]; cbn; [congruence|].
  destruct (String.eqb k key) eqn:E; cbn; [reflexivity|].
  intros G. f_equal. exact (IH G).
Qed.

Lemma keys_set_absent {V} (key : string) (v : V) (obj : JSObject.t V) :
  JSObject.get key obj = None ->
  JSObject.keys (JSObject.set key v obj) = (JSObject.keys obj ++ [key])%list.
Proof.
  induction obj as [|[k v'] r IH]; cbn; [reflexivity|].
  destruct (String.eqb k key) eqn:E; cbn; [discriminate|].
  intros G. f_equal. exact (IH G).
Qed.

Lemma keys_set_nodup {V} (key : string) (v : V) (obj : JSObject.t V) :
  NoDup (JSObject.keys obj) -> NoDup (JSObject.keys (JSObject.set key v obj)).
Proof.
  intros D. destruct (JSObject.get key obj) eqn:G.
  - rewrite keys_set_present; [exact D | congruence].
  - rewrite keys_set_absent by exact G.
    apply NoDup_app; [exact D | repeat constructor; intros [] |].
    intros x Ix [<-|[]]. apply get_none_keys in G. exact (G Ix).
Qed.

Lemma keys_set_in {V} (key key' : string) (v : V) (obj : JSObject.t V) :
  In key (JSObject.keys (JSObject.set key' v obj))
  <-> key = key' \/ In key (JSObject.keys obj).
Proof.
  destruct (JSObject.get key' obj) eqn:G.
  - rewrite keys_set_present by congruence. split; [tauto|].
    intros [->|I]; [|exact I].
    destruct (in_dec string_dec key' (JSObject.keys obj)) as [I|N]; [exact I|].
    apply get_none_keys in N. congruence.
  - rewrite keys_set_absent by exact G. rewrite in_app_iff. cbn.
    intuition congruence.
Qed.

End JSObjectFacts.

(* ===================================================================== *)
(** * Category breakdown and top expenses of the reports page *)
(* ===================================================================== *)

Module BreakdownFacts.
Import JSObjectFacts Breakdown.
Local Open Scope Q_scope.

Lemma sumQ_app (a b : list Q) :
  Spec.sumQ (a ++ b) == Spec.sumQ a + Spec.sumQ b.
Proof.
  unfold Spec.sumQ. induction a as [|x a IH]; cbn [app fold_right].
  - ring.
  - rewrite IH. ring.
Qed.

(** ** The stable descending sort *)

Section Sorting.

Context {A : Type}.
Variable value : A -> Q.

Lemma insertDesc_perm (x : A) (l : list A) :
  Permutation (insertDesc value x l) (x :: l).
Proof.
  induction l as [|y r IH]; cbn; [reflexivity|].
  destruct (Qle_bool (value y) (value x)); [reflexivity|].
  rewrite IH. apply perm_swap.
Qed.

Lemma sortDesc_perm (l : list A) : Permutation (sortDesc value l) l.
Proof.
  induction l as [|x l IH]; cbn; [reflexivity|].
  fold (sortDesc value l). rewrite insertDesc_perm. constructor. exact IH.
Qed.

Lemma insertDesc_sorted (x : A) (l : list A) :
  Terms.descendingBy value l -> Terms.descendingBy value (insertDesc value x l).
Proof.
  unfold Terms.descendingBy.
  induction l as [|y r IH]; intros S; cbn.
  - repeat constructor.
  - inversion S as [|? ? Sr Fr]; subst.
    destruct (Qle_bool (value y) (value x)) eqn:E.
    + apply Qle_bool_iff in E. constructor; [exact S|].
      constructor; [exact E|].
      eapply Forall_impl; [|exact Fr]. intros b Hb. cbn in Hb.
      eapply Qle_trans; eassumption.
    + constructor; [exact (IH Sr)|].
      assert (value x <= value y) as Lx.
      { apply Qlt_le_weak, Qnot_le_lt. intros L.
        apply Qle_bool_iff in L. congruence. }
      apply Forall_forall. intros b Ib.
      apply (Permutation_in _ (insertDesc_perm x r)) in Ib.
      destruct Ib as [<-|Ib]; [exact Lx|].
      exact (proj1 (Forall_forall _ _) Fr b Ib).
Qed.

Lemma sortDesc_sorted (l : list A) : Terms.descendingBy value (sortDesc value l).
Proof.
  induction l as [|x l IH]; cbn.
  - constructor.
  - apply insertDesc_sorted. exact IH.
Qed.

Lemma descending_split (l1 l2 : list A) :
  Terms.descendingBy value (l1 ++ l2) ->
  Terms.descendingBy value l1
  /\ forall a b, In a l1 -> In b l2 -> value b <= value a.
Proof.
  unfold Terms.descendingBy. induction l1 as [|x l1 IH]; cbn; intros S.
  - split; [constructor | tauto].
  - inversion S as [|? ? S' F]; subst. destruct (IH S') as [S1 Le].
    split.
    + constructor; [exact S1|].
      apply Forall_forall. intros b Ib.
      apply (proj1 (Forall_forall _ _) F). apply in_or_app. left. exact Ib.
    + intros a b [<-|Ia] Ib; [|exact (Le a b Ia Ib)].
      apply (proj1 (Forall_forall _ _) F). apply in_or_app. right. exact Ib.
Qed.

End Sorting.

(** ** The sums per category *)

Lemma grouped_snoc (txs : list Transaction.t) (t : Transaction.t) :
  grouped (txs ++ [t]) = addAmount (grouped txs) t.
Proof. unfold grouped. rewrite fold_left_app. reflexivity. Qed.

Lemma addAmount_get_same (acc : JSObject.t Q) (t : Transaction.t) :
  exists v,
    JSObject.get (Transaction.category t) (addAmount acc t) = Some v
    /\ v == match JSObject.get (Transaction.category t) acc with
            | Some v0 => v0
            | None => 0
            end + Transaction.amount t.
Proof.
  unfold addAmount. cbv zeta.
  destruct (JSObject.get (Transaction.category t) acc) as [v0|] eqn:G.
  - destruct (Qeq_bool v0 0) eqn:Z.
    + rewrite get_set_same. eexists. rewrite get_set_same.
      split; [reflexivity|]. apply Qeq_bool_iff in Z. rewrite Z. reflexivity.
    + rewrite G. eexists. rewrite get_set_same. split; reflexivity.
  - rewrite get_set_same. eexists. rewrite get_set_same. split; reflexivity.
Qed.

Lemma addAmount_get_other (acc : JSObject.t Q) (t : Transaction.t)
      (key : string) :
  key <> Transaction.category t ->
  JSObject.get key (addAmount acc t) = JSObject.get key acc.
Proof.
  intros N. unfold addAmount. cbv zeta.
  destruct (JSObject.get (Transaction.category t) acc) as [v0|] eqn:G.
  - destruct (Qeq_bool v0 0).
    + rewrite get_set_same, !get_set_other by exact N. reflexivity.
    + rewrite G, get_set_other by exact N. reflexivity.
  - rewrite get_set_same, !get_set_other by exact N. reflexivity.
Qed.

Lemma addAmount_nodup (acc : JSObject.t Q) (t : Transaction.t) :
  NoDup (JSObject.keys acc) -> NoDup (JSObject.keys (addAmount acc t)).
Proof.
  intros D. unfold addAmount. cbv zeta.
  destruct (JSObject.get (Transaction.category t) acc) as [v0|] eqn:G.
  - destruct (Qeq_bool v0 0).
    + rewrite get_set_same. auto using keys_set_nodup.
    + rewrite G. auto using keys_set_nodup.
  - rewrite get_set_same. auto using keys_set_nodup.
Qed.

Lemma grouped_keys_nodup (txs : list Transaction.t) :
  NoDup (JSObject.keys (grouped txs)).
Proof.
  induction txs as [|t txs IH] using rev_ind.
  - constructor.
  - rewrite grouped_snoc. apply addAmount_nodup. exact IH.
Qed.

Lemma amountOfCategory_snoc (key : string) (txs : list Transaction.t)
      (t : Transaction.t) :
  Terms.amountOfCategory key (txs ++ [t])
  == Terms.amountOfCategory key txs
     + if String.eqb (Transaction.category t) key
       then Transaction.amount t else 0.
Proof.
  unfold Terms.amountOfCategory. rewrite filter_app, map_app, sumQ_app.
  cbn [filter]. destruct (String.eqb (Transaction.category t) key);
    unfold Spec.sumQ; cbn; ring.
Qed.

Lemma amountOfCategory_absent (key : string) (txs : list Transaction.t) :
  (forall t, In t txs -> Transaction.category t <> key) ->
  Terms.amountOfCategory key txs == 0.
Proof.
  intros N. unfold Terms.amountOfCategory.
  replace (filter _ txs) with (@nil Transaction.t); [reflexivity|].
  symmetry. induction txs as [|t txs IH]; cbn; [reflexivity|].
  destruct (String.eqb (Transaction.category t) key) eqn:E.
  - apply String.eqb_eq in E. exfalso. exact (N t (or_introl eq_refl) E).
  - apply IH. intros t' I. apply N. right. exact I.
Qed.

(** The object built by the reducer holds, under each category that occurs,
    the sum of the amounts of that category. *)
Lemma grouped_get (txs : list Transaction.t) (key : string) :
  match JSObject.get key (grouped txs) with
  | Some v =>
      v == Terms.amountOfCategory key txs
      /\ exists t, In t txs /\ Transaction.category t = key
  | None => forall t, In t txs -> Transaction.category t <> key
  end.
Proof.
  induction txs as [|t txs IH] using rev_ind.
  - cbn. tauto.
  - rewrite grouped_snoc.
    destruct (string_dec key (Transaction.category t)) as [->|N].
    + destruct (addAmount_get_same (grouped txs) t) as (v & -> & Ev).
      split.
      * rewrite Ev, amountOfCategory_snoc, String.eqb_refl.
        destruct (JSObject.get (Transaction.category t) (grouped txs)).
        -- rewrite (proj1 IH). reflexivity.
        -- rewrite (amountOfCategory_absent _ _ IH). reflexivity.
      * exists t. split; [|reflexivity]. apply in_or_app. right. left.
        reflexivity.
    + rewrite (addAmount_get_other _ _ _ N).
      destruct (JSObject.get key (grouped txs)).
      * destruct IH as (Ev & t' & I & C). split.
        -- rewrite Ev, amountOfCategory_snoc.
           destruct (String.eqb (Transaction.category t) key) eqn:E.
           ++ apply String.eqb_eq in E. congruence.
           ++ ring.
        -- exists t'. split; [|exact C]. apply in_or_app. left. exact I.
      * intros t' I. apply in_app_or in I. destruct I as [I|[<-|[]]].
        -- exact (IH t' I).
        -- congruence.
Qed.

Lemma category_datumOf (entry : string * Q) :
  category (datumOf entry) = fst entry.
Proof. destruct entry. reflexivity. Qed.


(** The entries of the category breakdown come in descending order of
    value; the sort only reorders them: they are the entries of the object
    of sums, one for each of its keys. *)
Theorem category_breakdown_sorted (txs : list Transaction.t) :
  Terms.descendingBy value (categoryData txs)
  /\ Permutation (categoryData txs) (map datumOf (grouped txs))
  /\ map category (map datumOf (grouped txs)) = JSObject.keys (grouped txs).
Proof.
  unfold categoryData. split; [apply sortDesc_sorted|]. split.
  - apply sortDesc_perm.
  - rewrite map_map. apply map_ext. exact category_datumOf.
Qed.

(** The top expenses are the ten largest amounts, largest first: at most
    ten rows, all of them when there are fewer, taken from the given rows,
    in descending order, and no row left out has a larger amount than a row
    kept. *)
Theorem top_expenses_are_the_largest (txs : list Transaction.t) :
  List.length (topExpenses txs) = Nat.min 10 (List.length txs)
  /\ Terms.descendingBy Transaction.amount (topExpenses txs)
  /\ exists rest,
      Permutation txs (topExpenses txs ++ rest)
      /\ forall a b, In a (topExpenses txs) -> In b rest ->
                     Transaction.amount b <= Transaction.amount a.
Proof.
  unfold topExpenses.
  pose proof (sortDesc_perm Transaction.amount txs) as P.
  pose proof (sortDesc_sorted Transaction.amount txs) as S.
  rewrite <- (firstn_skipn 10 (sortDesc Transaction.amount txs)) in S.
  destruct (descending_split _ _ _ S) as [S1 Le].
  repeat split.
  - rewrite length_firstn, (Permutation_length P). reflexivity.
  - exact S1.
  - exists (skipn 10 (sortDesc Transaction.amount txs)).
    rewrite firstn_skipn. split; [symmetry; exact P | exact Le].
Qed.

Lemma datumOf_known (c : string) (total : Q) :
  In c Actions.validCategories ->
  exists l colour,
    In (c, l) categoryConfig /\ label (datumOf (c, total)) = l
    /\ fill (datumOf (c, total)) = Some colour /\ In colour COLORS.
Proof.
  intros I. cbn in I.
  repeat (destruct I as [<-|I];
          [eexists _, _; cbn; repeat split; auto 20|]).
  destruct I.
Qed.

Lemma datumOf_unknown (c : string) (total : Q) :
  ~ In c Actions.validCategories ->
  label (datumOf (c, total)) = c /\ fill (datumOf (c, total)) = None.
Proof.
  intros N. unfold datumOf, categoryConfig.
  cbn [find findIndex fst option_map].
  repeat match goal with
         | |- context [ String.eqb ?k c ] =>
             destruct (String.eqb_spec k c) as [<-|_];
             [exfalso; apply N; cbn; tauto|]
         end.
  cbn. split; reflexivity.
Qed.

(** Label and colour of an entry of the breakdown: a category of the ten
    configured ones gets the label and a colour of the configuration; any
    other category is shown under its own name and gets no colour. *)
Theorem category_breakdown_labels (txs : list Transaction.t)
        (d : CategoryDatum) :
  In d (categoryData txs) ->
  (In (category d) Actions.validCategories ->
   exists colour,
     In (category d, label d) categoryConfig
     /\ fill d = Some colour /\ In colour COLORS)
  /\ (~ In (category d) Actions.validCategories ->
      label d = category d /\ fill d = None).
Proof.
  unfold categoryData. intros I.
  apply (Permutation_in _ (sortDesc_perm value _)) in I.
  apply in_map_iff in I. destruct I as ([c v] & <- & _).
  change (category (datumOf (c, v))) with c. split.
  - intros K. destruct (datumOf_known c v K) as (l & colour & Ic & <- & F & Ico).
    exists colour. auto.
  - apply datumOf_unknown.
Qed.

Lemma category_breakdown_labels_witness :
  label (datumOf ("BadHabits"%string, 5)) = "Bad Habits"%string.
Proof.
  destruct (proj1 (category_breakdown_labels
                     [Transaction.mk "tx9" "Cigars" 5 "BadHabits"
                                     (Examples.nov 3) (Examples.nov 3)
                                     (Examples.nov 3) "user_1"]
                     (datumOf ("BadHabits"%string, 5))
                     (or_introl eq_refl)))
    as (colour & I & _).
  - cbn. tauto.
  - cbn in I. repeat (destruct I as [I|I]; [inversion I; try reflexivity|]).
    destruct I.
Defined.

End BreakdownFacts.

(* ===================================================================== *)
(** * Grouping by day and search of the records page *)
(* ===================================================================== *)

Module RecordsFacts.
Import JSObjectFacts Records.

Lemma set_absent {V} (key : string) (v : V) (obj : JSObject.t V) :
  JSObject.get key obj = None -> JSObject.set key v obj = (obj ++ [(key, v)])%list.
Proof.
  induction obj as [|[k v'] r IH]; cbn; [reflexivity|].
  destruct (String.eqb k key); [discriminate|].
  intros G. rewrite (IH G). reflexivity.
Qed.

Lemma get_app_absent {V} (key : string) (a b : JSObject.t V) :
  JSObject.get key a = None -> JSObject.get key (a ++ b) = JSObject.get key b.
Proof.
  induction a as [|[k v] r IH]; cbn; [reflexivity|].
  destruct (String.eqb k key); [discriminate | exact IH].
Qed.

Section Grouping.

Variable tz : Z.

Local Abbreviation dayOf :=
  (fun t : Transaction.t => format_yyyy_MM_dd tz (Transaction.date t)).

Lemma groupedTransactions_snoc (txs : list Transaction.t) (t : Transaction.t) :
  groupedTransactions tz (txs ++ [t])
  = addToGroup tz (groupedTransactions tz txs) t.
Proof. unfold groupedTransactions. rewrite fold_left_app. reflexivity. Qed.

Lemma addToGroup_get (groups : JSObject.t (list Transaction.t))
      (t : Transaction.t) (key : string) :
  JSObject.get key (addToGroup tz groups t)
  = if String.eqb (dayOf t) key
    then Some (match JSObject.get key groups with
               | Some g => g
               | None => []
               end ++ [t])%list
    else JSObject.get key groups.
Proof.
  unfold addToGroup. cbv zeta.
  destruct (String.eqb (dayOf t) key) eqn:E.
  - apply String.eqb_eq in E. rewrite E.
    destruct (JSObject.get key groups) as [g|] eqn:G.
    + rewrite G. apply get_set_same.
    + rewrite get_set_same. rewrite get_set_same. reflexivity.
  - assert (key <> dayOf t) as N
        by (intros ->; rewrite String.eqb_refl in E; discriminate E).
    destruct (JSObject.get (dayOf t) groups) as [g|] eqn:G.
    + rewrite G. apply get_set_other. exact N.
    + rewrite get_set_same, !get_set_other by exact N. reflexivity.
Qed.

Lemma addToGroup_keys (groups : JSObject.t (list Transaction.t))
      (t : Transaction.t) :
  JSObject.keys (addToGroup tz groups t)
  = (JSObject.keys groups
     ++ if in_dec string_dec (dayOf t) (JSObject.keys groups) then []
        else [dayOf t])%list.
Proof.
  unfold addToGroup. cbv zeta.
  destruct (JSObject.get (dayOf t) groups) as [g|] eqn:G.
  - rewrite G, keys_set_present by congruence.
    destruct (in_dec _ _ _) as [I|N]; [rewrite app_nil_r; reflexivity|].
    apply get_none_keys in N. congruence.
  - rewrite get_set_same. rewrite keys_set_present
      by (rewrite get_set_same; discriminate).
    rewrite keys_set_absent by exact G.
    destruct (in_dec _ _ _) as [I|N]; [|reflexivity].
    apply get_none_keys in G. contradiction.
Qed.

Lemma firstOccurrences_in (keys : list string) (key : string) :
  In key (Terms.firstOccurrences keys) <-> In key keys.
Proof.
  induction keys as [|k r IH]; cbn; [tauto|].
  rewrite filter_In, IH, negb_true_iff, String.eqb_neq.
  destruct (string_dec k key); intuition congruence.
Qed.

Lemma firstOccurrences_snoc (keys : list string) (key : string) :
  Terms.firstOccurrences (keys ++ [key])
  = (Terms.firstOccurrences keys
     ++ if in_dec string_dec key (Terms.firstOccurrences keys) then []
        else [key])%list.
Proof.
  induction keys as [|k r IH]; cbn [app Terms.firstOccurrences filter].
  - reflexivity.
  - rewrite IH, filter_app. cbn [app]. f_equal. f_equal.
    destruct (in_dec string_dec key (Terms.firstOccurrences r)) as [I|N].
    + destruct (in_dec _ _ _) as [I'|N']; [reflexivity|].
      exfalso. apply N'. cbn.
      destruct (string_dec k key) as [E|E]; [left; exact E|].
      right. apply filter_In. split; [exact I|].
      apply negb_true_iff, String.eqb_neq. congruence.
    + cbn [filter]. destruct (String.eqb key k) eqn:E; cbn [negb].
      * apply String.eqb_eq in E. subst k.
        destruct (in_dec _ _ _) as [I'|N']; [reflexivity|].
        exfalso. apply N'. left. reflexivity.
      * apply String.eqb_neq in E.
        destruct (in_dec _ _ _) as [[I'|I']|N']; [congruence| |reflexivity].
        apply filter_In in I'. tauto.
Qed.

Lemma groupedTransactions_keys (txs : list Transaction.t) :
  JSObject.keys (groupedTransactions tz txs)
  = Terms.firstOccurrences (map dayOf txs).
Proof.
  induction txs as [|t txs IH] using rev_ind; [reflexivity|].
  rewrite groupedTransactions_snoc, addToGroup_keys, map_app.
  cbn [map]. rewrite firstOccurrences_snoc, IH. reflexivity.
Qed.

Lemma groupedTransactions_get (txs : list Transaction.t) (key : string) :
  JSObject.get key (groupedTransactions tz txs)
  = match filter (fun t => String.eqb (dayOf t) key) txs with
    | [] => None
    | t :: l => Some (t :: l)
    end.
Proof.
  induction txs as [|t txs IH] using rev_ind; [reflexivity|].
  rewrite groupedTransactions_snoc, addToGroup_get, filter_app, IH.
  cbn [filter]. destruct (String.eqb (dayOf t) key).
  - destruct (filter _ txs); reflexivity.
  - rewrite app_nil_r. reflexivity.
Qed.

(** Grouping by day: the days come in the order of their first
    transaction, and the group of a day holds exactly the transactions of
    that day, in their given order; a day without transactions has no
    group. *)
Theorem grouping_by_day (txs : list Transaction.t) :
  JSObject.keys (groupedTransactions tz txs)
  = Terms.firstOccurrences
      (map (fun t => format_yyyy_MM_dd tz (Transaction.date t)) txs)
  /\ forall key,
      JSObject.get key (groupedTransactions tz txs)
      = match filter (fun t => String.eqb
                                 (format_yyyy_MM_dd tz (Transaction.date t)) key)
                     txs with
        | [] => None
        | t :: l => Some (t :: l)
        end.
Proof.
  split; [apply groupedTransactions_keys|].
  intros key. apply groupedTransactions_get.
Qed.

End Grouping.

(** ** Search *)

Section Search.

Variable searchQuery : string.

Local Abbreviation keep :=
  (fun entry : string * list Transaction.t =>
     (0 <? List.length (filter (matchesQuery searchQuery) (snd entry)))%nat).

Local Abbreviation step :=
  (fun (filtered : JSObject.t (list Transaction.t))
       (entry : string * list Transaction.t) =>
     let (dateKey, transactions) := entry in
     let filteredTransactions :=
       filter (matchesQuery searchQuery) transactions in
     if (0 <? List.length filteredTransactions)%nat
     then JSObject.set dateKey filteredTransactions filtered
     else filtered).

Lemma filteredGroups_from (groups filtered : JSObject.t (list Transaction.t)) :
  NoDup (JSObject.keys groups) ->
  (forall key, In key (JSObject.keys groups) ->
               JSObject.get key filtered = None) ->
  fold_left step groups filtered
  = (filtered
     ++ map (fun entry => (fst entry,
                           filter (matchesQuery searchQuery) (snd entry)))
            (filter keep groups))%list.
Proof.
  revert filtered. induction groups as [|[k l] r IH]; intros filtered D A.
  - cbn. rewrite app_nil_r. reflexivity.
  - inversion D as [|? ? N D']; subst. cbn [fold_left filter snd].
    destruct (0 <? List.length (filter (matchesQuery searchQuery) l))%nat.
    + rewrite IH; [|exact D'|].
      * rewrite set_absent by (apply A; left; reflexivity).
        rewrite <- app_assoc. reflexivity.
      * intros key I. rewrite get_set_other.
        -- apply A. right. exact I.
        -- intros ->. exact (N I).
    + apply IH; [exact D'|]. intros key I. apply A. right. exact I.
Qed.

Lemma filteredGroups_entries (groups : JSObject.t (list Transaction.t)) :
  NoDup (JSObject.keys groups) ->
  filteredGroups searchQuery groups
  = map (fun entry => (fst entry,
                       filter (matchesQuery searchQuery) (snd entry)))
        (filter keep groups).
Proof.
  intros D. unfold filteredGroups.
  exact (filteredGroups_from groups [] D (fun _ _ => eq_refl)).
Qed.

Lemma get_filtered (groups : JSObject.t (list Transaction.t)) (key : string) :
  NoDup (JSObject.keys groups) ->
  JSObject.get key
    (map (fun entry => (fst entry,
                        filter (matchesQuery searchQuery) (snd entry)))
         (filter keep groups))
  = match JSObject.get key groups with
    | Some l =>
        match filter (matchesQuery searchQuery) l with
        | [] => None
        | t :: l' => Some (t :: l')
        end
    | None => None
    end.
Proof.
  induction groups as [|[k l] r IH]; intros D;
    cbn [filter map JSObject.get snd fst]; [reflexivity|].
  inversion D as [|? ? N D']; subst. specialize (IH D').
  destruct (String.eqb k key) eqn:E.
  - destruct (filter (matchesQuery searchQuery) l) as [|t l'] eqn:F.
    + change (0 <? List.length (@nil Transaction.t))%nat with false.
      cbn iota. rewrite IH. apply String.eqb_eq in E. subst k.
      apply get_none_keys in N. rewrite N. reflexivity.
    + change (0 <? List.length (t :: l'))%nat with true.
      cbn [map JSObject.get fst snd]. rewrite E, F. reflexivity.
  - destruct (0 <? _)%nat; cbn [map JSObject.get fst]; rewrite ?E; exact IH.
Qed.

End Search.

Lemma grouped_nodup (tz : Z) (txs : list Transaction.t) :
  NoDup (JSObject.keys (groupedTransactions tz txs)).
Proof.
  induction txs as [|t txs IH] using rev_ind; [constructor|].
  rewrite groupedTransactions_snoc, addToGroup_keys.
  destruct (in_dec _ _ _) as [I|N]; [rewrite app_nil_r; exact IH|].
  apply NoDup_app; [exact IH | repeat constructor; intros [] |].
  intros x Ix [<-|[]]. exact (N Ix).
Qed.

Lemma filter_filter {A} (f g : A -> bool) (l : list A) :
  filter f (filter g l) = filter (fun x => g x && f x) l.
Proof.
  induction l as [|x l IH]; cbn; [reflexivity|].
  destruct (g x); cbn; [destruct (f x)|]; rewrite IH; reflexivity.
Qed.

(** Search over the groups: under each day remain exactly the transactions
    of that day whose name or category contains the query, letter case
    apart, in their order; a day where nothing matches has no group. *)
Theorem search_keeps_matching_rows (tz : Z) (searchQuery : string)
        (txs : list Transaction.t) (key : string) :
  JSObject.get key (filteredGroups searchQuery (groupedTransactions tz txs))
  = match filter (fun t => String.eqb
                             (format_yyyy_MM_dd tz (Transaction.date t)) key
                           && matchesQuery searchQuery t) txs with
    | [] => None
    | t :: l => Some (t :: l)
    end.
Proof.
  rewrite filteredGroups_entries by apply grouped_nodup.
  rewrite get_filtered by apply grouped_nodup.
  rewrite groupedTransactions_get, <- filter_filter.
  destruct (filter (fun t => String.eqb _ key) txs); reflexivity.
Qed.

Lemma includes_empty (s : string) : JS.includes s "" = true.
Proof.
  unfold JS.includes. destruct (list_ascii_of_string s); reflexivity.
Qed.

Lemma matchesQuery_empty (t : Transaction.t) : matchesQuery "" t = true.
Proof.
  unfold matchesQuery. change (toLowerCase "") with ""%string.
  rewrite includes_empty. reflexivity.
Qed.

(** With the empty query the search keeps every group as it is. *)
Theorem empty_search_keeps_all (tz : Z) (txs : list Transaction.t) :
  filteredGroups "" (groupedTransactions tz txs) = groupedTransactions tz txs.
Proof.
  rewrite filteredGroups_entries by apply grouped_nodup.
  pose proof (groupedTransactions_get tz txs) as G.
  pose proof (grouped_nodup tz txs) as D.
  assert (forall key l, In (key, l) (groupedTransactions tz txs) -> l <> [])
    as NE.
  { intros key l I. apply (in_get _ _ _ D) in I. rewrite G in I.
    destruct (filter _ txs); [discriminate I|]. inversion I. discriminate. }
  clear G D. induction (groupedTransactions tz txs) as [|[k l] r IH];
    [reflexivity|].
  assert (filter (matchesQuery "") l = l) as F.
  { clear. induction l as [|t l IH]; cbn; [reflexivity|].
    rewrite matchesQuery_empty, IH. reflexivity. }
  cbn [filter snd]. rewrite F.
  destruct l as [|t l]; [exfalso; exact (NE k [] (or_introl eq_refl) eq_refl)|].
  change (0 <? List.length (t :: l))%nat with true.
  cbn [map fst snd]. rewrite F, IH; [reflexivity|].
  intros key l' I. apply (NE key). right. exact I.
Qed.

End RecordsFacts.

(* ===================================================================== *)
(** * The client forms in front of the service *)
(* ===================================================================== *)

Module FormsFacts.
Import Effect.

Lemma handleSubmit_some (formData data : TransactionFormData.t) :
  Forms.handleSubmit formData = Some data ->
  data = formData
  /\ JS.trim (TransactionFormData.name formData) <> ""%string
  /\ TransactionFormData.amount formData <> ""%string.
Proof.
  unfold Forms.handleSubmit.
  destruct (JS.falsy_string (JS.trim _) || JS.falsy_string _) eqn:G;
    [discriminate|].
  apply orb_false_iff in G. destruct G as [Gn Ga].
  intros [= <-]. split; [reflexivity|].
  split; intros E; rewrite E in *; discriminate.
Qed.

Lemma toDecimal_nonneg (q : Q) : (0 < q)%Q -> (0 <= Store.toDecimal q)%Q.
Proof.
  intros P. unfold Store.toDecimal.
  destruct ((Qnum q * 10 ^ 30) mod Z.pos (Qden q) =? 0)%Z;
    [apply Qlt_le_weak, P|].
  assert (0 < Qnum q)%Z as N
      by (unfold Qlt in P; cbn in P; lia).
  unfold Qle. cbn [Qnum Qden]. rewrite Z.mul_1_r.
  change (0 * Z.pos (10 ^ 30))%Z with 0%Z.
  rewrite Z.sgn_pos by lia. rewrite Z.mul_1_l.
  apply Z.div_pos; lia.
Qed.

Lemma checked_amount (data : TransactionData.t) (q : Q) :
  Store.checkData data = inr q ->
  JS.leq0 (TransactionData.amount data) = false ->
  (0 <= q)%Q /\ Store.fitsDecimal q = true.
Proof.
  unfold Store.checkData.
  destruct (TransactionData.amount data) as [|neg|q']; try discriminate.
  destruct (JS.array_includes _ _); [|discriminate].
  destruct (Store.fitsDecimal (Store.toDecimal q')) eqn:F; [|discriminate].
  intros [= <-] L. split; [|exact F].
  apply toDecimal_nonneg, StoreFacts.Qle_bool_false. exact L.
Qed.

Lemma createTransaction_writes (w : Store.World)
      (data : TransactionFormData.t) :
  Terms.succeeded (fst (Store.createTransaction data w)) = true ->
  exists row,
    Store.transactions (snd (Store.createTransaction data w))
    = (Store.transactions w ++ [row])%list
    /\ Transaction.name row = JS.trim (TransactionFormData.name data)
    /\ (0 <= Transaction.amount row)%Q
    /\ Store.fitsDecimal (Transaction.amount row) = true.
Proof.
  unfold Store.createTransaction, Actions.createTransaction.
  unfold tryCatch, bind, ret.
  cbn [Collab.auth Collab.transaction_create Collab.revalidatePath
       Store.collaborators].
  unfold Store.auth.
  destruct (Store.session w) as [uid|]; cbn [Actions.noUser Actions.idOf];
    [|cbn; discriminate].
  destruct (JS.falsy_string uid); [cbn; discriminate|].
  destruct (Actions.ensureUser Store.collaborators uid w) as [[u|e] w1] eqn:E;
    destruct (ServiceFacts.ensureUser_keeps uid w w1 _ E) as (Tx & Rv);
    [|cbn; discriminate].
  destruct (JS.isNaN _ || JS.leq0 _) eqn:A; [cbn; discriminate|].
  apply orb_false_iff in A. destruct A as [_ A].
  destruct (negb _); [cbn; discriminate|].
  unfold Store.transaction_create.
  destruct (Store.checkData _) as [e|q] eqn:C; [cbn; discriminate|].
  cbn [TransactionData.userId Actions.idOf].
  destruct (Store.hasUser _ _); [|cbn; discriminate].
  intros _. cbn. eexists. rewrite Tx. split; [reflexivity|].
  split; [reflexivity|]. exact (checked_amount _ _ C A).
Qed.

Lemma updateTransaction_writes (w : Store.World) (id : string)
      (data : TransactionFormData.t) :
  Terms.succeeded (fst (Store.updateTransaction id data w)) = true ->
  exists row,
    In row (Store.transactions (snd (Store.updateTransaction id data w)))
    /\ Transaction.id row = id
    /\ Transaction.name row = JS.trim (TransactionFormData.name data)
    /\ (0 <= Transaction.amount row)%Q
    /\ Store.fitsDecimal (Transaction.amount row) = true.
Proof.
  unfold Store.updateTransaction, Actions.updateTransaction.
  unfold tryCatch, bind, ret.
  cbn [Collab.auth Collab.transaction_update Collab.revalidatePath
       Store.collaborators].
  unfold Store.auth.
  destruct (Store.session w) as [uid|]; cbn [Actions.noUser Actions.idOf];
    [|cbn; discriminate].
  destruct (JS.falsy_string uid); [cbn; discriminate|].
  destruct (JS.isNaN _ || JS.leq0 _) eqn:A; [cbn; discriminate|].
  apply orb_false_iff in A. destruct A as [_ A].
  unfold Store.transaction_update.
  destruct (Store.checkData _) as [e|q] eqn:C; [cbn; discriminate|].
  destruct (find _ (Store.transactions w)) as [old|] eqn:F; [|cbn; discriminate].
  intros _. cbn. eexists. split.
  - apply find_some in F. destruct F as [I M].
    apply in_map_iff. exists old. rewrite M. split; [reflexivity | exact I].
  - split; [reflexivity|]. split; [reflexivity|].
    exact (checked_amount _ _ C A).
Qed.

(** A form that the modal hands on is stored with a name: when
    [createTransaction] or [updateTransaction] accepts what [handleSubmit]
    passes, the row written carries the trimmed name of the form, which is
    not empty.  Its amount is the one of the form rounded to the column: not
    negative (an amount below half of 10^-30 is stored as 0) and below
    10^35. *)
Theorem submitted_forms_are_named (formData data : TransactionFormData.t)
        (w : Store.World) (id : string) :
  Forms.handleSubmit formData = Some data ->
  (Terms.succeeded (fst (Store.createTransaction data w)) = true ->
   exists row,
     Store.transactions (snd (Store.createTransaction data w))
     = (Store.transactions w ++ [row])%list
     /\ Transaction.name row = JS.trim (TransactionFormData.name formData)
     /\ Transaction.name row <> ""%string
     /\ (0 <= Transaction.amount row)%Q
     /\ Store.fitsDecimal (Transaction.amount row) = true)
  /\ (Terms.succeeded (fst (Store.updateTransaction id data w)) = true ->
      exists row,
        In row (Store.transactions (snd (Store.updateTransaction id data w)))
        /\ Transaction.id row = id
        /\ Transaction.name row = JS.trim (TransactionFormData.name formData)
        /\ Transaction.name row <> ""%string
        /\ (0 <= Transaction.amount row)%Q
        /\ Store.fitsDecimal (Transaction.amount row) = true).
Proof.
  intros H. destruct (handleSubmit_some _ _ H) as (-> & Name & _). split.
  - intros S. destruct (createTransaction_writes w formData S)
      as (row & Tx & N & A & B).
    exists row. rewrite N. auto.
  - intros S. destruct (updateTransaction_writes w id formData S)
      as (row & I & Id & N & A & B).
    exists row. rewrite N. auto 6.
Qed.

Lemma submitted_forms_are_named_witness :
  exists row,
    Store.transactions
      (snd (Store.createTransaction (Examples.form " Lunch " "12.5" "Food")
                                    Samples.shared))
    = (Store.transactions Samples.shared ++ [row])%list
    /\ Transaction.name row = "Lunch"%string.
Proof.
  destruct (proj1 (submitted_forms_are_named
                     (Examples.form " Lunch " "12.5" "Food")
                     (Examples.form " Lunch " "12.5" "Food")
                     Samples.shared "tx0" eq_refl) eq_refl)
    as (row & Tx & N & _).
  exists row. split; [exact Tx | exact N].
Defined.

(** The selected currency stays one of the eight listed: a code of the
    list selects the currency of that code, any other code leaves the
    selection as it is. *)
Theorem handleCurrencyChange_stays_listed (currencyCode : string)
        (currency : Forms.Currency) :
  In currency Forms.currencies ->
  In (Forms.handleCurrencyChange currencyCode currency) Forms.currencies
  /\ (In currencyCode (map Forms.code Forms.currencies) ->
      Forms.code (Forms.handleCurrencyChange currencyCode currency)
      = currencyCode)
  /\ (~ In currencyCode (map Forms.code Forms.currencies) ->
      Forms.handleCurrencyChange currencyCode currency = currency).
Proof.
  intros I. unfold Forms.handleCurrencyChange.
  destruct (find _ Forms.currencies) as [c|] eqn:F.
  - apply find_some in F. destruct F as [Ic E]. apply String.eqb_eq in E.
    split; [exact Ic|]. split; [intros _; exact E|].
    intros N. exfalso. apply N. rewrite <- E. exact (in_map Forms.code _ _ Ic).
  - split; [exact I|]. split; [|reflexivity].
    intros Ic. apply in_map_iff in Ic. destruct Ic as (c & E & Ic).
    pose proof (find_none _ _ F c Ic) as N. cbn in N.
    rewrite E, String.eqb_refl in N. discriminate N.
Qed.

Lemma handleCurrencyChange_stays_listed_witness :
  Forms.code (Forms.handleCurrencyChange
                "EUR" (Forms.mkCurrency "USD" "$" "US Dollar"))
  = "EUR"%string.
Proof.
  apply (handleCurrencyChange_stays_listed
           "EUR" (Forms.mkCurrency "USD" "$" "US Dollar")).
  - left. reflexivity.
  - right. left. reflexivity.
Defined.

End FormsFacts.

(* ===================================================================== *)
(** * The preset windows of the reports page *)
(* ===================================================================== *)

Module WindowFacts.
Import Date DateFns DateFacts DateFnsFacts.

Lemma DateFromTime_le (t : Z) :
  DateFromTime t <= Spec.daysInMonth (YearFromTime t) (MonthFromTime t).
Proof.
  unfold DateFromTime, Spec.daysInMonth, MonthFromTime, InLeapYear.
  pose proof (DayWithinYear_range t) as R. unfold DaysInYear in R.
  destruct (isLeapYear (YearFromTime t)); split_ltb; eval_monthStart; lia.
Qed.

Lemma day_of_fields (t : Z) :
  Day t
  = Spec.firstDay (YearFromTime t) (MonthFromTime t) + DateFromTime t - 1.
Proof.
  unfold Spec.firstDay, DateFromTime, DayWithinYear, InLeapYear. lia.
Qed.

(** The days of month [m] of year [y] are the days whose fields are [y]
    and [m]. *)
Lemma month_days (y m t : Z) :
  0 <= m <= 11 ->
  Spec.firstDay y m <= Day t < Spec.firstDay y m + Spec.daysInMonth y m
  <-> YearFromTime t = y /\ MonthFromTime t = m.
Proof.
  intros Hm. split.
  - intros H.
    destruct (fields_of_day y m (Day t - Spec.firstDay y m) t Hm) as (Y & M & _);
      [lia | unfold Spec.firstDay; lia | tauto].
  - intros [<- <-]. rewrite (day_of_fields t).
    pose proof (DateFromTime_pos t). pose proof (DateFromTime_le t). lia.
Qed.

Lemma year_days (y t : Z) :
  DayFromYear y <= Day t < DayFromYear (y + 1) <-> YearFromTime t = y.
Proof.
  unfold YearFromTime. split.
  - apply YearFromDay_unique.
  - intros <-. apply YearFromDay_spec.
Qed.

Lemma previous_month (y m : Z) :
  0 <= m <= 11 ->
  exists y' m',
    0 <= m' <= 11 /\ Spec.nextYM (y', m') = (y, m)
    /\ 12 * y' + m' = 12 * y + m - 1.
Proof.
  intros Hm. destruct (Z.eq_dec m 0) as [->|N].
  - exists (y - 1), 11. split; [lia|]. split; [|lia].
    unfold Spec.nextYM. change (11 =? 11) with true. cbv iota.
    f_equal. lia.
  - exists y, (m - 1). split; [lia|]. split; [|lia].
    unfold Spec.nextYM. destruct (Z.eqb_spec (m - 1) 11); [lia|].
    f_equal. lia.
Qed.

Section LocalTime.

Variable tz : Z.

Lemma localDay_MakeDate (day time : Z) :
  0 <= time < msPerDay ->
  Spec.localDay tz (UTC tz (MakeDate day time)) = day.
Proof.
  intros H. unfold Spec.localDay, UTC, LocalTime, MakeDate, Day.
  unfold_ms. Z.div_mod_to_equations. lia.
Qed.

Lemma TimeWithinDay_range (t : Z) : 0 <= TimeWithinDay t < msPerDay.
Proof. unfold TimeWithinDay. unfold_ms. Z.div_mod_to_equations. lia. Qed.

Lemma startOfMonth_eq (d : Z) :
  startOfMonth tz d
  = UTC tz (Spec.firstDay (getFullYear tz d) (getMonth tz d) * msPerDay).
Proof.
  unfold startOfMonth. rewrite startOfDay_dayStart, setDate_first.
  replace (d - (getDate tz d - 1) * msPerDay)
    with (d + (1 - getDate tz d) * msPerDay) by lia.
  rewrite dayStart_shift. unfold Spec.dayStart, Spec.localDay.
  rewrite (day_of_fields (LocalTime tz d)).
  unfold getFullYear, getMonth, getDate, UTC. lia.
Qed.

Lemma endOfMonth_eq (d : Z) :
  endOfMonth tz d
  = UTC tz ((Spec.firstDay (getFullYear tz d) (getMonth tz d)
             + Spec.daysInMonth (getFullYear tz d) (getMonth tz d))
            * msPerDay) - 1.
Proof.
  unfold endOfMonth. cbv zeta. rewrite StoreFacts.setHours_end.
  unfold Spec.dayEnd, Spec.dayStart, setFullYear, orElse.
  rewrite localDay_MakeDate by apply TimeWithinDay_range.
  pose proof (MonthFromTime_range (LocalTime tz d)) as R.
  rewrite MakeDay_next, firstDay_next by exact R.
  unfold UTC. lia.
Qed.

Lemma startOfYear_eq (d : Z) :
  startOfYear tz d = UTC tz (DayFromYear (getFullYear tz d) * msPerDay).
Proof.
  unfold startOfYear. rewrite startOfDay_dayStart.
  unfold Spec.dayStart, setFullYear, orElse.
  rewrite localDay_MakeDate by apply TimeWithinDay_range.
  unfold MakeDay. change (0 / 12) with 0. change (0 mod 12) with 0.
  cbn [monthStart]. rewrite !Z.add_0_r. f_equal. lia.
Qed.

Lemma endOfYear_eq (d : Z) :
  endOfYear tz d = UTC tz (DayFromYear (getFullYear tz d + 1) * msPerDay) - 1.
Proof.
  unfold endOfYear. cbv zeta. rewrite StoreFacts.setHours_end.
  unfold Spec.dayEnd, Spec.dayStart, setFullYear, orElse.
  rewrite localDay_MakeDate by apply TimeWithinDay_range.
  unfold MakeDay. change (0 / 12) with 0. change (0 mod 12) with 0.
  cbn [monthStart]. rewrite !Z.add_0_r. unfold UTC. lia.
Qed.

(** An instant lies between two local midnights when its local day lies
    between their days. *)
Lemma between_days (a b t : Z) :
  UTC tz (a * msPerDay) <= t <= UTC tz (b * msPerDay) - 1
  <-> a <= Day (LocalTime tz t) < b.
Proof.
  unfold UTC, LocalTime, Day. unfold_ms.
  split; intros H; Z.div_mod_to_equations; lia.
Qed.

Lemma MakeDay_normal (y k y' m' dt : Z) :
  0 <= m' <= 11 -> 12 * y' + m' = 12 * y + k ->
  MakeDay y k dt = Spec.firstDay y' m' + dt - 1.
Proof.
  intros Hm E.
  assert (k / 12 = y' - y) as Q by (Z.div_mod_to_equations; lia).
  assert (k mod 12 = m') as R by (Z.div_mod_to_equations; lia).
  unfold MakeDay, Spec.firstDay. rewrite Q, R.
  replace (y + (y' - y)) with y' by lia. reflexivity.
Qed.

(** Fields of an instant whose local day is day [dt] of a month. *)
Lemma fields_of_MakeDate (y m dt time : Z) :
  0 <= m <= 11 -> 1 <= dt <= Spec.daysInMonth y m -> 0 <= time < msPerDay ->
  getFullYear tz (UTC tz (MakeDate (Spec.firstDay y m + dt - 1) time)) = y
  /\ getMonth tz (UTC tz (MakeDate (Spec.firstDay y m + dt - 1) time)) = m
  /\ getDate tz (UTC tz (MakeDate (Spec.firstDay y m + dt - 1) time)) = dt.
Proof.
  intros Hm Hd Ht. unfold getFullYear, getMonth, getDate.
  pose proof (localDay_MakeDate (Spec.firstDay y m + dt - 1) time Ht) as L.
  unfold Spec.localDay in L.
  destruct (fields_of_day y m (dt - 1)
              (LocalTime tz (UTC tz (MakeDate (Spec.firstDay y m + dt - 1) time)))
              Hm) as (Y & M & D).
  - lia.
  - rewrite L. unfold Spec.firstDay. lia.
  - rewrite Y, M, D. repeat split; lia.
Qed.

Lemma monthIndex_fields (t y m : Z) :
  0 <= m <= 11 ->
  Spec.monthIndex tz t = 12 * y + m
  <-> getFullYear tz t = y /\ getMonth tz t = m.
Proof.
  intros Hm. unfold Spec.monthIndex.
  pose proof (MonthFromTime_range (LocalTime tz t)) as R.
  unfold getMonth. split; [|intros [-> ->]; reflexivity].
  intros E. split; lia.
Qed.

(** [subMonths(d, 2)] falls in the month two months before the month of
    [d]. *)
Lemma subMonths_two (d : Z) :
  Spec.monthIndex tz (subMonths tz d 2) = Spec.monthIndex tz d - 2.
Proof.
  pose proof (MonthFromTime_range (LocalTime tz d)) as R.
  destruct (previous_month (getFullYear tz d) (getMonth tz d) R)
    as (y1 & m1 & R1 & N1 & I1).
  destruct (previous_month y1 m1 R1) as (y2 & m2 & R2 & N2 & I2).
  pose proof (firstDay_next y2 m2 R2) as F2. rewrite N2 in F2. cbn [fst snd] in F2.
  pose proof (daysInMonth_range y2 m2 R2) as D2.
  pose proof (TimeWithinDay_range (LocalTime tz d)) as T.
  assert (Spec.monthIndex tz d - 2 = 12 * y2 + m2) as ->
      by (unfold Spec.monthIndex; lia).
  apply monthIndex_fields; [exact R2|].
  unfold subMonths, addMonths. change (- (2) =? 0) with false. cbv iota zeta.
  assert (setMonth tz d (getMonth tz d + - (2) + 1) (Some 0)
          = UTC tz (MakeDate (Spec.firstDay y2 m2 + Spec.daysInMonth y2 m2 - 1)
                             (TimeWithinDay (LocalTime tz d)))) as ->.
  { unfold setMonth, orElse.
    rewrite (MakeDay_normal _ _ y1 m1 0 R1)
      by (unfold getFullYear, getMonth in *; lia).
    f_equal. f_equal. lia. }
  destruct (fields_of_MakeDate y2 m2 (Spec.daysInMonth y2 m2)
              (TimeWithinDay (LocalTime tz d)) R2) as (Y & M & D);
    [lia | exact T |].
  rewrite Y, M, D.
  destruct (Spec.daysInMonth y2 m2 <=? getDate tz d) eqn:C.
  - split; assumption.
  - apply Z.leb_gt in C. unfold setFullYear, orElse.
    rewrite (MakeDay_normal y2 m2 y2 m2 _ R2 eq_refl).
    pose proof (DateFromTime_pos (LocalTime tz d)) as P.
    destruct (fields_of_MakeDate y2 m2 (getDate tz d)
                (TimeWithinDay (LocalTime tz d)) R2) as (Y' & M' & _);
      [unfold getDate in *; lia | exact T |].
    split; assumption.
Qed.

Lemma thisMonth_window (now t : Z) :
  startOfMonth tz now <= t <= endOfMonth tz now
  <-> Spec.monthIndex tz t = Spec.monthIndex tz now.
Proof.
  pose proof (MonthFromTime_range (LocalTime tz now)) as R.
  rewrite startOfMonth_eq, endOfMonth_eq, between_days.
  rewrite (month_days _ _ _ R). symmetry.
  exact (monthIndex_fields t _ _ R).
Qed.

Lemma last3Months_window (now t : Z) :
  startOfMonth tz (subMonths tz now 2) <= t <= endOfMonth tz now
  <-> Spec.monthIndex tz now - 2 <= Spec.monthIndex tz t
      <= Spec.monthIndex tz now.
Proof.
  pose proof (MonthFromTime_range (LocalTime tz now)) as R.
  pose proof (MonthFromTime_range (LocalTime tz t)) as Rt.
  rewrite startOfMonth_eq, endOfMonth_eq, between_days.
  destruct (previous_month (getFullYear tz now) (getMonth tz now) R)
    as (y1 & m1 & R1 & N1 & I1).
  destruct (previous_month y1 m1 R1) as (y2 & m2 & R2 & N2 & I2).
  pose proof (firstDay_next y2 m2 R2) as F2. rewrite N2 in F2.
  pose proof (firstDay_next y1 m1 R1) as F1. rewrite N1 in F1.
  cbn [fst snd] in F1, F2.
  pose proof (daysInMonth_range y2 m2 R2) as D2.
  pose proof (daysInMonth_range y1 m1 R1) as D1.
  pose proof (daysInMonth_range (getFullYear tz now) _ R) as D0.
  assert (Spec.monthIndex tz (subMonths tz now 2) = 12 * y2 + m2) as S2
      by (rewrite subMonths_two; unfold Spec.monthIndex; lia).
  apply (monthIndex_fields _ _ _ R2) in S2. destruct S2 as [-> ->].
  pose proof (month_days y2 m2 (LocalTime tz t) R2) as M2.
  pose proof (month_days y1 m1 (LocalTime tz t) R1) as M1.
  pose proof (month_days (getFullYear tz now) _ (LocalTime tz t) R) as M0.
  unfold Spec.monthIndex, getFullYear, getMonth in *.
  clear N1 N2.
  set (y0 := YearFromTime (LocalTime tz now)) in *.
  set (m0 := MonthFromTime (LocalTime tz now)) in *.
  set (yt := YearFromTime (LocalTime tz t)) in *.
  set (mt := MonthFromTime (LocalTime tz t)) in *.
  set (day := Day (LocalTime tz t)) in *.
  set (f0 := Spec.firstDay y0 m0) in *.
  set (f1 := Spec.firstDay y1 m1) in *.
  set (f2 := Spec.firstDay y2 m2) in *.
  set (d0 := Spec.daysInMonth y0 m0) in *.
  set (d1 := Spec.daysInMonth y1 m1) in *.
  set (d2 := Spec.daysInMonth y2 m2) in *.
  clearbody y0 m0 yt mt day f0 f1 f2 d0 d1 d2.
  split; intros H.
  - assert (f2 <= day < f2 + d2 \/ f1 <= day < f1 + d1
            \/ f0 <= day < f0 + d0) as [C|[C|C]]
        by (clear M2 M1 M0; lia);
      [apply (proj1 M2) in C | apply (proj1 M1) in C | apply (proj1 M0) in C];
      clear M2 M1 M0; lia.
  - assert ((yt = y2 /\ mt = m2) \/ (yt = y1 /\ mt = m1)
            \/ (yt = y0 /\ mt = m0)) as [C|[C|C]]
        by (clear M2 M1 M0; lia);
      [apply (proj2 M2) in C | apply (proj2 M1) in C | apply (proj2 M0) in C];
      clear M2 M1 M0; lia.
Qed.

Lemma thisYear_window (now t : Z) :
  startOfYear tz now <= t <= endOfYear tz now
  <-> getFullYear tz t = getFullYear tz now.
Proof.
  rewrite startOfYear_eq, endOfYear_eq, between_days. apply year_days.
Qed.

(** The preset windows are calendar periods around the current instant:
    this month is the month of [now], the last three months are the month
    of [now] and the two before, this year is the year of [now]. *)
Theorem preset_windows_are_calendar_periods (now t : Z)
        (customStartDate customEndDate : option Z) :
  (let (s, e) := Reports.dateRange tz now Reports.thisMonth
                                   customStartDate customEndDate in
   s <= t <= e <-> Spec.monthIndex tz t = Spec.monthIndex tz now)
  /\ (let (s, e) := Reports.dateRange tz now Reports.last3Months
                                      customStartDate customEndDate in
      s <= t <= e
      <-> Spec.monthIndex tz now - 2 <= Spec.monthIndex tz t
          <= Spec.monthIndex tz now)
  /\ (let (s, e) := Reports.dateRange tz now Reports.thisYear
                                      customStartDate customEndDate in
      s <= t <= e <-> getFullYear tz t = getFullYear tz now).
Proof.
  cbn [Reports.dateRange].
  split; [apply thisMonth_window|].
  split; [apply last3Months_window | apply thisYear_window].
Qed.

End LocalTime.

End WindowFacts.

(* ===================================================================== *)
(** * The reports page, from the window to the trend *)
(* ===================================================================== *)

Module ReportFacts.
Import Effect.

Lemma preset_window_ordered (tz now : Z) (period : Reports.TimePeriod)
      (customStartDate customEndDate : option Z) :
  (period = Reports.custom ->
   Date.orElse customStartDate now <= Date.orElse customEndDate now) ->
  fst (Reports.dateRange tz now period customStartDate customEndDate)
  <= snd (Reports.dateRange tz now period customStartDate customEndDate).
Proof.
  intros Custom. destruct period; cbn [Reports.dateRange fst snd].
  - pose proof (proj2 (WindowFacts.thisMonth_window tz now now) eq_refl). lia.
  - assert (Spec.monthIndex tz now - 2 <= Spec.monthIndex tz now
            <= Spec.monthIndex tz now) as I by lia.
    pose proof (proj2 (WindowFacts.last3Months_window tz now now) I). lia.
  - pose proof (proj2 (WindowFacts.thisYear_window tz now now) eq_refl). lia.
  - apply Custom. reflexivity.
Qed.



End ReportFacts.
